(** * Checkout completion: a shallow embedding of
      [saleor/checkout/complete_checkout.py]

    The orchestrator is embedded as functions in a state-and-exception
    monad over a [World]: the database tables the file reads and writes,
    plus the log of calls made to collaborators that live outside the
    database (payment gateway, mark-as-paid).  Collaborators whose code is
    not in this file (pricing, stock engine, validators, plugin manager,
    gateway) are interfaces, given as type classes; every theorem holds for
    all their implementations.

    Conventions
    - [Decimal] amounts are integers counted in the smallest unit of the
      decimal field.
    - Python's [None] is [option]'s [None]; truthiness tests ([if x:]) are
      spelled out by the [truthy_*] functions.
    - An order's primary key is its row number in the [orders] table. *)

From stdpp Require Import base numbers strings list gmap.

Local Open Scope Z_scope.

(** ** Money (the [prices] library) *)

Record Money := mkMoney { amount : Z; currency : string }.

Record TaxedMoney := mkTaxedMoney { net : Money; gross : Money }.

#[global] Instance Money_eq_dec : EqDecision Money.
Proof. solve_decision. Defined.

#[global] Instance TaxedMoney_eq_dec : EqDecision TaxedMoney.
Proof. solve_decision. Defined.

(** [Money.__sub__] and [Money.__add__]: amounts of one currency are
    combined, a currency mismatch raises [ValueError] (here [None]). *)
Definition money_sub (a b : Money) : option Money :=
  if decide (currency a = currency b)
  then Some (mkMoney (amount a - amount b) (currency a))
  else None.

Definition money_add (a b : Money) : option Money :=
  if decide (currency a = currency b)
  then Some (mkMoney (amount a + amount b) (currency a))
  else None.

(** [TaxedMoney.__sub__] / [__add__] with a [TaxedMoney] operand. *)
Definition taxed_sub (a b : TaxedMoney) : option TaxedMoney :=
  n ← money_sub (net a) (net b);
  g ← money_sub (gross a) (gross b);
  Some (mkTaxedMoney n g).

Definition taxed_add (a b : TaxedMoney) : option TaxedMoney :=
  n ← money_add (net a) (net b);
  g ← money_add (gross a) (gross b);
  Some (mkTaxedMoney n g).

(** [TaxedMoney.__sub__] with a [Money] operand: subtracted from both. *)
Definition taxed_sub_money (a : TaxedMoney) (b : Money) : option TaxedMoney :=
  n ← money_sub (net a) b;
  g ← money_sub (gross a) b;
  Some (mkTaxedMoney n g).

Definition zero_taxed_money (cur : string) : TaxedMoney :=
  mkTaxedMoney (mkMoney 0 cur) (mkMoney 0 cur).

(** [sum(xs, start=s)] over taxed amounts. *)
Fixpoint taxed_sum (xs : list TaxedMoney) (start : TaxedMoney) : option TaxedMoney :=
  match xs with
  | [] => Some start
  | x :: xs' => acc ← taxed_add start x; taxed_sum xs' acc
  end.

(** [bool(money)]: a [Money] is truthy when its amount is not zero. *)
Definition truthy_money (m : Money) : bool := negb (amount m =? 0).

(** [bool(s)] for a string and for an optional string. *)
Definition truthy_string (s : string) : bool :=
  match s with EmptyString => false | _ => true end.

Definition truthy_opt_string (s : option string) : bool :=
  match s with Some s' => truthy_string s' | None => false end.

(** [not x] for an optional object. *)
Definition is_none {A} (o : option A) : bool :=
  match o with None => true | Some _ => false end.

(** [bool(n)] for an optional integer ([None] and [0] are false). *)
Definition truthy_opt_Z (n : option Z) : bool :=
  match n with Some k => negb (k =? 0) | None => false end.

(** ** Enumerations *)

Inductive MarkAsPaidStrategy := TRANSACTION_FLOW | PAYMENT_FLOW.

Inductive OrderStatus :=
  DRAFT | UNCONFIRMED | UNFULFILLED | PARTIALLY_FULFILLED | FULFILLED | CANCELED.

Inductive OrderOrigin := ORIGIN_CHECKOUT | ORIGIN_DRAFT | ORIGIN_REISSUE.

Inductive DiscountType := SALE | PROMOTION | VOUCHER | MANUAL.

Inductive DiscountValueType := FIXED | PERCENTAGE.

Inductive CheckoutAuthorizeStatus := AUTH_NONE | AUTH_PARTIAL | AUTH_FULL.

Inductive AddressType := BILLING | SHIPPING.

Inductive TransactionKind := KIND_AUTH | KIND_CAPTURE | KIND_CONFIRM | KIND_REFUND_ONGOING.

(** The codes of [CheckoutErrorCode] / [AccountErrorCode] this file uses;
    [CODE s] is a code supplied by a collaborator. *)
Inductive ErrorCode :=
  | CHANNEL_INACTIVE
  | INVALID
  | CHECKOUT_NOT_FULLY_PAID
  | VOUCHER_NOT_APPLICABLE
  | TAX_ERROR
  | PAYMENT_ERROR
  | INACTIVE_PAYMENT
  | INSUFFICIENT_STOCK
  | CODE (s : string).

#[global] Instance MarkAsPaidStrategy_eq_dec : EqDecision MarkAsPaidStrategy.
Proof. solve_decision. Defined.
#[global] Instance OrderStatus_eq_dec : EqDecision OrderStatus.
Proof. solve_decision. Defined.
#[global] Instance DiscountType_eq_dec : EqDecision DiscountType.
Proof. solve_decision. Defined.
#[global] Instance DiscountValueType_eq_dec : EqDecision DiscountValueType.
Proof. solve_decision. Defined.
#[global] Instance CheckoutAuthorizeStatus_eq_dec : EqDecision CheckoutAuthorizeStatus.
Proof. solve_decision. Defined.
#[global] Instance TransactionKind_eq_dec : EqDecision TransactionKind.
Proof. solve_decision. Defined.
#[global] Instance ErrorCode_eq_dec : EqDecision ErrorCode.
Proof. solve_decision. Defined.

(** ** Entities read by the orchestrator *)

Abbreviation Metadata := (gmap string string).

Record Channel := mkChannel {
  slug : string;
  is_active : bool;
  automatically_confirm_all_new_orders : bool;
  allow_unpaid_orders : bool;
  order_mark_as_paid_strategy : MarkAsPaidStrategy }.

(** A voucher row without its usage counter, which lives in the database
    ([voucher_used] below) since it is updated by [F("used") + 1]. *)
Record Voucher := mkVoucher {
  voucher_pk : Z;
  code : string;
  usage_limit : option Z;
  apply_once_per_customer : bool }.

Record User := mkUser { user_pk : Z; email : string; user_is_active : bool }.

Record Address := mkAddress { address_pk : Z; address_data : string }.

Record Promotion := mkPromotion {
  promotion_pk : Z;
  promotion_name : string;
  old_sale_id : option Z }.

Record RuleInfo := mkRuleInfo { rule_pk : Z; promotion : Promotion }.

Record CheckoutLineDiscount := mkCheckoutLineDiscount {
  cld_line : Z;
  cld_type : DiscountType;
  cld_value_type : DiscountValueType;
  cld_value : Z;
  cld_amount_value : Z;
  cld_currency : string;
  cld_name : option string;
  cld_reason : option string;
  cld_promotion_rule : option Z }.

Record OrderLineDiscount := mkOrderLineDiscount {
  old_line_id : Z;
  old_type : DiscountType;
  old_value_type : DiscountValueType;
  old_value : Z;
  old_amount_value : Z;
  old_currency : string;
  old_name : option string;
  old_reason : option string;
  old_promotion_rule_id : option Z }.

(** [product_str] is [str(product)]. *)
Record Product := mkProduct {
  product_id : Z;
  product_str : string;
  tax_class_id : option Z;
  product_type_tax_class : option Z }.

(** [variant_str] is [str(variant)]; the boolean fields are the values of
    [is_shipping_required()], [is_gift_card()] and of the order line's
    [is_digital] property for this variant. *)
Record ProductVariant := mkProductVariant {
  variant_id : Z;
  variant_str : string;
  sku : option string;
  global_id : string;
  variant_is_shipping_required : bool;
  variant_is_gift_card : bool;
  variant_is_digital : bool;
  digital_content : option Z }.

Record CheckoutLine := mkCheckoutLine {
  line_pk : Z;
  quantity : Z;
  line_metadata : Metadata;
  line_private_metadata : Metadata }.

(** [promotion_discounts] is the value of [get_promotion_discounts()]. *)
Record CheckoutLineInfo := mkCheckoutLineInfo {
  line : CheckoutLine;
  variant : ProductVariant;
  product : Product;
  line_voucher : option Voucher;
  rules_info : list RuleInfo;
  promotion_discounts : list CheckoutLineDiscount }.

Record Checkout := mkCheckout {
  token : string;
  checkout_user : option User;
  checkout_email : option string;
  checkout_currency : string;
  voucher_code : option string;
  discount_amount : Z;
  discount_name : option string;
  translated_discount_name : option string;
  total : TaxedMoney;
  authorize_status : CheckoutAuthorizeStatus;
  language_code : string;
  tracking_code : option string;
  note : string;
  redirect_url : option string;
  tax_exemption : bool;
  checkout_metadata : Metadata;
  checkout_private_metadata : Metadata }.

(** The [discount] property of a checkout: its amount in its currency. *)
Definition discount (c : Checkout) : Money :=
  mkMoney (discount_amount c) (checkout_currency c).

(** [Checkout.get_customer_email]. *)
Definition checkout_get_customer_email (c : Checkout) : option string :=
  match checkout_user c with
  | Some u => Some (email u)
  | None => checkout_email c
  end.

Record DeliveryMethodInfo := mkDeliveryMethodInfo {
  dm_shipping_address : option Address;
  store_as_customer_address : bool;
  warehouse_pk : option Z;
  delivery_method_tax_class : option Z;
  delivery_method_order_field : option Z;
  delivery_method_name : option string }.

Record CheckoutInfo := mkCheckoutInfo {
  checkout : Checkout;
  channel : Channel;
  user : option User;
  billing_address : option Address;
  delivery_method_info : DeliveryMethodInfo;
  voucher : option Voucher;
  prices_entered_with_tax : bool;
  country : string }.

(** [CheckoutInfo.shipping_address], [get_customer_email], [get_country]. *)
Definition shipping_address (ci : CheckoutInfo) : option Address :=
  dm_shipping_address (delivery_method_info ci).

Definition get_customer_email (ci : CheckoutInfo) : option string :=
  match user ci with
  | Some u => Some (email u)
  | None => checkout_email (checkout ci)
  end.

Definition get_country (ci : CheckoutInfo) : string := country ci.

(** ** Rows written by the orchestrator *)

(** An order line is identified ([ol_pk]) by the checkout line it was built
    from; [order_id] is set when the line is attached to its order. *)
Record OrderLine := mkOrderLine {
  ol_pk : Z;
  order_id : option nat;
  product_name : string;
  variant_name : string;
  translated_product_name : option string;
  translated_variant_name : option string;
  product_sku : option string;
  product_variant_id : string;
  is_shipping_required : bool;
  is_gift_card : bool;
  ol_quantity : Z;
  ol_variant : ProductVariant;
  unit_price : TaxedMoney;
  undiscounted_unit_price : TaxedMoney;
  undiscounted_total_price : TaxedMoney;
  total_price : TaxedMoney;
  tax_rate : Z;
  ol_voucher_code : option string;
  unit_discount : Money;
  unit_discount_reason : option string;
  unit_discount_value : Z;
  base_unit_price : Money;
  undiscounted_base_unit_price : Money;
  ol_metadata : Metadata;
  ol_private_metadata : Metadata;
  ol_tax_class : option Z;
  sale_id : option string }.

Record OrderLineInfo := mkOrderLineInfo {
  oli_line : OrderLine;
  oli_quantity : Z;
  oli_is_digital : bool;
  oli_variant : ProductVariant;
  oli_digital_content : option Z;
  oli_warehouse_pk : option Z;
  line_discounts : list OrderLineDiscount }.

(** A row of [order.discounts]. *)
Record OrderDiscount := mkOrderDiscount {
  od_type : DiscountType;
  od_value_type : DiscountValueType;
  od_value : Z;
  od_name : option string;
  od_translated_name : option string;
  od_currency : string;
  od_amount_value : Z }.

(** The order row together with its related rows ([discounts], [lines],
    line discounts), which are only reachable through it. *)
Record Order := mkOrder {
  order_pk : nat;
  checkout_token : string;
  status : OrderStatus;
  origin : OrderOrigin;
  order_channel : Channel;
  should_refresh_prices : bool;
  order_tax_exemption : bool;
  order_language_code : string;
  tracking_client_id : string;
  order_total : TaxedMoney;
  undiscounted_total : option TaxedMoney;
  shipping_tax_rate : Z;
  order_voucher : option Voucher;
  order_user : option User;
  user_email : option string;
  order_billing_address : option Address;
  order_shipping_address : option Address;
  customer_note : string;
  base_shipping_price : Money;
  shipping_price : TaxedMoney;
  weight : Z;
  shipping_tax_class : option Z;
  shipping_method : option Z;
  shipping_method_name : option string;
  order_metadata : Metadata;
  order_private_metadata : Metadata;
  order_redirect_url : option string;
  discounts : list OrderDiscount;
  order_lines : list OrderLine;
  order_line_discounts : list OrderLineDiscount }.

Record Payment := mkPayment {
  payment_pk : Z;
  payment_checkout : option string;
  payment_order : option nat;
  payment_is_active : bool;
  to_confirm : bool;
  gateway_name : string;
  payment_token : string;
  psp_reference : string }.

(** A gateway transaction of a payment. *)
Record Transaction := mkTransaction {
  txn_payment : Z;
  kind : TransactionKind;
  is_success : bool;
  error : string;
  customer_id : option string;
  action_required : bool;
  action_required_data : Metadata }.

(** A payment transaction item of the transaction flow. *)
Record TransactionItem := mkTransactionItem {
  ti_pk : Z;
  ti_checkout : option string;
  ti_order : option nat }.

Record Stock := mkStock { stock_pk : Z; stock_product_variant_id : Z }.

Record Reservation := mkReservation {
  quantity_reserved : Z;
  reserved_until : Z;
  reservation_stock : Stock;
  reservation_checkout_line : CheckoutLine }.

Record Allocation := mkAllocation {
  allocation_order_line : string;
  allocation_stock : Z;
  quantity_allocated : Z }.

(** Callbacks registered with [transaction.on_commit]. *)
Inductive Hook :=
  | HookOrderCreated (order : nat)
  | HookSendOrderConfirmation (order : nat) (url : option string).

(** Calls to collaborators whose effect is outside the database. *)
Inductive Event :=
  | EvGatewayConfirm (payment : Z)
  | EvGatewayProcessPayment (payment : Z) (customer : option string) (store_source : bool)
  | EvRefundOrVoid (payment : Z)
  | EvStoreCustomerId (user : Z) (gateway : string) (customer : string)
  | EvMarkOrderAsPaid (order : nat).

(** ** The database and the world *)

Record Db := mkDb {
  checkouts : gmap string Checkout;
  orders : list Order;
  voucher_used : gmap Z Z;
  voucher_customers : list (Z * string);
  reservations : list Reservation;
  allocations : list Allocation;
  payments : list Payment;
  gateway_transactions : list Transaction;
  payment_transactions : list TransactionItem;
  address_book : list (Z * Address);
  address_seq : Z;
  on_commit : list Hook }.

(** [log] and [clock] are outside the database: a rollback keeps them. *)
Record World := mkWorld { db : Db; log : list Event; clock : Z }.

Definition set_checkouts (f : gmap string Checkout → gmap string Checkout) (d : Db) : Db :=
  mkDb (f (checkouts d)) (orders d) (voucher_used d) (voucher_customers d)
    (reservations d) (allocations d) (payments d) (gateway_transactions d)
    (payment_transactions d) (address_book d) (address_seq d) (on_commit d).

Definition set_orders (f : list Order → list Order) (d : Db) : Db :=
  mkDb (checkouts d) (f (orders d)) (voucher_used d) (voucher_customers d)
    (reservations d) (allocations d) (payments d) (gateway_transactions d)
    (payment_transactions d) (address_book d) (address_seq d) (on_commit d).

Definition set_voucher_used (f : gmap Z Z → gmap Z Z) (d : Db) : Db :=
  mkDb (checkouts d) (orders d) (f (voucher_used d)) (voucher_customers d)
    (reservations d) (allocations d) (payments d) (gateway_transactions d)
    (payment_transactions d) (address_book d) (address_seq d) (on_commit d).

Definition set_voucher_customers (f : list (Z * string) → list (Z * string)) (d : Db) : Db :=
  mkDb (checkouts d) (orders d) (voucher_used d) (f (voucher_customers d))
    (reservations d) (allocations d) (payments d) (gateway_transactions d)
    (payment_transactions d) (address_book d) (address_seq d) (on_commit d).

Definition set_reservations (f : list Reservation → list Reservation) (d : Db) : Db :=
  mkDb (checkouts d) (orders d) (voucher_used d) (voucher_customers d)
    (f (reservations d)) (allocations d) (payments d) (gateway_transactions d)
    (payment_transactions d) (address_book d) (address_seq d) (on_commit d).

Definition set_allocations (f : list Allocation → list Allocation) (d : Db) : Db :=
  mkDb (checkouts d) (orders d) (voucher_used d) (voucher_customers d)
    (reservations d) (f (allocations d)) (payments d) (gateway_transactions d)
    (payment_transactions d) (address_book d) (address_seq d) (on_commit d).

Definition set_payments (f : list Payment → list Payment) (d : Db) : Db :=
  mkDb (checkouts d) (orders d) (voucher_used d) (voucher_customers d)
    (reservations d) (allocations d) (f (payments d)) (gateway_transactions d)
    (payment_transactions d) (address_book d) (address_seq d) (on_commit d).

Definition set_gateway_transactions (f : list Transaction → list Transaction) (d : Db) : Db :=
  mkDb (checkouts d) (orders d) (voucher_used d) (voucher_customers d)
    (reservations d) (allocations d) (payments d) (f (gateway_transactions d))
    (payment_transactions d) (address_book d) (address_seq d) (on_commit d).

Definition set_payment_transactions (f : list TransactionItem → list TransactionItem) (d : Db) : Db :=
  mkDb (checkouts d) (orders d) (voucher_used d) (voucher_customers d)
    (reservations d) (allocations d) (payments d) (gateway_transactions d)
    (f (payment_transactions d)) (address_book d) (address_seq d) (on_commit d).

Definition set_address_book (f : list (Z * Address) → list (Z * Address)) (d : Db) : Db :=
  mkDb (checkouts d) (orders d) (voucher_used d) (voucher_customers d)
    (reservations d) (allocations d) (payments d) (gateway_transactions d)
    (payment_transactions d) (f (address_book d)) (address_seq d) (on_commit d).

Definition set_address_seq (f : Z → Z) (d : Db) : Db :=
  mkDb (checkouts d) (orders d) (voucher_used d) (voucher_customers d)
    (reservations d) (allocations d) (payments d) (gateway_transactions d)
    (payment_transactions d) (address_book d) (f (address_seq d)) (on_commit d).

Definition set_on_commit (f : list Hook → list Hook) (d : Db) : Db :=
  mkDb (checkouts d) (orders d) (voucher_used d) (voucher_customers d)
    (reservations d) (allocations d) (payments d) (gateway_transactions d)
    (payment_transactions d) (address_book d) (address_seq d) (f (on_commit d)).

(** ** Exceptions and the monad *)

Record InsufficientStockData := mkInsufficientStockData {
  isd_variant : Z;
  isd_available : Z }.

Inductive Exn :=
  | InsufficientStock (items : list InsufficientStockData)
  | GiftCardNotApplicable (message : string) (code : ErrorCode)
  | NotApplicable (message : string)
  | TaxError (message : string)
  | PaymentError (message : string)
  | ValidationError (field : option string) (message : string) (code : ErrorCode)
  | ValueError
  | IndexError.

Inductive Result (A : Type) :=
  | Ok (a : A)
  | Raise (e : Exn).

Arguments Ok {A} a.
Arguments Raise {A} e.

Definition M (A : Type) : Type := World → Result A * World.

Definition ret {A} (a : A) : M A := λ w, (Ok a, w).

Definition raise {A} (e : Exn) : M A := λ w, (Raise e, w).

Definition bind {A B} (m : M A) (k : A → M B) : M B :=
  λ w, match m w with
       | (Ok a, w') => k a w'
       | (Raise e, w') => (Raise e, w')
       end.

Notation "x <- m ;; k" := (bind m (λ x, k))
  (at level 100, m at next level, right associativity).
Notation "m ;;; k" := (bind m (λ _, k))
  (at level 100, right associativity).

(** [try: m  except ...: h e]; a handler re-raises what it does not catch. *)
Definition try_except {A} (m : M A) (h : Exn → M A) : M A :=
  λ w, match m w with
       | (Ok a, w') => (Ok a, w')
       | (Raise e, w') => h e w'
       end.

(** A pure partial operation ([Money] arithmetic): [None] is [ValueError]. *)
Definition value_of {A} (o : option A) : M A :=
  match o with Some a => ret a | None => raise ValueError end.

Definition get_db : M Db := λ w, (Ok (db w), w).

Definition modify_db (f : Db → Db) : M unit :=
  λ w, (Ok tt, mkWorld (f (db w)) (log w) (clock w)).

Definition emit (e : Event) : M unit :=
  λ w, (Ok tt, mkWorld (db w) (log w ++ [e]) (clock w)).

(** [when c m]: [if c: m]. *)
Definition when (c : bool) (m : M unit) : M unit := if c then m else ret tt.

(** A list comprehension whose body may raise. *)
Fixpoint for_each {A B} (f : A → M B) (l : list A) : M (list B) :=
  match l with
  | [] => ret []
  | x :: l' => y <- f x ;; ys <- for_each f l' ;; ret (y :: ys)
  end.

(** [with transaction.atomic(): m] (also [traced_atomic_transaction], as a
    context manager or decorator): the block's database writes are kept
    when it ends normally and undone when an exception leaves it. *)
Definition atomic {A} (m : M A) : M A :=
  λ w, match m w with
       | (Ok a, w') => (Ok a, w')
       | (Raise e, w') => (Raise e, mkWorld (db w) (log w') (clock w'))
       end.

(** [with transaction_with_commit_on_errors(): m]: the block's database
    writes are committed also when an exception leaves it; the exception is
    raised again after the commit. *)
Definition transaction_with_commit_on_errors {A} (m : M A) : M A := m.

(** [transaction.on_commit(hook)]: the callback is queued in the open
    transaction (and is discarded with it on rollback). *)
Definition transaction_on_commit (h : Hook) : M unit :=
  modify_db (set_on_commit (λ q, q ++ [h])).

(** ** Collaborators

    The code of these functions is outside [complete_checkout.py]; each
    interface lists what the orchestrator calls, with the exceptions the
    callee is documented to raise as its failure results.  [Db] arguments
    are the persisted state a collaborator reads. *)

(** A [ValidationError]: field, message and code. *)
Definition VError : Type := option string * string * ErrorCode.

Definition raise_validation {A} (e : VError) : M A :=
  raise (ValidationError e.1.1 e.1.2 e.2).

(** Run a validator that raises [ValidationError] or returns nothing. *)
Definition validate (r : option VError) : M unit :=
  match r with Some e => raise_validation e | None => ret tt end.

Record SiteSettings := mkSiteSettings { reservation_enabled : bool }.

(** [calculations.*], [base_calculations.*] and [Checkout.get_total_weight]:
    pure functions of the checkout state. *)
Class Calculations := {
  calculate_base_line_unit_price : CheckoutLineInfo → Channel → Money;
  calculate_undiscounted_base_line_unit_price : CheckoutLineInfo → Channel → Money;
  calculate_undiscounted_base_line_total_price : CheckoutLineInfo → Channel → Money;
  checkout_line_total : CheckoutInfo → list CheckoutLineInfo → CheckoutLineInfo → TaxedMoney;
  checkout_line_unit_price : CheckoutInfo → list CheckoutLineInfo → CheckoutLineInfo → TaxedMoney;
  checkout_line_tax_rate : CheckoutInfo → list CheckoutLineInfo → CheckoutLineInfo → Z;
  calculate_checkout_total_with_gift_cards :
    CheckoutInfo → list CheckoutLineInfo → option Address → TaxedMoney;
  checkout_shipping_price : CheckoutInfo → list CheckoutLineInfo → option Address → TaxedMoney;
  checkout_shipping_tax_rate : CheckoutInfo → list CheckoutLineInfo → option Address → Z;
  checkout_subtotal : CheckoutInfo → list CheckoutLineInfo → option Address → TaxedMoney;
  base_checkout_delivery_price : CheckoutInfo → list CheckoutLineInfo → Money;
  get_total_weight : Checkout → list CheckoutLineInfo → Z;
  (** the total that [fetch_checkout_data] recalculates and stores *)
  fetch_checkout_data_total : CheckoutInfo → list CheckoutLineInfo → TaxedMoney }.

(** [discount.utils] (the usage ledger itself is modelled below),
    [checkout.utils.get_voucher_for_checkout_info]. *)
Class Discounts := {
  get_voucher_for_checkout_info : CheckoutInfo → option Voucher;
  (** may this customer still use the voucher (once per customer)? *)
  customer_usage_allowed : list (Z * string) → Voucher → option string → bool;
  get_sale_id : Promotion → string;
  prepare_promotion_discount_reason : Promotion → string → string }.

(** [warehouse.*]: availability check, allocation, stock look-up. *)
Class Warehouse := {
  check_stock_and_preorder_quantity_bulk :
    Db → list ProductVariant → string → list Z → string → DeliveryMethodInfo →
    list CheckoutLineInfo → option (list InsufficientStockData);
  allocate_stocks :
    Db → list OrderLineInfo → string → Channel → option Z → list CheckoutLine →
    list InsufficientStockData + list Allocation;
  allocate_preorders :
    Db → list OrderLineInfo → string → bool → list CheckoutLine → list Allocation;
  get_variants_stocks_for_country :
    Db → string → string → list ProductVariant → list Stock }.

(** Gift cards: [_validate_gift_cards], [add_gift_cards_to_order]; a
    failure is [GiftCardNotApplicable message code]. *)
Class GiftCards := {
  _validate_gift_cards : Db → Checkout → option (string * ErrorCode);
  add_gift_cards_to_order :
    Db → CheckoutInfo → Order → Money → option User → option (string * ErrorCode) }.

(** [checkout_cleaner], [validate_storefront_url], [account.utils]. *)
Class Validators := {
  clean_checkout_shipping : CheckoutInfo → list CheckoutLineInfo → option VError;
  clean_checkout_payment :
    CheckoutInfo → list CheckoutLineInfo → option Payment → option VError;
  clean_billing_address : CheckoutInfo → option VError;
  validate_storefront_url : string → option VError;
  retrieve_user_by_email : string → option User;
  store_user_address :
    User → Address → AddressType → list (Z * Address) → list (Z * Address) }.

(** The plugin manager: [preprocess_order_creation] raises [TaxError]. *)
Class PluginsManager := {
  preprocess_order_creation : CheckoutInfo → list CheckoutLineInfo → option string }.

(** The payment gateway: a call answers with a transaction or raises
    [PaymentError] (left). *)
Class Gateway := {
  confirm : Payment → option Metadata → string → string + Transaction;
  process_payment :
    Payment → string → option string → bool → option Metadata → string →
    string + Transaction;
  fetch_customer_id : User → string → option string }.

(** [checkout.fetch], site settings, and what happens outside this worker:
    [concurrent_activity] is what other workers and the payment provider do
    to the database while no lock is held; [tick] is how the clock moves
    between two readings; [RESERVE_DURATION] is the setting, in seconds. *)
Class Environment := {
  fetch_checkout_lines : Db → Checkout → option Voucher → bool → list CheckoutLineInfo;
  fetch_checkout_info_for :
    Db → Checkout → list CheckoutLineInfo → option Voucher → CheckoutInfo;
  (** the rows [values("product_id", "name")] of the translations in a
      language, and the same for variants *)
  product_translation_rows : Db → list Product → string → list (Z * option string);
  variant_translation_rows : Db → list ProductVariant → string → list (Z * option string);
  current_site_settings : SiteSettings;
  concurrent_activity : Db → Db;
  tick : Z → Z;
  RESERVE_DURATION : Z }.

(** ** In-memory updates of the checkout objects *)

Definition with_total (t : TaxedMoney) (c : Checkout) : Checkout :=
  mkCheckout (token c) (checkout_user c) (checkout_email c) (checkout_currency c)
    (voucher_code c) (discount_amount c) (discount_name c)
    (translated_discount_name c) t (authorize_status c) (language_code c)
    (tracking_code c) (note c) (redirect_url c) (tax_exemption c)
    (checkout_metadata c) (checkout_private_metadata c).

Definition with_redirect_url (u : option string) (c : Checkout) : Checkout :=
  mkCheckout (token c) (checkout_user c) (checkout_email c) (checkout_currency c)
    (voucher_code c) (discount_amount c) (discount_name c)
    (translated_discount_name c) (total c) (authorize_status c) (language_code c)
    (tracking_code c) (note c) u (tax_exemption c)
    (checkout_metadata c) (checkout_private_metadata c).

Definition with_voucher_code (v : option string) (c : Checkout) : Checkout :=
  mkCheckout (token c) (checkout_user c) (checkout_email c) (checkout_currency c)
    v (discount_amount c) (discount_name c)
    (translated_discount_name c) (total c) (authorize_status c) (language_code c)
    (tracking_code c) (note c) (redirect_url c) (tax_exemption c)
    (checkout_metadata c) (checkout_private_metadata c).

Definition with_metadata (m pm : Metadata) (c : Checkout) : Checkout :=
  mkCheckout (token c) (checkout_user c) (checkout_email c) (checkout_currency c)
    (voucher_code c) (discount_amount c) (discount_name c)
    (translated_discount_name c) (total c) (authorize_status c) (language_code c)
    (tracking_code c) (note c) (redirect_url c) (tax_exemption c) m pm.

Definition with_checkout (c : Checkout) (ci : CheckoutInfo) : CheckoutInfo :=
  mkCheckoutInfo c (channel ci) (user ci) (billing_address ci)
    (delivery_method_info ci) (voucher ci) (prices_entered_with_tax ci) (country ci).

Definition with_user (u : option User) (ci : CheckoutInfo) : CheckoutInfo :=
  mkCheckoutInfo (checkout ci) (channel ci) u (billing_address ci)
    (delivery_method_info ci) (voucher ci) (prices_entered_with_tax ci) (country ci).

(** [checkout.save(...)]: the row is written if the checkout still exists
    (an [UPDATE] of a deleted row changes nothing). *)
Definition save_checkout (c : Checkout) : M unit :=
  modify_db (set_checkouts (λ m,
    match m !! token c with Some _ => <[token c := c]> m | None => m end)).

(** [checkout.delete()]. *)
Definition delete_checkout_row (c : Checkout) : M unit :=
  modify_db (set_checkouts (delete (token c))).

(** ** The voucher usage ledger *)

(** The [used] counter of a voucher. *)
Definition used (d : Db) (v : Voucher) : Z :=
  default 0 (voucher_used d !! voucher_pk v).

(** Modelled from the spec: [increase_voucher_usage] of [discount.utils]
    is absent; the ledger "increments ... voucher usage counters", the
    usage count "increases by exactly 1". *)
Definition increase_voucher_usage (v : Voucher) : M unit :=
  modify_db (set_voucher_used (λ m,
    <[voucher_pk v := default 0 (m !! voucher_pk v) + 1]> m)).

(** Modelled from the spec: [release_voucher_usage] of [discount.utils] is
    absent; it is "the compensating action" of the increment, "safe with a
    null voucher": for a usage-limited voucher the counter goes back by one,
    and the customer's once-per-customer record is removed. *)
Definition release_voucher_usage (voucher : option Voucher)
    (user_email : option string) : M unit :=
  match voucher with
  | None => ret tt
  | Some v =>
      when (truthy_opt_Z (usage_limit v))
        (modify_db (set_voucher_used (λ m,
           <[voucher_pk v := default 0 (m !! voucher_pk v) - 1]> m))) ;;;
      match user_email with
      | Some e =>
          when (truthy_string e)
            (modify_db (set_voucher_customers
               (filter (λ r, r ≠ (voucher_pk v, e)))))
      | None => ret tt
      end
  end.

(** Modelled from the spec: [payment_refund_or_void] of the gateway is
    absent; a "refund-or-void on the payment (when a payment exists)". *)
Definition payment_refund_or_void (payment : option Payment) : M unit :=
  match payment with
  | Some p => emit (EvRefundOrVoid (payment_pk p))
  | None => ret tt
  end.

Section Orchestrator.

Context {pricing : Calculations} {ledger : Discounts} {warehouse : Warehouse}
  {cards : GiftCards} {cleaner : Validators} {manager : PluginsManager}
  {psp : Gateway} {environment : Environment}.

(** Modelled from the spec: [add_voucher_usage_by_customer] of
    [discount.utils] is absent; the ledger records the customer's use of a
    once-per-customer voucher and is one source of the "voucher no longer
    applicable" failure. *)
Definition add_voucher_usage_by_customer (v : Voucher)
    (customer_email : option string) : M unit :=
  d <- get_db ;;
  if customer_usage_allowed (voucher_customers d) v customer_email
  then modify_db (set_voucher_customers
         (λ l, l ++ [(voucher_pk v, default EmptyString customer_email)]))
  else raise (NotApplicable "This offer is only valid once per customer.").

Definition _process_voucher_data_for_order (checkout_info : CheckoutInfo)
    : M (option Voucher) :=
  let checkout := checkout checkout_info in
  let voucher := get_voucher_for_checkout_info checkout_info in
  if truthy_opt_string (voucher_code checkout) && is_none voucher
  then raise (NotApplicable "Voucher expired in meantime. Order placement aborted.")
  else
    match voucher with
    | None => ret None
    | Some v =>
        when (truthy_opt_Z (usage_limit v)) (increase_voucher_usage v) ;;;
        when (apply_once_per_customer v)
          (add_voucher_usage_by_customer v (get_customer_email checkout_info)) ;;;
        ret (Some v)
    end.


(** *** Order data prepared before the payment *)

Record ShippingData := mkShippingData {
  sd_shipping_address : option Address;
  sd_base_shipping_price : Money;
  sd_shipping_price : TaxedMoney;
  sd_weight : Z;
  sd_shipping_tax_class : option Z;
  sd_shipping_method : option Z;
  sd_shipping_method_name : option string }.

Record UserData := mkUserData {
  ud_user : option User;
  ud_user_email : option string;
  ud_billing_address : option Address;
  ud_customer_note : string }.

(** The [order_data] dictionary; [od_voucher] is [order_data.get("voucher")]. *)
Record OrderData := mkOrderData {
  od_shipping : ShippingData;
  od_user : UserData;
  od_lines : list OrderLineInfo;
  od_language_code : string;
  od_tracking_client_id : string;
  od_total : TaxedMoney;
  od_undiscounted_total : TaxedMoney;
  od_shipping_tax_rate : Z;
  od_voucher : option Voucher;
  od_total_price_left : Money }.

(** [user.addresses.filter(pk=address.pk).exists()]. *)
Definition user_has_address (d : Db) (u : User) (a : Address) : bool :=
  existsb (λ r, (r.1 =? user_pk u) && (address_pk r.2 =? address_pk a))
    (address_book d).

(** [address.get_copy()]: a new address row with the same data. *)
Definition get_copy (a : Address) : M Address :=
  d <- get_db ;;
  modify_db (set_address_seq (λ n, n + 1)) ;;;
  ret (mkAddress (address_seq d) (address_data a)).

(** The address an order keeps: stored in the user's book, and copied when
    the checkout's own address row belongs to that book. *)
Definition store_and_copy (u : User) (a : Address) (t : AddressType)
    : M (option Address) :=
  modify_db (set_address_book (store_user_address u a t)) ;;;
  d <- get_db ;;
  if user_has_address d u a
  then (c <- get_copy a ;; ret (Some c))
  else ret (Some a).

Definition _process_shipping_data_for_order (checkout_info : CheckoutInfo)
    (base_shipping_price : Money) (shipping_price : TaxedMoney)
    (lines : list CheckoutLineInfo) : M ShippingData :=
  let delivery_method_info := delivery_method_info checkout_info in
  let shipping_address := dm_shipping_address delivery_method_info in
  shipping_address <-
    match store_as_customer_address delivery_method_info,
          user checkout_info, shipping_address with
    | true, Some u, Some a => store_and_copy u a SHIPPING
    | _, _, _ => ret shipping_address
    end ;;
  ret (mkShippingData shipping_address base_shipping_price shipping_price
         (get_total_weight (checkout checkout_info) lines)
         (delivery_method_tax_class delivery_method_info)
         (delivery_method_order_field delivery_method_info)
         (delivery_method_name delivery_method_info)).

Definition _process_user_data_for_order (checkout_info : CheckoutInfo) : M UserData :=
  let billing_address := billing_address checkout_info in
  billing_address <-
    match user checkout_info, billing_address with
    | Some u, Some a => store_and_copy u a BILLING
    | _, _ => ret billing_address
    end ;;
  ret (mkUserData (user checkout_info) (get_customer_email checkout_info)
         billing_address (note (checkout checkout_info))).

Definition _create_order_line_discounts (checkout_line_info : CheckoutLineInfo)
    (order_line_pk : Z) : list OrderLineDiscount :=
  map (λ d, mkOrderLineDiscount order_line_pk (cld_type d) (cld_value_type d)
              (cld_value d) (cld_amount_value d) (cld_currency d) (cld_name d)
              (cld_reason d) (cld_promotion_rule d))
      (promotion_discounts checkout_line_info).

Definition _create_line_for_order (checkout_info : CheckoutInfo)
    (lines : list CheckoutLineInfo) (checkout_line_info : CheckoutLineInfo)
    (products_translation variants_translation : gmap Z (option string))
    (prices_entered_with_tax : bool) : M OrderLineInfo :=
  let checkout_line := line checkout_line_info in
  let quantity := quantity checkout_line in
  let variant := variant checkout_line_info in
  let product := product checkout_line_info in
  let product_name := product_str product in
  let variant_name := variant_str variant in
  let translated_product_name :=
    default (Some EmptyString) (products_translation !! product_id product) in
  let translated_variant_name :=
    default (Some EmptyString) (variants_translation !! variant_id variant) in
  let translated_product_name :=
    if bool_decide (translated_product_name = Some product_name)
    then Some EmptyString else translated_product_name in
  let translated_variant_name :=
    if bool_decide (translated_variant_name = Some variant_name)
    then Some EmptyString else translated_variant_name in
  let base_unit_price :=
    calculate_base_line_unit_price checkout_line_info (channel checkout_info) in
  let undiscounted_base_unit_price :=
    calculate_undiscounted_base_line_unit_price checkout_line_info (channel checkout_info) in
  let undiscounted_base_total_price :=
    calculate_undiscounted_base_line_total_price checkout_line_info (channel checkout_info) in
  let undiscounted_unit_price :=
    mkTaxedMoney undiscounted_base_unit_price undiscounted_base_unit_price in
  let undiscounted_total_price :=
    mkTaxedMoney undiscounted_base_total_price undiscounted_base_total_price in
  let total_line_price := checkout_line_total checkout_info lines checkout_line_info in
  let unit_price := checkout_line_unit_price checkout_info lines checkout_line_info in
  let tax_rate := checkout_line_tax_rate checkout_info lines checkout_line_info in
  let voucher_code :=
    match line_voucher checkout_line_info with
    | Some v => Some (code v)
    | None => None
    end in
  discount_price <- value_of (taxed_sub undiscounted_unit_price unit_price) ;;
  let discount_amount :=
    if prices_entered_with_tax then gross discount_price else net discount_price in
  let unit_discount_reason :=
    match voucher_code with
    | Some c => if truthy_string c then Some ("Voucher code: " +:+ c) else None
    | None => None
    end in
  let tax_class :=
    if truthy_opt_Z (tax_class_id product)
    then tax_class_id product else product_type_tax_class product in
  let order_line_pk := line_pk checkout_line in
  let line_discounts := _create_order_line_discounts checkout_line_info order_line_pk in
  promoted <-
    match line_discounts with
    | [] => ret (None, unit_discount_reason)
    | _ :: _ =>
        match rules_info checkout_line_info with
        | [] => raise IndexError
        | rule :: _ =>
            let promotion := promotion rule in
            let sale_id := get_sale_id promotion in
            let promotion_discount_reason :=
              prepare_promotion_discount_reason promotion sale_id in
            ret (Some sale_id,
                 Some (match unit_discount_reason with
                       | Some r =>
                           if truthy_string r
                           then r +:+ " & " +:+ promotion_discount_reason
                           else promotion_discount_reason
                       | None => promotion_discount_reason
                       end))
        end
    end ;;
  let '(sale, unit_discount_reason) := promoted in
  let line :=
    mkOrderLine order_line_pk None product_name variant_name
      translated_product_name translated_variant_name (sku variant)
      (global_id variant) (variant_is_shipping_required variant)
      (variant_is_gift_card variant) quantity variant unit_price
      undiscounted_unit_price undiscounted_total_price total_line_price tax_rate
      voucher_code discount_amount unit_discount_reason (amount discount_amount)
      base_unit_price undiscounted_base_unit_price (line_metadata checkout_line)
      (line_private_metadata checkout_line) tax_class sale in
  let is_digital := variant_is_digital variant in
  ret (mkOrderLineInfo line quantity is_digital variant
         (if is_digital then digital_content variant else None)
         (warehouse_pk (delivery_method_info checkout_info)) line_discounts).


(** A dict comprehension over rows: a later row replaces an earlier one
    with the same key. *)
Definition dict_of_rows `{Countable K} {V} (rows : list (K * V)) : gmap K V :=
  foldl (λ m r, <[r.1 := r.2]> m) ∅ rows.

(** [raise InsufficientStock] / [GiftCardNotApplicable] from a
    collaborator's failure result. *)
Definition check_stock (r : option (list InsufficientStockData)) : M unit :=
  match r with Some items => raise (InsufficientStock items) | None => ret tt end.

Definition check_gift_cards (r : option (string * ErrorCode)) : M unit :=
  match r with Some e => raise (GiftCardNotApplicable e.1 e.2) | None => ret tt end.

Definition _create_lines_for_order (checkout_info : CheckoutInfo)
    (lines : list CheckoutLineInfo) (prices_entered_with_tax : bool)
    : M (list OrderLineInfo) :=
  let translation_language_code := language_code (checkout checkout_info) in
  let country_code := get_country checkout_info in
  let variants := map variant lines in
  let quantities := map (λ line_info, quantity (line line_info)) lines in
  let products := map product lines in
  d <- get_db ;;
  let product_translations :=
    dict_of_rows (product_translation_rows d products translation_language_code) in
  let variants_translation :=
    dict_of_rows (variant_translation_rows d variants translation_language_code) in
  check_stock
    (check_stock_and_preorder_quantity_bulk d variants country_code quantities
       (slug (channel checkout_info)) (delivery_method_info checkout_info) lines) ;;;
  for_each
    (λ checkout_line_info,
       _create_line_for_order checkout_info lines checkout_line_info
         product_translations variants_translation prices_entered_with_tax)
    lines.

(** [a or b] on optional objects. *)
Definition or_else {A} (a b : option A) : option A :=
  match a with Some _ => a | None => b end.

Definition _prepare_order_data (checkout_info : CheckoutInfo)
    (lines : list CheckoutLineInfo) (prices_entered_with_tax : bool) : M OrderData :=
  let checkout := checkout checkout_info in
  let address := or_else (shipping_address checkout_info) (billing_address checkout_info) in
  let taxed_total := calculate_checkout_total_with_gift_cards checkout_info lines address in
  let base_shipping_price := base_checkout_delivery_price checkout_info lines in
  let shipping_total := checkout_shipping_price checkout_info lines address in
  let shipping_tax_rate := checkout_shipping_tax_rate checkout_info lines address in
  shipping <-
    _process_shipping_data_for_order checkout_info base_shipping_price shipping_total lines ;;
  user_data <- _process_user_data_for_order checkout_info ;;
  order_lines <- _create_lines_for_order checkout_info lines prices_entered_with_tax ;;
  lines_total <-
    value_of (taxed_sum
                (map (λ l, undiscounted_total_price (oli_line l)) order_lines)
                (zero_taxed_money (currency (net taxed_total)))) ;;
  undiscounted_total <- value_of (taxed_add lines_total shipping_total) ;;
  d <- get_db ;;
  check_gift_cards (_validate_gift_cards d checkout) ;;;
  voucher <- _process_voucher_data_for_order checkout_info ;;
  total_price_left <-
    value_of (s ← taxed_add (checkout_subtotal checkout_info lines address) shipping_total;
              taxed_sub_money s (discount checkout)) ;;
  try_except
    (match preprocess_order_creation checkout_info lines with
     | Some msg => raise (TaxError msg)
     | None => ret tt
     end)
    (λ e, match e with
          | TaxError _ =>
              release_voucher_usage voucher (ud_user_email user_data) ;;;
              raise e
          | _ => raise e
          end) ;;;
  ret (mkOrderData shipping user_data order_lines (language_code checkout)
         (default EmptyString (tracking_code checkout)) taxed_total
         undiscounted_total shipping_tax_rate voucher (gross total_price_left)).

(** *** Order rows *)

(** Modelled from the spec: the look-up of [Order.objects] by checkout
    token ([get_by_checkout_token], and [filter(checkout_token=...).first()])
    is code of the order manager, absent here: "look up by checkout token;
    if an Order already exists for that token, return it".  Orders are
    listed newest first, so the look-up takes the last row created. *)
Definition order_by_token (d : Db) (tok : string) : option Order :=
  last (filter (λ o, checkout_token o = tok) (orders d)).

(** [Order.objects.create(...)]: the new row takes the next row number. *)
Definition create_order_row (row : nat → Order) : M Order :=
  d <- get_db ;;
  let order := row (length (orders d)) in
  modify_db (set_orders (λ l, l ++ [order])) ;;;
  ret order.

(** [order.save()]: the row of this order is overwritten. *)
Definition save_order (order : Order) : M unit :=
  modify_db (set_orders (λ l, <[order_pk order := order]> l)).

Definition add_discount (r : OrderDiscount) (o : Order) : Order :=
  mkOrder (order_pk o) (checkout_token o) (status o) (origin o) (order_channel o)
    (should_refresh_prices o) (order_tax_exemption o) (order_language_code o)
    (tracking_client_id o) (order_total o) (undiscounted_total o)
    (shipping_tax_rate o) (order_voucher o) (order_user o) (user_email o)
    (order_billing_address o) (order_shipping_address o) (customer_note o)
    (base_shipping_price o) (shipping_price o) (weight o) (shipping_tax_class o)
    (shipping_method o) (shipping_method_name o) (order_metadata o)
    (order_private_metadata o) (order_redirect_url o)
    (discounts o ++ [r]) (order_lines o) (order_line_discounts o).

Definition add_lines (ls : list OrderLine) (ds : list OrderLineDiscount)
    (o : Order) : Order :=
  mkOrder (order_pk o) (checkout_token o) (status o) (origin o) (order_channel o)
    (should_refresh_prices o) (order_tax_exemption o) (order_language_code o)
    (tracking_client_id o) (order_total o) (undiscounted_total o)
    (shipping_tax_rate o) (order_voucher o) (order_user o) (user_email o)
    (order_billing_address o) (order_shipping_address o) (customer_note o)
    (base_shipping_price o) (shipping_price o) (weight o) (shipping_tax_class o)
    (shipping_method o) (shipping_method_name o) (order_metadata o)
    (order_private_metadata o) (order_redirect_url o)
    (discounts o) (order_lines o ++ ls) (order_line_discounts o ++ ds).

(** In-memory assignments to [metadata], [private_metadata], [redirect_url]
    and [undiscounted_total]. *)
Definition with_order_metadata (m pm : Metadata) (u : option string) (o : Order) : Order :=
  mkOrder (order_pk o) (checkout_token o) (status o) (origin o) (order_channel o)
    (should_refresh_prices o) (order_tax_exemption o) (order_language_code o)
    (tracking_client_id o) (order_total o) (undiscounted_total o)
    (shipping_tax_rate o) (order_voucher o) (order_user o) (user_email o)
    (order_billing_address o) (order_shipping_address o) (customer_note o)
    (base_shipping_price o) (shipping_price o) (weight o) (shipping_tax_class o)
    (shipping_method o) (shipping_method_name o) m pm u
    (discounts o) (order_lines o) (order_line_discounts o).

Definition with_undiscounted_total (t : TaxedMoney) (o : Order) : Order :=
  mkOrder (order_pk o) (checkout_token o) (status o) (origin o) (order_channel o)
    (should_refresh_prices o) (order_tax_exemption o) (order_language_code o)
    (tracking_client_id o) (order_total o) (Some t)
    (shipping_tax_rate o) (order_voucher o) (order_user o) (user_email o)
    (order_billing_address o) (order_shipping_address o) (customer_note o)
    (base_shipping_price o) (shipping_price o) (weight o) (shipping_tax_class o)
    (shipping_method o) (shipping_method_name o) (order_metadata o)
    (order_private_metadata o) (order_redirect_url o)
    (discounts o) (order_lines o) (order_line_discounts o).


Definition with_order_id (pk : nat) (l : OrderLine) : OrderLine :=
  mkOrderLine (ol_pk l) (Some pk) (product_name l) (variant_name l)
    (translated_product_name l) (translated_variant_name l) (product_sku l)
    (product_variant_id l) (is_shipping_required l) (is_gift_card l)
    (ol_quantity l) (ol_variant l) (unit_price l) (undiscounted_unit_price l)
    (undiscounted_total_price l) (total_price l) (tax_rate l) (ol_voucher_code l)
    (unit_discount l) (unit_discount_reason l) (unit_discount_value l)
    (base_unit_price l) (undiscounted_base_unit_price l) (ol_metadata l)
    (ol_private_metadata l) (ol_tax_class l) (sale_id l).

(** [line.order_id = order.pk] on the line object a line info holds. *)
Definition attach_to_order (pk : nat) (li : OrderLineInfo) : OrderLineInfo :=
  mkOrderLineInfo (with_order_id pk (oli_line li)) (oli_quantity li)
    (oli_is_digital li) (oli_variant li) (oli_digital_content li)
    (oli_warehouse_pk li) (line_discounts li).

(** [OrderLine.objects.bulk_create] and [OrderLineDiscount.objects.bulk_create]:
    the rows are added to the order they point to. *)
Definition bulk_create_lines (order : Order) (infos : list OrderLineInfo) : M Order :=
  let order_lines := map oli_line infos in
  let order_line_discounts := concat (map line_discounts infos) in
  modify_db (set_orders
    (alter (add_lines order_lines order_line_discounts) (order_pk order))) ;;;
  ret (add_lines order_lines order_line_discounts order).

(** [checkout.payments.update(order=order)], with [checkout_id=None] when
    [detach] is set; the same for the payment transaction items. *)
Definition assign_payments (tok : string) (pk : nat) (detach : bool) : M unit :=
  modify_db (set_payments (map (λ p,
    if bool_decide (payment_checkout p = Some tok)
    then mkPayment (payment_pk p)
           (if detach then None else payment_checkout p) (Some pk)
           (payment_is_active p) (to_confirm p) (gateway_name p)
           (payment_token p) (psp_reference p)
    else p))).

Definition assign_payment_transactions (tok : string) (pk : nat) : M unit :=
  modify_db (set_payment_transactions (map (λ t,
    if bool_decide (ti_checkout t = Some tok)
    then mkTransactionItem (ti_pk t) None (Some pk)
    else t))).

(** [allocate_stocks] and [allocate_preorders] with their rows written. *)
Definition run_allocate_stocks (order_lines_info : list OrderLineInfo)
    (checkout_info : CheckoutInfo) (checkout_lines : list CheckoutLineInfo) : M unit :=
  d <- get_db ;;
  match allocate_stocks d order_lines_info (get_country checkout_info)
          (channel checkout_info)
          (warehouse_pk (delivery_method_info checkout_info))
          (map line checkout_lines) with
  | inl items => raise (InsufficientStock items)
  | inr rows => modify_db (set_allocations (λ l, l ++ rows))
  end.

Definition run_allocate_preorders (order_lines_info : list OrderLineInfo)
    (checkout_info : CheckoutInfo) (check_reservations : bool)
    (checkout_lines : list CheckoutLineInfo) : M unit :=
  d <- get_db ;;
  modify_db (set_allocations (λ l,
    l ++ allocate_preorders d order_lines_info (slug (channel checkout_info))
           check_reservations (map line checkout_lines))).

Definition is_reservation_enabled (s : SiteSettings) : bool := reservation_enabled s.

(** [if items: metadata.update({data.key: data.value for data in items})]. *)
Definition store_value_in_metadata (items : option (list (string * string)))
    (m : Metadata) : Metadata :=
  match items with
  | Some (_ :: _ as l) => dict_of_rows l ∪ m
  | _ => m
  end.

Definition _handle_checkout_discount (order : Order) (checkout : Checkout) : M Order :=
  if truthy_money (discount checkout)
  then
    let r := mkOrderDiscount VOUCHER FIXED (amount (discount checkout))
               (discount_name checkout) (translated_discount_name checkout)
               (checkout_currency checkout) (discount_amount checkout) in
    modify_db (set_orders (alter (add_discount r) (order_pk order))) ;;;
    ret (add_discount r order)
  else ret order.

(** The aggregate updates [update_order_charge_data],
    [update_order_authorize_data], [update_order_display_gross_prices] and the
    search vector recompute columns that are not part of [Order] above. *)
Definition _create_order (checkout_info : CheckoutInfo)
    (checkout_lines : list CheckoutLineInfo) (order_data : OrderData)
    (user : option User) (site_settings : option SiteSettings)
    (metadata_list private_metadata_list : option (list (string * string)))
    : M Order :=
  atomic (
    let checkout := checkout checkout_info in
    d <- get_db ;;
    match order_by_token d (token checkout) with
    | Some order => ret order
    | None =>
        let total_price_left := od_total_price_left order_data in
        let order_lines_info := od_lines order_data in
        let site_settings := default current_site_settings site_settings in
        let status :=
          if automatically_confirm_all_new_orders (channel checkout_info)
          then UNFULFILLED else UNCONFIRMED in
        let sd := od_shipping order_data in
        let ud := od_user order_data in
        order <- create_order_row (λ pk,
          mkOrder pk (token checkout) status ORIGIN_CHECKOUT (channel checkout_info)
            false (tax_exemption checkout)
            (od_language_code order_data) (od_tracking_client_id order_data)
            (od_total order_data) (Some (od_undiscounted_total order_data))
            (od_shipping_tax_rate order_data) (od_voucher order_data)
            (ud_user ud) (ud_user_email ud) (ud_billing_address ud)
            (sd_shipping_address sd) (ud_customer_note ud)
            (sd_base_shipping_price sd) (sd_shipping_price sd) (sd_weight sd)
            (sd_shipping_tax_class sd) (sd_shipping_method sd)
            (sd_shipping_method_name sd) ∅ ∅ None [] [] []) ;;
        order <- _handle_checkout_discount order checkout ;;
        let order_lines_info := map (attach_to_order (order_pk order)) order_lines_info in
        order <- bulk_create_lines order order_lines_info ;;
        run_allocate_stocks order_lines_info checkout_info checkout_lines ;;;
        run_allocate_preorders order_lines_info checkout_info
          (is_reservation_enabled site_settings) checkout_lines ;;;
        d <- get_db ;;
        check_gift_cards
          (add_gift_cards_to_order d checkout_info order total_price_left user) ;;;
        assign_payments (token checkout) (order_pk order) false ;;;
        let order :=
          with_order_metadata
            (store_value_in_metadata metadata_list (checkout_metadata checkout))
            (store_value_in_metadata private_metadata_list
               (checkout_private_metadata checkout))
            (redirect_url checkout) order in
        save_order order ;;;
        transaction_on_commit (HookOrderCreated (order_pk order)) ;;;
        transaction_on_commit
          (HookSendOrderConfirmation (order_pk order) (redirect_url checkout)) ;;;
        ret order
    end).


(** *** Preparing the checkout *)

(** [fetch_checkout_data]: the checkout's prices are recalculated and
    stored on the checkout object and its row. *)
Definition fetch_checkout_data (checkout_info : CheckoutInfo)
    (lines : list CheckoutLineInfo) : M CheckoutInfo :=
  let c := with_total (fetch_checkout_data_total checkout_info lines)
             (checkout checkout_info) in
  save_checkout c ;;;
  ret (with_checkout c checkout_info).

(** The checkout object is updated in place; the updated object is the
    result. *)
Definition _prepare_checkout (checkout_info : CheckoutInfo)
    (lines : list CheckoutLineInfo) (new_redirect_url : option string)
    : M CheckoutInfo :=
  let checkout := checkout checkout_info in
  validate (clean_checkout_shipping checkout_info lines) ;;;
  if negb (is_active (channel checkout_info))
  then raise (ValidationError (Some "channel")
                "Cannot complete checkout with inactive channel." CHANNEL_INACTIVE)
  else
    match new_redirect_url with
    | Some url =>
        if truthy_string url
        then
          match validate_storefront_url url with
          | Some error => raise (ValidationError (Some "redirect_url") error.1.2 INVALID)
          | None =>
              if bool_decide (new_redirect_url ≠ redirect_url checkout)
              then
                let checkout := with_redirect_url new_redirect_url checkout in
                save_checkout checkout ;;;
                ret (with_checkout checkout checkout_info)
              else ret checkout_info
          end
        else ret checkout_info
    | None => ret checkout_info
    end.

Definition _prepare_checkout_with_transactions (checkout_info : CheckoutInfo)
    (lines : list CheckoutLineInfo) (redirect_url : option string) : M CheckoutInfo :=
  validate (clean_billing_address checkout_info) ;;;
  if bool_decide (authorize_status (checkout checkout_info) ≠ AUTH_FULL)
     && negb (allow_unpaid_orders (channel checkout_info))
  then raise (ValidationError (Some "id")
                "The authorized amount doesn't cover the checkout's total amount."
                CHECKOUT_NOT_FULLY_PAID)
  else if truthy_opt_string (voucher_code (checkout checkout_info))
          && is_none (voucher checkout_info)
  then raise (ValidationError (Some "voucher_code") "Voucher not applicable"
                VOUCHER_NOT_APPLICABLE)
  else
    d <- get_db ;;
    check_gift_cards (_validate_gift_cards d (checkout checkout_info)) ;;;
    checkout_info <- _prepare_checkout checkout_info lines redirect_url ;;
    match preprocess_order_creation checkout_info lines with
    | Some tax_error =>
        raise (ValidationError None ("Unable to calculate taxes - " +:+ tax_error)
                 TAX_ERROR)
    | None => ret checkout_info
    end.

Definition _prepare_checkout_with_payment (checkout_info : CheckoutInfo)
    (lines : list CheckoutLineInfo) (redirect_url : option string)
    (payment : option Payment) : M CheckoutInfo :=
  validate (clean_checkout_payment checkout_info lines payment) ;;;
  _prepare_checkout checkout_info lines redirect_url.

(** Modelled from the spec: [prepare_insufficient_stock_checkout_validation_error]
    is absent; the failure is "user-visible as" a "structured stock-shortage
    error", one validation failure of the lines. *)
Definition prepare_insufficient_stock_checkout_validation_error
    (items : list InsufficientStockData) : Exn :=
  ValidationError (Some "lines") "Insufficient product stock." INSUFFICIENT_STOCK.

Definition _get_order_data (checkout_info : CheckoutInfo)
    (lines : list CheckoutLineInfo) : M OrderData :=
  let prices_entered_with_tax := prices_entered_with_tax checkout_info in
  try_except
    (_prepare_order_data checkout_info lines prices_entered_with_tax)
    (λ e, match e with
          | InsufficientStock items =>
              raise (prepare_insufficient_stock_checkout_validation_error items)
          | NotApplicable _ =>
              raise (ValidationError None "Voucher not applicable" VOUCHER_NOT_APPLICABLE)
          | GiftCardNotApplicable message code =>
              raise (ValidationError None message code)
          | TaxError tax_error =>
              raise (ValidationError None
                       ("Unable to calculate taxes - " +:+ tax_error) TAX_ERROR)
          | _ => raise e
          end).

(** Other workers commit while this one waits: for the lock on the
    checkout row at the start of a locked transaction, or for the gateway.
    Their writes are not part of this worker's transaction. *)
Definition others_commit : M unit := modify_db concurrent_activity.

(** *** Payment *)

(** A call to the gateway: it happens outside any lock, other workers and
    the provider act meanwhile; the transaction it answers with is stored. *)
Definition gateway_call (ev : Event) (answer : string + Transaction) : M Transaction :=
  emit ev ;;;
  others_commit ;;;
  match answer with
  | inl msg => raise (PaymentError msg)
  | inr txn =>
      modify_db (set_gateway_transactions (λ l, l ++ [txn])) ;;;
      ret txn
  end.

(** [payment.refresh_from_db()]. *)
Definition refresh_from_db (payment : Payment) : M Payment :=
  d <- get_db ;;
  ret (default payment
         (last (filter (λ p, payment_pk p = payment_pk payment) (payments d)))).

Definition _process_payment (payment : Payment) (customer_id : option string)
    (store_source : bool) (payment_data : option Metadata) (order_data : OrderData)
    (channel_slug : string) : M Transaction :=
  try_except
    (txn <-
       (if to_confirm payment
        then gateway_call (EvGatewayConfirm (payment_pk payment))
               (confirm payment payment_data channel_slug)
        else gateway_call
               (EvGatewayProcessPayment (payment_pk payment) customer_id store_source)
               (process_payment payment (payment_token payment) customer_id
                  store_source payment_data channel_slug)) ;;
     if negb (is_success txn) then raise (PaymentError (error txn)) else ret txn)
    (λ e, match e with
          | PaymentError msg =>
              release_voucher_usage (od_voucher order_data)
                (ud_user_email (od_user order_data)) ;;;
              raise (ValidationError None msg PAYMENT_ERROR)
          | _ => raise e
          end).


(** [checkout.get_last_active_payment()]: the newest active payment of the
    checkout. *)
Definition get_last_active_payment (d : Db) (c : Checkout) : option Payment :=
  last (filter (λ p, payment_checkout p = Some (token c) ∧ payment_is_active p = true)
          (payments d)).

Definition complete_checkout_pre_payment_part (checkout_info : CheckoutInfo)
    (lines : list CheckoutLineInfo) (user : option User)
    (site_settings : option SiteSettings) (redirect_url : option string)
    : M (option Payment * option string * OrderData) :=
  let site_settings := default current_site_settings site_settings in
  checkout_info <- fetch_checkout_data checkout_info lines ;;
  let checkout := checkout checkout_info in
  let channel_slug := slug (channel checkout_info) in
  d <- get_db ;;
  let payment := get_last_active_payment d checkout in
  checkout_info <-
    try_except
      (_prepare_checkout_with_payment checkout_info lines redirect_url payment)
      (λ exc, match exc with
              | ValidationError _ _ _ => payment_refund_or_void payment ;;; raise exc
              | _ => raise exc
              end) ;;
  order_data <-
    try_except
      (_get_order_data checkout_info lines)
      (λ exc, match exc with
              | ValidationError _ _ _ => payment_refund_or_void payment ;;; raise exc
              | _ => raise exc
              end) ;;
  let customer_id :=
    match payment, user with
    | Some p, Some u => fetch_customer_id u (gateway_name p)
    | _, _ => None
    end in
  ret (payment, customer_id, order_data).

(** Return True if refund is ongoing for given payment. *)
Definition _is_refund_ongoing (payment : option Payment) : M bool :=
  match payment with
  | Some p =>
      d <- get_db ;;
      ret (bool_decide
             (Exists (λ t, txn_payment t = payment_pk p
                           ∧ kind t = KIND_REFUND_ONGOING ∧ is_success t = true)
                (gateway_transactions d)))
  | None => ret false
  end.

(** [store_customer_id] and [mark_order_as_paid_with_payment]: calls to the
    payment and order collaborators. *)
Definition store_customer_id (u : User) (gateway : string) (cid : string) : M unit :=
  emit (EvStoreCustomerId (user_pk u) gateway cid).

Definition mark_order_as_paid_with_payment (order : Order) : M unit :=
  emit (EvMarkOrderAsPaid (order_pk order)).

(** The first block of [complete_checkout_post_payment_part]
    ([if payment and txn: ...]); its result is [action_required] and
    [action_data]. *)
Definition payment_action (payment : option Payment) (txn : option Transaction)
    (order_data : OrderData) (user : option User) : M (bool * Metadata) :=
  match payment, txn with
  | Some p, Some t =>
      match customer_id t, user with
      | Some cid, Some u =>
          when (truthy_string cid) (store_customer_id u (gateway_name p) cid)
      | _, _ => ret tt
      end ;;;
      if action_required t
      then
        release_voucher_usage (od_voucher order_data)
          (ud_user_email (od_user order_data)) ;;;
        ret (true, action_required_data t)
      else ret (false, ∅)
  | _, _ => ret (false, ∅)
  end.

Definition complete_checkout_post_payment_part (checkout_info : CheckoutInfo)
    (lines : list CheckoutLineInfo) (payment : option Payment)
    (txn : option Transaction) (order_data : OrderData) (user : option User)
    (site_settings : option SiteSettings)
    (metadata_list private_metadata_list : option (list (string * string)))
    : M (option Order * bool * Metadata) :=
  action <- payment_action payment txn order_data user ;;
  let '(action_required, action_data) := action in
  refund_ongoing <- _is_refund_ongoing payment ;;
  order <-
    (if negb action_required && negb refund_ongoing
     then
       order <-
         try_except
           (order <- _create_order checkout_info lines order_data user
                       site_settings metadata_list private_metadata_list ;;
            (* remove checkout after order is successfully created *)
            delete_checkout_row (checkout checkout_info) ;;;
            ret order)
           (λ e, match e with
                 | InsufficientStock items =>
                     release_voucher_usage (od_voucher order_data)
                       (ud_user_email (od_user order_data)) ;;;
                     payment_refund_or_void payment ;;;
                     raise (prepare_insufficient_stock_checkout_validation_error items)
                 | GiftCardNotApplicable message code =>
                     release_voucher_usage (od_voucher order_data)
                       (ud_user_email (od_user order_data)) ;;;
                     payment_refund_or_void payment ;;;
                     raise (ValidationError None message code)
                 | _ => raise e
                 end) ;;
       (* if the order total value is 0 it is paid from the definition *)
       when (amount (net (order_total order)) =? 0)
         (when (bool_decide (order_mark_as_paid_strategy (order_channel order)
                             = PAYMENT_FLOW))
            (mark_order_as_paid_with_payment order)) ;;;
       ret (Some order)
     else ret None) ;;
  ret (order, action_required, action_data).

(** *** The transaction flow *)

(** Increase a voucher usage applied to the checkout. *)
Definition _increase_voucher_usage (checkout_info : CheckoutInfo) : M unit :=
  match get_voucher_for_checkout_info checkout_info with
  | None => ret tt
  | Some voucher =>
      when (apply_once_per_customer voucher)
        (add_voucher_usage_by_customer voucher (get_customer_email checkout_info)) ;;;
      when (truthy_opt_Z (usage_limit voucher)) (increase_voucher_usage voucher)
  end.

Definition _create_order_lines_from_checkout_lines (checkout_info : CheckoutInfo)
    (lines : list CheckoutLineInfo) (order : Order) (prices_entered_with_tax : bool)
    : M (Order * list OrderLineInfo) :=
  order_lines_info <- _create_lines_for_order checkout_info lines prices_entered_with_tax ;;
  let order_lines_info := map (attach_to_order (order_pk order)) order_lines_info in
  order <- bulk_create_lines order order_lines_info ;;
  ret (order, order_lines_info).

Definition _handle_allocations_of_order_lines (checkout_info : CheckoutInfo)
    (checkout_lines : list CheckoutLineInfo) (order_lines_info : list OrderLineInfo)
    (reservation_enabled : bool) : M unit :=
  run_allocate_stocks order_lines_info checkout_info checkout_lines ;;;
  run_allocate_preorders order_lines_info checkout_info reservation_enabled
    checkout_lines.

Definition _post_create_order_actions (order : Order) (checkout_info : CheckoutInfo)
    : M unit :=
  transaction_on_commit (HookOrderCreated (order_pk order)) ;;;
  transaction_on_commit
    (HookSendOrderConfirmation (order_pk order)
       (redirect_url (checkout checkout_info))).

(** [checkout.payment_transactions.exists()]. *)
Definition payment_transactions_exist (d : Db) (c : Checkout) : bool :=
  bool_decide (Exists (λ t, ti_checkout t = Some (token c)) (payment_transactions d)).


(** [Order.objects.create] evaluates its keyword arguments first, so the
    shipping and user data are processed before the row is created. *)
Definition _create_order_from_checkout (checkout_info : CheckoutInfo)
    (checkout_lines_info : list CheckoutLineInfo) (user : option User)
    (metadata_list private_metadata_list : option (list (string * string)))
    : M Order :=
  let site_settings := current_site_settings in
  let checkout := checkout checkout_info in
  let address := or_else (shipping_address checkout_info) (billing_address checkout_info) in
  let reservation_enabled := is_reservation_enabled site_settings in
  let prices_entered_with_tax := prices_entered_with_tax checkout_info in
  (* total *)
  let taxed_total :=
    calculate_checkout_total_with_gift_cards checkout_info checkout_lines_info address in
  (* voucher *)
  let voucher := voucher checkout_info in
  (* shipping *)
  let base_shipping_price := base_checkout_delivery_price checkout_info checkout_lines_info in
  let shipping_total := checkout_shipping_price checkout_info checkout_lines_info address in
  let shipping_tax_rate :=
    checkout_shipping_tax_rate checkout_info checkout_lines_info address in
  (* status *)
  d <- get_db ;;
  let status :=
    if automatically_confirm_all_new_orders (channel checkout_info)
       && payment_transactions_exist d checkout
    then UNFULFILLED else UNCONFIRMED in
  (* update metadata *)
  let metadata := store_value_in_metadata metadata_list (checkout_metadata checkout) in
  let private_metadata :=
    store_value_in_metadata private_metadata_list (checkout_private_metadata checkout) in
  (* order *)
  sd <- _process_shipping_data_for_order checkout_info base_shipping_price
          shipping_total checkout_lines_info ;;
  ud <- _process_user_data_for_order checkout_info ;;
  order <- create_order_row (λ pk,
    mkOrder pk (token checkout) status ORIGIN_CHECKOUT (channel checkout_info)
      false (tax_exemption checkout) (language_code checkout) EmptyString
      taxed_total None shipping_tax_rate voucher
      (ud_user ud) (ud_user_email ud) (ud_billing_address ud)
      (sd_shipping_address sd) (ud_customer_note ud)
      (sd_base_shipping_price sd) (sd_shipping_price sd) (sd_weight sd)
      (sd_shipping_tax_class sd) (sd_shipping_method sd)
      (sd_shipping_method_name sd) metadata private_metadata
      (redirect_url checkout) [] [] []) ;;
  (* checkout discount *)
  order <- _handle_checkout_discount order checkout ;;
  (* lines *)
  created <- _create_order_lines_from_checkout_lines checkout_info
               checkout_lines_info order prices_entered_with_tax ;;
  let '(order, order_lines_info) := created in
  (* update undiscounted order total *)
  lines_total <-
    value_of (taxed_sum
                (map (λ l, undiscounted_total_price (oli_line l)) order_lines_info)
                (zero_taxed_money (currency (net taxed_total)))) ;;
  undiscounted_total <- value_of (taxed_add lines_total shipping_total) ;;
  let order := with_undiscounted_total undiscounted_total order in
  modify_db (set_orders
    (alter (with_undiscounted_total undiscounted_total) (order_pk order))) ;;;
  (* allocations *)
  _handle_allocations_of_order_lines checkout_info checkout_lines_info
    order_lines_info reservation_enabled ;;;
  (* giftcards *)
  subtotal <-
    value_of (taxed_sum (map (λ l, total_price (oli_line l)) order_lines_info)
                (zero_taxed_money (checkout_currency checkout))) ;;
  total_without_giftcard <-
    value_of (s ← taxed_add subtotal shipping_total;
              taxed_sub_money s (discount checkout)) ;;
  d <- get_db ;;
  check_gift_cards
    (add_gift_cards_to_order d checkout_info order (gross total_without_giftcard) user) ;;;
  (* payments *)
  assign_payments (token checkout) (order_pk order) true ;;;
  assign_payment_transactions (token checkout) (order_pk order) ;;;
  save_order order ;;;
  (* post create actions *)
  _post_create_order_actions order checkout_info ;;;
  ret order.

(** [Checkout.objects.select_for_update().filter(pk=...).first()], once the
    lock is granted. *)
Definition select_for_update_checkout (pk : string) : M (option Checkout) :=
  d <- get_db ;;
  ret (checkouts d !! pk).

(** [fetch_checkout_info]: the info is built around the row passed in. *)
Definition fetch_checkout_info (d : Db) (c : Checkout)
    (lines : list CheckoutLineInfo) (v : option Voucher) : CheckoutInfo :=
  with_checkout c (fetch_checkout_info_for d c lines v).

Definition assign_checkout_user (request_user : option User)
    (checkout_info : CheckoutInfo) : CheckoutInfo :=
  (* Assign checkout user to an existing user if checkout email matches a
     valid customer account *)
  if is_none request_user && is_none (user checkout_info)
     && truthy_opt_string (checkout_email (checkout checkout_info))
  then
    let existing_user :=
      retrieve_user_by_email
        (default EmptyString (checkout_email (checkout checkout_info))) in
    with_user
      (match existing_user with
       | Some u => if user_is_active u then Some u else None
       | None => None
       end)
      checkout_info
  else checkout_info.

(** The first transaction of [create_order_from_checkout]: the voucher
    usage is increased under the voucher's lock. *)
Definition voucher_usage_transaction (checkout_info : CheckoutInfo) : M unit :=
  match voucher checkout_info with
  | Some _ => atomic (_increase_voucher_usage checkout_info)
  | None => ret tt
  end.

(** The second transaction of [create_order_from_checkout]: the order is
    created under the checkout's lock. *)
Definition order_transaction (checkout_info : CheckoutInfo)
    (user : option User) (delete_checkout : bool)
    (metadata_list private_metadata_list : option (list (string * string)))
    : M (option Order) :=
  let applied_voucher := voucher checkout_info in
  others_commit ;;;
  atomic (
    let checkout_pk := token (checkout checkout_info) in
    found <- select_for_update_checkout checkout_pk ;;
    match found with
    | None =>
        d <- get_db ;;
        ret (order_by_token d checkout_pk)
    | Some row =>
        (* Fetching checkout info inside the transaction block with
           select_for_update ensure that we are processing checkout on the
           current data. *)
        d <- get_db ;;
        let checkout_lines := fetch_checkout_lines d row applied_voucher false in
        let checkout_info := fetch_checkout_info d row checkout_lines applied_voucher in
        let checkout_info := assign_checkout_user user checkout_info in
        try_except
          (order <- _create_order_from_checkout checkout_info checkout_lines user
                      metadata_list private_metadata_list ;;
           when delete_checkout (delete_checkout_row (checkout checkout_info)) ;;;
           ret (Some order))
          (λ e, match e with
                | InsufficientStock _ | GiftCardNotApplicable _ _ =>
                    release_voucher_usage (voucher checkout_info)
                      (checkout_get_customer_email (checkout checkout_info)) ;;;
                    raise e
                | _ => raise e
                end)
    end).

Definition create_order_from_checkout (checkout_info : CheckoutInfo)
    (user : option User) (delete_checkout : bool)
    (metadata_list private_metadata_list : option (list (string * string)))
    : M (option Order) :=
  voucher_usage_transaction checkout_info ;;;
  order_transaction checkout_info user delete_checkout metadata_list
    private_metadata_list.

(** *** Reservations for the unlocked payment window *)

(** [timezone.now()]: the clock is read, and has moved by the next reading. *)
Definition timezone_now : M Z :=
  λ w, (Ok (clock w), mkWorld (db w) (log w) (tick (clock w))).

(** The loop over the lines that builds the reservation objects. *)
Fixpoint build_reservations (variants_stocks_map : gmap Z Stock)
    (lines : list CheckoutLineInfo) : M (list Reservation) :=
  match lines with
  | [] => ret []
  | line_info :: rest =>
      match variants_stocks_map !! variant_id (variant line_info) with
      | Some stock =>
          now <- timezone_now ;;
          reservations <- build_reservations variants_stocks_map rest ;;
          ret (mkReservation (quantity (line line_info)) (now + RESERVE_DURATION)
                 stock (line line_info) :: reservations)
      | None => build_reservations variants_stocks_map rest
      end
  end.

(** Add additional temporary reservation for stock. *)
Definition _reserve_stocks_without_availability_check (checkout_info : CheckoutInfo)
    (lines : list CheckoutLineInfo) : M (list Reservation) :=
  let variants := map variant lines in
  d <- get_db ;;
  let stocks :=
    get_variants_stocks_for_country d (get_country checkout_info)
      (slug (channel checkout_info)) variants in
  let variants_stocks_map :=
    dict_of_rows (map (λ stock, (stock_product_variant_id stock, stock)) stocks) in
  reservations <- build_reservations variants_stocks_map lines ;;
  modify_db (set_reservations (λ l, l ++ reservations)) ;;;
  ret reservations.

(** *** The two completion paths and the entry fork *)

(** [complete_checkout_with_payment] has three blocks: a first locked
    transaction, the payment outside any transaction, and a second locked
    transaction. *)

(** The block [with transaction_with_commit_on_errors(): ...] that prepares
    the order data; [inl] is its early return. *)
Definition locked_pre_payment (checkout_pk : string) (user : option User)
    (site_settings : option SiteSettings) (redirect_url : option string)
    : M ((option Order * bool * Metadata)
         + (CheckoutInfo * (option Payment * option string * OrderData))) :=
  others_commit ;;;
  transaction_with_commit_on_errors (
    found <- select_for_update_checkout checkout_pk ;;
    match found with
    | None =>
        d <- get_db ;;
        ret (inl (order_by_token d checkout_pk, false, (∅ : Metadata)))
    | Some row =>
        (* Fetching checkout info inside the transaction block with
           select_for_update enure that we are processing checkout on the
           current data. *)
        d <- get_db ;;
        let lines := fetch_checkout_lines d row None false in
        let checkout_info := fetch_checkout_info d row lines None in
        let checkout_info := assign_checkout_user user checkout_info in
        pre <- complete_checkout_pre_payment_part checkout_info lines user
                 site_settings redirect_url ;;
        _reserve_stocks_without_availability_check checkout_info lines ;;;
        ret (inr (checkout_info, pre))
    end).

(** Process payments out of transaction to unlock stock rows for another
    user, who potentially can order the same product variants. *)
Definition unlocked_payment (checkout_info : CheckoutInfo)
    (payment : option Payment) (customer_id : option string)
    (store_source : bool) (payment_data : option Metadata)
    (order_data : OrderData) : M (option Payment * option Transaction) :=
  let channel_slug := slug (channel checkout_info) in
  match payment with
  | Some p =>
      txn <- _process_payment p customer_id store_source payment_data
               order_data channel_slug ;;
      (* As payment processing might take a while, we need to check if the
         payment doesn't become inactive in the meantime. If it's inactive we
         need to refund the payment. *)
      p <- refresh_from_db p ;;
      if negb (payment_is_active p)
      then
        payment_refund_or_void (Some p) ;;;
        raise (ValidationError None
                 ("The payment with pspReference: " +:+ psp_reference p
                  +:+ " is inactive.") INACTIVE_PAYMENT)
      else ret (Some p, Some txn)
  | None => ret (None, None)
  end.

(** The block [with transaction_with_commit_on_errors(): ...] that creates
    the order. *)
Definition locked_post_payment (checkout_info : CheckoutInfo)
    (payment : option Payment) (txn : option Transaction)
    (order_data : OrderData) (user : option User)
    (site_settings : option SiteSettings)
    (metadata_list private_metadata_list : option (list (string * string)))
    : M (option Order * bool * Metadata) :=
  others_commit ;;;
  transaction_with_commit_on_errors (
    found <- select_for_update_checkout (token (checkout checkout_info)) ;;
    match found with
    | None =>
        d <- get_db ;;
        ret (order_by_token d (token (checkout checkout_info)), false, ∅)
    | Some row =>
        (* We need to refetch the checkout info to ensure that we process
           checkout for correct data. *)
        d <- get_db ;;
        let lines := fetch_checkout_lines d row None true in
        let checkout_info := fetch_checkout_info d row lines None in
        let checkout_info :=
          with_checkout (with_voucher_code None (checkout checkout_info))
            checkout_info in
        complete_checkout_post_payment_part checkout_info lines payment txn
          order_data user site_settings metadata_list private_metadata_list
    end).

(** Logic required to finalize the checkout and convert it to order. *)
Definition complete_checkout_with_payment (checkout_pk : string)
    (payment_data : option Metadata) (store_source : bool) (user : option User)
    (site_settings : option SiteSettings) (redirect_url : option string)
    (metadata_list private_metadata_list : option (list (string * string)))
    : M (option Order * bool * Metadata) :=
  prepared <- locked_pre_payment checkout_pk user site_settings redirect_url ;;
  match prepared with
  | inl result => ret result
  | inr (checkout_info, (payment, customer_id, order_data)) =>
      paid <- unlocked_payment checkout_info payment customer_id store_source
                payment_data order_data ;;
      let '(payment, txn) := paid in
      locked_post_payment checkout_info payment txn order_data user
        site_settings metadata_list private_metadata_list
  end.

Definition complete_checkout_with_transaction (checkout_info : CheckoutInfo)
    (lines : list CheckoutLineInfo) (user : option User)
    (redirect_url : option string)
    (metadata_list private_metadata_list : option (list (string * string)))
    : M (option Order) :=
  try_except
    (checkout_info <- _prepare_checkout_with_transactions checkout_info lines
                        redirect_url ;;
     create_order_from_checkout checkout_info user true metadata_list
       private_metadata_list)
    (λ e, match e with
          | NotApplicable _ =>
              raise (ValidationError (Some "voucher_code") "Voucher not applicable"
                       VOUCHER_NOT_APPLICABLE)
          | InsufficientStock items =>
              raise (prepare_insufficient_stock_checkout_validation_error items)
          | GiftCardNotApplicable message code =>
              raise (ValidationError (Some "gift_cards") message code)
          | _ => raise e
          end).

Definition complete_checkout (checkout_info : CheckoutInfo)
    (lines : list CheckoutLineInfo) (payment_data : option Metadata)
    (store_source : bool) (user : option User)
    (site_settings : option SiteSettings) (redirect_url : option string)
    (metadata_list private_metadata_list : option (list (string * string)))
    : M (option Order * bool * Metadata) :=
  checkout_info <- fetch_checkout_data checkout_info lines ;;
  d <- get_db ;;
  let transactions := payment_transactions_exist d (checkout checkout_info) in
  (* When checkout is zero, we don't need any transaction to cover the
     checkout total. *)
  let checkout_is_zero := amount (gross (total (checkout checkout_info))) =? 0 in
  let is_transaction_flow :=
    bool_decide (order_mark_as_paid_strategy (channel checkout_info) = TRANSACTION_FLOW) in
  if transactions
     || allow_unpaid_orders (channel checkout_info)
     || checkout_is_zero && is_transaction_flow
  then
    order <- complete_checkout_with_transaction checkout_info lines user
               redirect_url metadata_list private_metadata_list ;;
    ret (order, false, ∅)
  else
    complete_checkout_with_payment (token (checkout checkout_info)) payment_data
      store_source user site_settings redirect_url metadata_list
      private_metadata_list.

End Orchestrator.

(** ** A concrete scenario

    One channel, one product with one variant, a checkout with one line of
    three units and a usage-limited voucher, and simple collaborators; used
    to run the orchestrator on concrete inputs. *)

Module Scenario.

Definition usd (a : Z) : Money := mkMoney a "USD".

Definition channel_payment_flow : Channel :=
  mkChannel "default-channel" true true false PAYMENT_FLOW.

Definition channel_transaction_flow : Channel :=
  mkChannel "default-channel" true true false TRANSACTION_FLOW.

Definition voucher10 : Voucher := mkVoucher 7 "SAVE10" (Some 5) false.

Definition shirt : Product := mkProduct 1 "Shirt" None (Some 2).

Definition shirt_m : ProductVariant :=
  mkProductVariant 11 "M" (Some "SHIRT-M") "UHJvZHVjdFZhcmlhbnQ6MTE=" true false false None.

Definition line1 : CheckoutLine := mkCheckoutLine 101 3 ∅ ∅.

Definition line_info1 : CheckoutLineInfo :=
  mkCheckoutLineInfo line1 shirt_m shirt (Some voucher10) [] [].

Definition checkout1 : Checkout :=
  mkCheckout "tok-1" None (Some "ann@example.com") "USD" (Some "SAVE10") 10
    (Some "Ten off") None (mkTaxedMoney (usd 290) (usd 290)) AUTH_FULL "en" None
    "" None false ∅ ∅.

Definition delivery1 : DeliveryMethodInfo :=
  mkDeliveryMethodInfo None false None None None None.

Definition checkout_info_of (ch : Channel) (c : Checkout) : CheckoutInfo :=
  mkCheckoutInfo c ch None None delivery1 (Some voucher10) true "US".

#[local] Instance scenario_calculations : Calculations := {|
  calculate_base_line_unit_price _ _ := usd 100;
  calculate_undiscounted_base_line_unit_price _ _ := usd 100;
  calculate_undiscounted_base_line_total_price _ _ := usd 300;
  checkout_line_total _ _ _ := mkTaxedMoney (usd 240) (usd 290);
  checkout_line_unit_price _ _ _ := mkTaxedMoney (usd 80) (usd 97);
  checkout_line_tax_rate _ _ _ := 21;
  calculate_checkout_total_with_gift_cards ci _ _ := total (checkout ci);
  checkout_shipping_price _ _ _ := mkTaxedMoney (usd 0) (usd 0);
  checkout_shipping_tax_rate _ _ _ := 0;
  checkout_subtotal _ _ _ := mkTaxedMoney (usd 240) (usd 290);
  base_checkout_delivery_price _ _ := usd 0;
  get_total_weight _ _ := 1;
  fetch_checkout_data_total ci _ := total (checkout ci) |}.

#[local] Instance scenario_discounts : Discounts := {|
  get_voucher_for_checkout_info ci := voucher ci;
  customer_usage_allowed _ _ _ := true;
  get_sale_id _ := "U2FsZTox";
  prepare_promotion_discount_reason p _ := "Promotion: " +:+ promotion_name p |}.

#[local] Instance scenario_gift_cards : GiftCards := {|
  _validate_gift_cards _ _ := None;
  add_gift_cards_to_order _ _ _ _ _ := None |}.

#[local] Instance scenario_validators : Validators := {|
  clean_checkout_shipping _ _ := None;
  clean_checkout_payment _ _ _ := None;
  clean_billing_address _ := None;
  validate_storefront_url _ := None;
  retrieve_user_by_email _ := None;
  store_user_address _ _ _ book := book |}.

#[local] Instance scenario_plugins : PluginsManager := {|
  preprocess_order_creation _ _ := None |}.

(** The gateway answers with a successful capture. *)
#[local] Instance scenario_gateway : Gateway := {|
  confirm p _ _ := inr (mkTransaction (payment_pk p) KIND_CONFIRM true "" None false ∅);
  process_payment p _ _ _ _ _ :=
    inr (mkTransaction (payment_pk p) KIND_CAPTURE true "" None false ∅);
  fetch_customer_id _ _ := None |}.

(** Stock: [in_stock] says whether the allocation finds enough stock. *)
Definition scenario_warehouse (in_stock : bool) : Warehouse := {|
  check_stock_and_preorder_quantity_bulk _ _ _ _ _ _ _ := None;
  allocate_stocks _ infos _ _ _ _ :=
    if in_stock
    then inr (map (λ li, mkAllocation (global_id (oli_variant li)) 1 (oli_quantity li)) infos)
    else inl [mkInsufficientStockData 11 2];
  allocate_preorders _ _ _ _ _ := [];
  get_variants_stocks_for_country _ _ _ vs :=
    map (λ v, mkStock 1 (variant_id v)) (filter (λ v, variant_id v = 11) vs) |}.

(** [others d] is what happens to the database outside this worker. *)
Definition scenario_environment (ch : Channel) (others : Db → Db) : Environment := {|
  fetch_checkout_lines _ _ _ _ := [line_info1];
  fetch_checkout_info_for _ c _ _ := checkout_info_of ch c;
  product_translation_rows _ _ _ := [];
  variant_translation_rows _ _ _ := [];
  current_site_settings := mkSiteSettings true;
  concurrent_activity := others;
  tick t := t + 1;
  RESERVE_DURATION := 600 |}.

Definition payment1 : Payment :=
  mkPayment 5 (Some "tok-1") None true false "dummy" "card-token" "psp-1".

Definition db0 : Db :=
  mkDb {[ "tok-1" := checkout1 ]} [] {[ 7 := 2 ]} [] [] [] [payment1] [] [] [] 0 [].

Definition world0 : World := mkWorld db0 [] 1000.




Definition summer_sale : Promotion := mkPromotion 3 "Summer sale" None.

Definition line_info_promo : CheckoutLineInfo :=
  mkCheckoutLineInfo line1 shirt_m shirt (Some voucher10)
    [mkRuleInfo 31 summer_sale]
    [mkCheckoutLineDiscount 101 PROMOTION FIXED 3 9 "USD" (Some "Summer sale")
       None (Some 31)].

(** Translations: the product's translated name repeats its name, the
    variant has no translation. *)
Definition product_names : gmap Z (option string) := {[ 1 := Some "Shirt" ]}.

(** Order data as the first phase leaves it, and the same with a zero
    total. *)
Definition order_data1 : OrderData :=
  mkOrderData (mkShippingData None (usd 0) (mkTaxedMoney (usd 0) (usd 0)) 1 None None None)
    (mkUserData None (Some "ann@example.com") None "")
    [] "en" "" (mkTaxedMoney (usd 290) (usd 290)) (mkTaxedMoney (usd 300) (usd 300))
    0 (Some voucher10) (usd 280).

Definition order_data_zero : OrderData :=
  mkOrderData (mkShippingData None (usd 0) (mkTaxedMoney (usd 0) (usd 0)) 1 None None None)
    (mkUserData None (Some "ann@example.com") None "")
    [] "en" "" (mkTaxedMoney (usd 0) (usd 0)) (mkTaxedMoney (usd 300) (usd 300))
    0 None (usd 0).

Definition txn_ok : Transaction := mkTransaction 5 KIND_CAPTURE true "" None false ∅.

(** Another worker deactivates the payment once the reservations exist,
    that is, while the gateway is being called. *)
Definition deactivate_payment (d : Db) : Db :=
  match reservations d with
  | [] => d
  | _ =>
      set_payments (map (λ p,
        mkPayment (payment_pk p) (payment_checkout p) (payment_order p) false
          (to_confirm p) (gateway_name p) (payment_token p) (psp_reference p))) d
  end.

(** The same checkout paid through the transaction flow: it has a payment
    transaction and no payment. *)
Definition db_transaction_flow : Db :=
  mkDb {[ "tok-1" := checkout1 ]} [] {[ 7 := 2 ]} [] [] [] [] []
    [mkTransactionItem 9 (Some "tok-1") None] [] 0 [].

Definition world_transaction_flow : World := mkWorld db_transaction_flow [] 1000.

(** The transaction-flow completion of the scenario checkout that keeps the
    checkout row. *)
Definition complete_keeping_checkout : M (option Order) :=
  create_order_from_checkout (pricing:=scenario_calculations)
    (ledger:=scenario_discounts) (warehouse:=scenario_warehouse true)
    (cards:=scenario_gift_cards) (cleaner:=scenario_validators)
    (environment:=scenario_environment channel_transaction_flow id)
    (checkout_info_of channel_transaction_flow checkout1) None false None None.

(** One completion attempt for the scenario checkout, from the entry point:
    [ch] selects the flow, [in_stock] says whether the allocation finds
    stock, [others] is what the other workers do meanwhile. *)
Definition attempt (ch : Channel) (in_stock : bool) (others : Db → Db)
    : M (option Order * bool * Metadata) :=
  complete_checkout (pricing:=scenario_calculations)
    (ledger:=scenario_discounts) (warehouse:=scenario_warehouse in_stock)
    (cards:=scenario_gift_cards) (cleaner:=scenario_validators)
    (manager:=scenario_plugins) (psp:=scenario_gateway)
    (environment:=scenario_environment ch others)
    (checkout_info_of ch checkout1) [line_info1] None false None None None None None.

(** What an attempt surfaces, and the usage count of the scenario voucher
    after it. *)
Definition outcome (r : Result (option Order * bool * Metadata) * World)
    : (option nat + Exn) * Z :=
  (match r.1 with
   | Ok (order, _, _) => inl (order_pk <$> order)
   | Raise e => inr e
   end,
   used (db r.2) voucher10).

(** A transaction that asks the customer for an action, and the
    transaction of a refund under way. *)
Definition txn_action : Transaction :=
  mkTransaction 5 KIND_CAPTURE true "" None true
    {[ "redirect" := "https://psp.example/3ds" ]}.

Definition txn_refund_ongoing : Transaction :=
  mkTransaction 5 KIND_REFUND_ONGOING true "" None false ∅.

Definition world_refund_ongoing : World :=
  mkWorld (set_gateway_transactions (λ _, [txn_refund_ongoing]) db0) [] 1000.

(** The world once a reservation exists for the line. *)
Definition world_reserved : World :=
  mkWorld (set_reservations (λ _, [mkReservation 3 1600 (mkStock 1 11) line1]) db0)
    [] 1000.

(** Plugins that cannot compute the taxes, and gift cards that are
    rejected. *)
Definition failing_plugins : PluginsManager := {|
  preprocess_order_creation _ _ := Some "no tax rates" |}.

Definition rejected_gift_cards : GiftCards := {|
  _validate_gift_cards _ _ := Some ("Gift card has expired.", CODE "invalid");
  add_gift_cards_to_order _ _ _ _ _ := None |}.

(** A line with a promotion discount whose rule is missing. *)
Definition line_info_no_rule : CheckoutLineInfo :=
  mkCheckoutLineInfo line1 shirt_m shirt (Some voucher10) []
    [mkCheckoutLineDiscount 101 PROMOTION FIXED 3 9 "USD" (Some "Summer sale")
       None (Some 31)].

(** A customer with a billing address of their book. *)
Definition ann : User := mkUser 4 "ann@example.com" true.

Definition home : Address := mkAddress 21 "1 Main St".

Definition checkout_info_ann : CheckoutInfo :=
  mkCheckoutInfo checkout1 channel_payment_flow (Some ann) (Some home)
    (mkDeliveryMethodInfo (Some home) true None None None None)
    (Some voucher10) true "US".

End Scenario.

(** * Properties *)

(** ** Running the monad *)

Lemma bind_run {A B} (m : M A) (k : A → M B) (w : World) :
  bind m k w = match m w with
               | (Ok a, w') => k a w'
               | (Raise e, w') => (Raise e, w')
               end.
Proof. reflexivity. Qed.

Lemma bind_inv {A B} (m : M A) (k : A → M B) (w w' : World) (r : Result B) :
  bind m k w = (r, w') →
  (∃ a w1, m w = (Ok a, w1) ∧ k a w1 = (r, w'))
  ∨ (∃ e, m w = (Raise e, w') ∧ r = Raise e).
Proof.
  rewrite bind_run. destruct (m w) as [[a|e] w1]; intros Hr.
  - left. eauto.
  - right. inversion Hr; subst. eauto.
Qed.

Lemma bind_Ok_inv {A B} (m : M A) (k : A → M B) (w w' : World) (b : B) :
  bind m k w = (Ok b, w') → ∃ a w1, m w = (Ok a, w1) ∧ k a w1 = (Ok b, w').
Proof.
  intros Hr. apply bind_inv in Hr as [Hr|(e & _ & Hr)]; [done|discriminate].
Qed.

Lemma value_of_Ok_inv {A} (o : option A) (w w' : World) (a : A) :
  value_of o w = (Ok a, w') → o = Some a ∧ w' = w.
Proof. destruct o; cbn; intros Hr; inversion Hr; auto. Qed.

Section LineProperties.

Context {pricing : Calculations} {ledger : Discounts}.

(** What [_create_line_for_order] stores on a line it builds. *)
Lemma _create_line_for_order_fields ci lines cli pt vt (tax_incl : bool) w li w' :
  _create_line_for_order ci lines cli pt vt tax_incl w = (Ok li, w') →
  let l := oli_line li in
  let undiscounted := calculate_undiscounted_base_line_unit_price cli (channel ci) in
  w' = w
  ∧ product_name l = product_str (product cli)
  ∧ variant_name l = variant_str (variant cli)
  ∧ translated_product_name l =
      (let t := default (Some EmptyString) (pt !! product_id (product cli)) in
       if bool_decide (t = Some (product_str (product cli))) then Some EmptyString else t)
  ∧ translated_variant_name l =
      (let t := default (Some EmptyString) (vt !! variant_id (variant cli)) in
       if bool_decide (t = Some (variant_str (variant cli))) then Some EmptyString else t)
  ∧ unit_price l = checkout_line_unit_price ci lines cli
  ∧ undiscounted_unit_price l = mkTaxedMoney undiscounted undiscounted
  ∧ (∃ discount_price,
       taxed_sub (undiscounted_unit_price l) (unit_price l) = Some discount_price
       ∧ unit_discount l = (if tax_incl then gross discount_price else net discount_price))
  ∧ unit_discount_value l = amount (unit_discount l).
Proof.
  unfold _create_line_for_order. intros Hr.
  apply bind_Ok_inv in Hr as (dp & w1 & Hdp & Hr).
  apply value_of_Ok_inv in Hdp as [Hdp ->].
  apply bind_Ok_inv in Hr as ([sale reason] & w2 & Hpromo & Hr).
  assert (w2 = w) as ->.
  { destruct (_create_order_line_discounts _ _); [by inversion Hpromo|].
    destruct (rules_info cli); by inversion Hpromo. }
  inversion Hr; subst; cbn. repeat split; eauto.
Qed.


(** A line is built whenever the amounts are in one currency and a line with
    promotion discounts carries the rule that gave them. *)
Lemma _create_line_for_order_builds ci lines cli pt vt (tax_incl : bool) w :
  let undiscounted := calculate_undiscounted_base_line_unit_price cli (channel ci) in
  let price := checkout_line_unit_price ci lines cli in
  currency (net price) = currency undiscounted →
  currency (gross price) = currency undiscounted →
  (promotion_discounts cli = [] ∨ rules_info cli ≠ []) →
  ∃ li, _create_line_for_order ci lines cli pt vt tax_incl w = (Ok li, w).
Proof.
  intros undiscounted price Hnet Hgross Hrules.
  unfold _create_line_for_order. fold undiscounted price.
  assert (∃ dp, taxed_sub (mkTaxedMoney undiscounted undiscounted) price = Some dp)
    as [dp Hdp].
  { unfold taxed_sub, money_sub; cbn. rewrite Hnet, Hgross.
    rewrite !decide_True by done. cbn. eauto. }
  rewrite bind_run, Hdp; cbn. rewrite bind_run.
  unfold _create_order_line_discounts.
  destruct Hrules as [->|Hrules]; cbn; [eauto|].
  destruct (promotion_discounts cli); cbn; [eauto|].
  destruct (rules_info cli); [done|]. cbn. eauto.
Qed.

(** C7. Discount arithmetic: on every order line built by
    [_create_line_for_order], the stored unit discount is the undiscounted
    unit price minus the unit price, taken on the gross amounts when the
    channel enters prices with tax and on the net amounts otherwise, whatever
    vouchers and promotions the checkout line carries; the stored
    [unit_discount_value] is the amount of that discount. *)
Theorem discount_arithmetic ci lines cli pt vt (tax_incl : bool) w li w' :
  _create_line_for_order ci lines cli pt vt tax_incl w = (Ok li, w') →
  let l := oli_line li in
  (if tax_incl
   then money_sub (gross (undiscounted_unit_price l)) (gross (unit_price l))
   else money_sub (net (undiscounted_unit_price l)) (net (unit_price l)))
  = Some (unit_discount l)
  ∧ amount (unit_discount l) =
      (if tax_incl
       then amount (gross (undiscounted_unit_price l)) - amount (gross (unit_price l))
       else amount (net (undiscounted_unit_price l)) - amount (net (unit_price l)))
  ∧ unit_discount_value l = amount (unit_discount l).
Proof.
  intros Hr l.
  apply _create_line_for_order_fields in Hr
    as (_ & _ & _ & _ & _ & _ & _ & (dp & Hdp & Hdisc) & Hval).
  fold l in Hdp, Hdisc, Hval. rewrite Hdisc.
  unfold taxed_sub in Hdp.
  destruct (money_sub (net _) (net _)) as [n|] eqn:Hn; [|done].
  destruct (money_sub (gross _) (gross _)) as [g|] eqn:Hg; [|done].
  cbn in Hdp. inversion Hdp; subst dp; cbn.
  unfold money_sub in Hn, Hg.
  repeat case_decide; try done.
  inversion Hn; inversion Hg; subst.
  rewrite Hval, Hdisc. by destruct tax_incl.
Qed.

(** C9. Translation fallback: on every order line built, a translated
    product (variant) name equal to the canonical name is stored as the empty
    string, a missing translation is stored as the empty string, and so the
    stored translated name is either empty or different from the canonical
    name. *)
Theorem translation_fallback ci lines cli pt vt (tax_incl : bool) w li w' :
  _create_line_for_order ci lines cli pt vt tax_incl w = (Ok li, w') →
  let l := oli_line li in
  product_name l = product_str (product cli)
  ∧ variant_name l = variant_str (variant cli)
  ∧ (pt !! product_id (product cli) = Some (Some (product_name l)) →
     translated_product_name l = Some EmptyString)
  ∧ (vt !! variant_id (variant cli) = Some (Some (variant_name l)) →
     translated_variant_name l = Some EmptyString)
  ∧ (pt !! product_id (product cli) = None →
     translated_product_name l = Some EmptyString)
  ∧ (vt !! variant_id (variant cli) = None →
     translated_variant_name l = Some EmptyString)
  ∧ (translated_product_name l = Some EmptyString
     ∨ translated_product_name l ≠ Some (product_name l))
  ∧ (translated_variant_name l = Some EmptyString
     ∨ translated_variant_name l ≠ Some (variant_name l)).
Proof.
  intros Hr l.
  apply _create_line_for_order_fields in Hr
    as (_ & Hp & Hv & Htp & Htv & _).
  fold l in Hp, Hv, Htp, Htv. rewrite Hp, Hv, Htp, Htv. cbn.
  repeat split.
  - intros ->. cbn. by rewrite bool_decide_eq_true_2.
  - intros ->. cbn. by rewrite bool_decide_eq_true_2.
  - intros ->. cbn. by case_bool_decide.
  - intros ->. cbn. by case_bool_decide.
  - case_bool_decide; auto.
  - case_bool_decide; auto.
Qed.

End LineProperties.

Lemma atomic_Raise_inv {A} (m : M A) (w w' : World) (e : Exn) :
  atomic m w = (Raise e, w') →
  ∃ w1, m w = (Raise e, w1) ∧ w' = mkWorld (db w) (log w1) (clock w1).
Proof.
  unfold atomic. destruct (m w) as [[a|e'] w1]; intros Hr; inversion Hr; eauto.
Qed.

Lemma bind_Ok {A B} (m : M A) (k : A → M B) w a w1 :
  m w = (Ok a, w1) → bind m k w = k a w1.
Proof. intros Hm. by rewrite bind_run, Hm. Qed.

Lemma bind_Raise {A B} (m : M A) (k : A → M B) w e w1 :
  m w = (Raise e, w1) → bind m k w = (Raise e, w1).
Proof. intros Hm. by rewrite bind_run, Hm. Qed.

Lemma try_except_Ok {A} (m : M A) (h : Exn → M A) w a w1 :
  m w = (Ok a, w1) → try_except m h w = (Ok a, w1).
Proof. intros Hm. unfold try_except. by rewrite Hm. Qed.

Lemma try_except_Raise {A} (m : M A) (h : Exn → M A) w e w1 :
  m w = (Raise e, w1) → try_except m h w = h e w1.
Proof. intros Hm. unfold try_except. by rewrite Hm. Qed.

(** Rewrite the run of the first step of the goal with a known run. *)
Ltac run_with H :=
  rewrite ?bind_run; rewrite H; lazy beta iota zeta.

Lemma release_voucher_usage_run voucher user_email w :
  ∃ w', release_voucher_usage voucher user_email w = (Ok tt, w')
        ∧ log w' = log w ∧ clock w' = clock w
        ∧ orders (db w') = orders (db w)
        ∧ checkouts (db w') = checkouts (db w)
        ∧ ∀ v, used (db w') v =
               match voucher with
               | Some v' =>
                   if truthy_opt_Z (usage_limit v') && bool_decide (voucher_pk v' = voucher_pk v)
                   then used (db w) v - 1 else used (db w) v
               | None => used (db w) v
               end.
Proof.
  destruct voucher as [v'|]; cbn; [|by eauto 10].
  unfold used.
  destruct (truthy_opt_Z (usage_limit v')); cbn;
    destruct user_email as [e|]; cbn; try destruct (truthy_string e); cbn;
    (eexists; split; [reflexivity|]; repeat split; try done; intros v; cbn;
     try (case_bool_decide as Hv;
          [rewrite Hv, lookup_insert_eq|rewrite lookup_insert_ne by done]; done)).
Qed.

Section PostPayment.

Context {pricing : Calculations} {ledger : Discounts} {warehouse : Warehouse}
  {cards : GiftCards} {cleaner : Validators} {manager : PluginsManager}
  {psp : Gateway} {environment : Environment}.

Lemma _is_refund_ongoing_run payment w :
  ∃ b, _is_refund_ongoing payment w = (Ok b, w).
Proof. destruct payment; cbn; eauto. Qed.

(** C5. Zero-total auto-pay: when the post-payment phase gets an order from
    the materializer whose total (net) amount is exactly zero, it marks the
    order as paid right away if the channel's strategy is payment-flow, and
    makes no mark-as-paid call if the strategy is transaction-flow; in both
    cases the order is returned and the checkout row deleted. *)
Theorem zero_total_auto_pay ci lines payment txn od user ss ml pml
    w action_data w1 order w2 :
  payment_action payment txn od user w = (Ok (false, action_data), w1) →
  _is_refund_ongoing payment w1 = (Ok false, w1) →
  _create_order ci lines od user ss ml pml w1 = (Ok order, w2) →
  amount (net (order_total order)) = 0 →
  ∃ w3,
    complete_checkout_post_payment_part ci lines payment txn od user ss ml pml w
    = (Ok (Some order, false, action_data), w3)
    ∧ db w3 = set_checkouts (delete (token (checkout ci))) (db w2)
    ∧ match order_mark_as_paid_strategy (order_channel order) with
      | PAYMENT_FLOW => log w3 = log w2 ++ [EvMarkOrderAsPaid (order_pk order)]
      | TRANSACTION_FLOW => log w3 = log w2
      end.
Proof.
  intros Hact Href Hcreate Hzero.
  unfold complete_checkout_post_payment_part.
  run_with Hact. run_with Href. cbn [negb andb].
  assert (∀ h : Exn → M Order,
            try_except
              (o <- _create_order ci lines od user ss ml pml ;;
               delete_checkout_row (checkout ci) ;;; ret o) h w1
            = (Ok order, mkWorld (set_checkouts (delete (token (checkout ci))) (db w2))
                           (log w2) (clock w2))) as Hmat.
  { intros h. apply try_except_Ok. by run_with Hcreate. }
  run_with Hmat. rewrite ?bind_run, Hzero. cbn.
  destruct (order_mark_as_paid_strategy (order_channel order)); cbn; eauto.
Qed.

(** C4. Post-payment compensation: when the materializer fails with
    insufficient stock or a gift-card rejection in the post-payment phase,
    the phase releases the voucher usage, then issues a refund-or-void on the
    payment if there is one, and only then raises the error; no order is
    returned, and no order row or change to the checkout stays behind. *)
Theorem post_payment_compensation ci lines payment txn od user ss ml pml
    w action_data w1 e w2 :
  payment_action payment txn od user w = (Ok (false, action_data), w1) →
  _is_refund_ongoing payment w1 = (Ok false, w1) →
  _create_order ci lines od user ss ml pml w1 = (Raise e, w2) →
  (∃ items, e = InsufficientStock items) ∨ (∃ msg c, e = GiftCardNotApplicable msg c) →
  ∃ w3 w4,
    release_voucher_usage (od_voucher od) (ud_user_email (od_user od)) w2 = (Ok tt, w3)
    ∧ payment_refund_or_void payment w3 = (Ok tt, w4)
    ∧ complete_checkout_post_payment_part ci lines payment txn od user ss ml pml w
      = (Raise match e with
               | InsufficientStock items =>
                   prepare_insufficient_stock_checkout_validation_error items
               | GiftCardNotApplicable msg c => ValidationError None msg c
               | _ => e
               end, w4)
    ∧ log w4 = log w2 ++ match payment with
                         | Some p => [EvRefundOrVoid (payment_pk p)]
                         | None => []
                         end
    ∧ orders (db w4) = orders (db w1)
    ∧ checkouts (db w4) = checkouts (db w1)
    ∧ ∀ v, od_voucher od = Some v → truthy_opt_Z (usage_limit v) = true →
           used (db w4) v = used (db w1) v - 1.
Proof.
  intros Hact Href Hcreate He.
  destruct (release_voucher_usage_run (od_voucher od) (ud_user_email (od_user od)) w2)
    as (w3 & Hrel & Hlog3 & Hclock3 & Hord3 & Hch3 & Hused3).
  assert (∃ w4, payment_refund_or_void payment w3 = (Ok tt, w4)
                ∧ db w4 = db w3
                ∧ log w4 = log w3 ++ match payment with
                                     | Some p => [EvRefundOrVoid (payment_pk p)]
                                     | None => []
                                     end) as (w4 & Hvoid & Hdb4 & Hlog4).
  { destruct payment; cbn; eexists; repeat split; by rewrite ?app_nil_r. }
  exists w3, w4. split; [done|]. split; [done|].
  pose proof Hcreate as Hc. unfold _create_order in Hc.
  apply atomic_Raise_inv in Hc as (w2' & _ & ->). cbn in *.
  split.
  - unfold complete_checkout_post_payment_part.
    run_with Hact. run_with Href. cbn [negb andb].
    assert (∀ h : Exn → M Order,
              try_except
                (o <- _create_order ci lines od user ss ml pml ;;
                 delete_checkout_row (checkout ci) ;;; ret o) h w1
              = h e (mkWorld (db w1) (log w2') (clock w2'))) as Hmat.
    { intros h. apply try_except_Raise. by run_with Hcreate. }
    run_with Hmat.
    destruct He as [[items ->]|(msg & c & ->)];
      (run_with Hrel; run_with Hvoid; reflexivity).
  - rewrite Hdb4, Hord3, Hch3, Hlog4, Hlog3. repeat split; try done.
    intros v Hv Hlim. rewrite Hused3, Hv, Hlim. cbn.
    by rewrite bool_decide_eq_true_2.
Qed.

End PostPayment.

Section EntryFork.

Context {pricing : Calculations} {ledger : Discounts} {warehouse : Warehouse}
  {cards : GiftCards} {cleaner : Validators} {manager : PluginsManager}
  {psp : Gateway} {environment : Environment}.

(** C2. Entry fork of [complete_checkout]: with the checkout's prices
    refreshed, the transaction-flow path (A) is taken if the checkout has a
    payment transaction, or the channel allows unpaid orders, or the
    checkout's gross total is zero and the channel's mark-as-paid strategy is
    transaction-flow; otherwise the payment-flow path (B) is taken; a
    completion on path (A) returns with [action_required = False] and no
    action data. *)
Theorem entry_fork ci lines payment_data store_source user ss url ml pml w :
  let refreshed := with_total (fetch_checkout_data_total ci lines) (checkout ci) in
  let ci1 := with_checkout refreshed ci in
  let w1 := (save_checkout refreshed w).2 in
  let path_A :=
    Exists (λ t, ti_checkout t = Some (token (checkout ci)))
      (payment_transactions (db w1))
    ∨ allow_unpaid_orders (channel ci) = true
    ∨ (amount (gross (total refreshed)) = 0
       ∧ order_mark_as_paid_strategy (channel ci) = TRANSACTION_FLOW) in
  (path_A →
   complete_checkout ci lines payment_data store_source user ss url ml pml w
   = (order <- complete_checkout_with_transaction ci1 lines user url ml pml ;;
      ret (order, false, ∅)) w1)
  ∧ (¬ path_A →
     complete_checkout ci lines payment_data store_source user ss url ml pml w
     = complete_checkout_with_payment (token (checkout ci)) payment_data
         store_source user ss url ml pml w1)
  ∧ (path_A → ∀ order action_required action_data w',
       complete_checkout ci lines payment_data store_source user ss url ml pml w
       = (Ok (order, action_required, action_data), w') →
       action_required = false ∧ action_data = ∅).
Proof.
  intros refreshed ci1 w1 path_A.
  assert (complete_checkout ci lines payment_data store_source user ss url ml pml w
          = if payment_transactions_exist (db w1) (checkout ci1)
               || allow_unpaid_orders (channel ci1)
               || (amount (gross (total (checkout ci1))) =? 0)
                  && bool_decide (order_mark_as_paid_strategy (channel ci1)
                                  = TRANSACTION_FLOW)
            then (order <- complete_checkout_with_transaction ci1 lines user url ml pml ;;
                  ret (order, false, ∅)) w1
            else complete_checkout_with_payment (token (checkout ci1)) payment_data
                   store_source user ss url ml pml w1) as Hrun.
  { unfold complete_checkout, fetch_checkout_data. rewrite !bind_run.
    cbn [save_checkout modify_db ret get_db]. rewrite !bind_run. cbn [get_db].
    fold refreshed. fold ci1.
    by destruct (_ || _ || _ && _). }
  assert (payment_transactions_exist (db w1) (checkout ci1)
          || allow_unpaid_orders (channel ci1)
          || (amount (gross (total (checkout ci1))) =? 0)
             && bool_decide (order_mark_as_paid_strategy (channel ci1) = TRANSACTION_FLOW)
          = true ↔ path_A) as Hcond.
  { unfold path_A, payment_transactions_exist. cbn.
    rewrite !orb_true_iff, andb_true_iff, bool_decide_eq_true, Z.eqb_eq,
      bool_decide_eq_true. tauto. }
  assert (path_A →
          complete_checkout ci lines payment_data store_source user ss url ml pml w
          = (order <- complete_checkout_with_transaction ci1 lines user url ml pml ;;
             ret (order, false, ∅)) w1) as HA.
  { intros HA. apply Hcond in HA. by rewrite Hrun, HA. }
  split; [exact HA|]. split.
  - intros HB. rewrite Hrun.
    destruct (_ || _ || _ && _) eqn:Hc; [|done].
    exfalso. apply HB, Hcond. done.
  - intros Hp order a ad w' Hr. rewrite (HA Hp) in Hr.
    apply bind_Ok_inv in Hr as (o & w2 & _ & Hr). by inversion Hr.
Qed.

End EntryFork.

(** ** Reservations *)




Section Reservations.

Context {warehouse : Warehouse} {environment : Environment}.

(** What the reservation loop builds: one reservation per line whose
    variant is in the stock map, in order; the [k]-th one expires
    [RESERVE_DURATION] after the [k]-th reading of the clock. *)
Lemma build_reservations_run (m : gmap Z Stock) lines w :
  ∃ rs, build_reservations m lines w
        = (Ok rs, mkWorld (db w) (log w) (Nat.iter (length rs) tick (clock w)))
    ∧ Forall2 (λ li r,
         reservation_checkout_line r = line li
         ∧ quantity_reserved r = quantity (line li)
         ∧ m !! variant_id (variant li) = Some (reservation_stock r))
        (filter (λ li, is_Some (m !! variant_id (variant li))) lines) rs
    ∧ ∀ k r, rs !! k = Some r →
             reserved_until r = Nat.iter k tick (clock w) + RESERVE_DURATION.
Proof.
  revert w. induction lines as [|li lines IH]; intros w.
  - exists []. cbn. split; [by destruct w|]. split; [constructor|done].
  - cbn [build_reservations].
    destruct (m !! variant_id (variant li)) as [stock|] eqn:Hm.
    + destruct (IH (mkWorld (db w) (log w) (tick (clock w)))) as (rs & Hrun & Hall & Htime).
      eexists (_ :: rs). split; [|split].
      * cbn [length]. rewrite Nat.iter_succ_r.
        rewrite bind_run. cbn [timezone_now]. by rewrite bind_run, Hrun.
      * rewrite filter_cons_True by (rewrite Hm; eauto).
        constructor; [by rewrite Hm|done].
      * intros [|k] r Hk.
        -- by inversion Hk.
        -- rewrite Nat.iter_succ_r. by apply Htime.
    + destruct (IH w) as (rs & Hrun & Hall & Htime).
      exists rs. split; [done|]. split; [|done].
      rewrite filter_cons_False; [done|]. rewrite Hm. by intros [? ?].
Qed.



End Reservations.

(** ** Symbolic execution of the orchestrator *)

Lemma atomic_run {A} (m : M A) w :
  atomic m w = match m w with
               | (Ok a, w') => (Ok a, w')
               | (Raise e, w') => (Raise e, mkWorld (db w) (log w') (clock w'))
               end.
Proof. reflexivity. Qed.

Lemma try_except_run {A} (m : M A) (h : Exn → M A) w :
  try_except m h w = match m w with
                     | (Ok a, w') => (Ok a, w')
                     | (Raise e, w') => h e w'
                     end.
Proof. reflexivity. Qed.

Lemma ret_run {A} (a : A) w : ret a w = (Ok a, w).
Proof. reflexivity. Qed.

Lemma raise_run {A} (e : Exn) w : raise (A:=A) e w = (Raise e, w).
Proof. reflexivity. Qed.

Lemma get_db_run w : get_db w = (Ok (db w), w).
Proof. reflexivity. Qed.

Lemma modify_db_run f w : modify_db f w = (Ok tt, mkWorld (f (db w)) (log w) (clock w)).
Proof. reflexivity. Qed.

Lemma emit_run ev w : emit ev w = (Ok tt, mkWorld (db w) (log w ++ [ev]) (clock w)).
Proof. reflexivity. Qed.

Lemma when_run (c : bool) m w : when c m w = if c then m w else (Ok tt, w).
Proof. by destruct c. Qed.

Lemma value_of_run {A} (o : option A) w :
  value_of o w = match o with Some a => (Ok a, w) | None => (Raise ValueError, w) end.
Proof. by destruct o. Qed.

Lemma validate_run (r : option VError) w :
  validate r w = match r with
                 | Some e => (Raise (ValidationError e.1.1 e.1.2 e.2), w)
                 | None => (Ok tt, w)
                 end.
Proof. by destruct r. Qed.

Lemma check_stock_run r w :
  check_stock r w = match r with
                    | Some items => (Raise (InsufficientStock items), w)
                    | None => (Ok tt, w)
                    end.
Proof. by destruct r. Qed.

Lemma check_gift_cards_run r w :
  check_gift_cards r w = match r with
                         | Some e => (Raise (GiftCardNotApplicable e.1 e.2), w)
                         | None => (Ok tt, w)
                         end.
Proof. by destruct r. Qed.

Lemma transaction_with_commit_on_errors_run {A} (m : M A) w :
  transaction_with_commit_on_errors m w = m w.
Proof. reflexivity. Qed.

(** Run the monad's plumbing as far as the collaborators' answers allow. *)
Ltac mstep :=
  first [ rewrite bind_run | rewrite atomic_run | rewrite try_except_run
        | rewrite ret_run | rewrite raise_run | rewrite get_db_run
        | rewrite modify_db_run | rewrite emit_run | rewrite when_run
        | rewrite value_of_run | rewrite validate_run | rewrite check_stock_run
        | rewrite check_gift_cards_run
        | rewrite transaction_with_commit_on_errors_run ];
  lazy beta iota zeta; cbn [db log clock fst snd].

Ltac mrun := repeat mstep.

(** Read the fields of an updated order. *)
Ltac osimpl :=
  cbn [order_pk checkout_token status origin order_channel should_refresh_prices
       order_tax_exemption order_language_code tracking_client_id order_total
       undiscounted_total shipping_tax_rate order_voucher order_user user_email
       order_billing_address order_shipping_address customer_note
       base_shipping_price shipping_price weight shipping_tax_class
       shipping_method shipping_method_name order_metadata order_private_metadata
       order_redirect_url discounts order_lines order_line_discounts
       add_discount add_lines with_order_metadata with_undiscounted_total] in *.

(** Read the tables of an updated database. *)
Ltac fsimpl :=
  cbn [db log clock fst snd
       checkouts orders voucher_used voucher_customers reservations allocations
       payments gateway_transactions payment_transactions address_book
       address_seq on_commit
       set_checkouts set_orders set_voucher_used set_voucher_customers
       set_reservations set_allocations set_payments set_gateway_transactions
       set_payment_transactions set_address_book set_address_seq set_on_commit] in *.

Lemma alter_last {A} (f : A → A) (l : list A) (x : A) :
  alter f (length l) (l ++ [x]) = l ++ [f x].
Proof.
  replace (length l) with (length l + 0)%nat by lia.
  by rewrite alter_app_r.
Qed.

Lemma insert_last {A} (l : list A) (x y : A) :
  <[length l := y]> (l ++ [x]) = l ++ [y].
Proof.
  replace (length l) with (length l + 0)%nat by lia.
  by rewrite insert_app_r.
Qed.

Section Materializers.

Context {pricing : Calculations} {ledger : Discounts} {warehouse : Warehouse}
  {cards : GiftCards} {cleaner : Validators} {manager : PluginsManager}
  {psp : Gateway} {environment : Environment}.

(** The order-level discount record of a checkout. *)
Definition checkout_discount_record (c : Checkout) : OrderDiscount :=
  mkOrderDiscount VOUCHER FIXED (amount (discount c)) (discount_name c)
    (translated_discount_name c) (checkout_currency c) (discount_amount c).

Lemma _create_order_existing ci lines od user ss ml pml w order :
  order_by_token (db w) (token (checkout ci)) = Some order →
  _create_order ci lines od user ss ml pml w = (Ok order, w).
Proof.
  intros Hfound. unfold _create_order. mrun. rewrite Hfound. by mrun.
Qed.

Lemma _create_order_new ci lines od user ss ml pml w r w' :
  order_by_token (db w) (token (checkout ci)) = None →
  _create_order ci lines od user ss ml pml w = (r, w') →
  log w' = log w ∧ clock w' = clock w
  ∧ match r with
    | Ok o =>
        orders (db w') = orders (db w) ++ [o]
        ∧ checkouts (db w') = checkouts (db w)
        ∧ voucher_used (db w') = voucher_used (db w)
        ∧ order_pk o = length (orders (db w))
        ∧ checkout_token o = token (checkout ci)
        ∧ status o = (if automatically_confirm_all_new_orders (channel ci)
                      then UNFULFILLED else UNCONFIRMED)
        ∧ origin o = ORIGIN_CHECKOUT
        ∧ order_channel o = channel ci
        ∧ order_total o = od_total od
        ∧ discounts o = (if truthy_money (discount (checkout ci))
                         then [checkout_discount_record (checkout ci)] else [])
    | Raise e =>
        db w' = db w
        ∧ ((∃ items, e = InsufficientStock items)
           ∨ (∃ msg c, e = GiftCardNotApplicable msg c))
    end.
Proof.
  intros Hnone. unfold _create_order. mrun. rewrite Hnone.
  unfold create_order_row, _handle_checkout_discount, bulk_create_lines,
    run_allocate_stocks, run_allocate_preorders, assign_payments, save_order,
    transaction_on_commit.
  mrun.
  destruct (truthy_money (discount (checkout ci))) eqn:Hdisc; mrun;
    (destruct (allocate_stocks _ _ _ _ _ _) as [items|rows]; mrun;
     [intros [= <- <-]; fsimpl; eauto 10|]);
    (destruct (add_gift_cards_to_order _ _ _ _ _) as [[msg c]|]; mrun;
     [intros [= <- <-]; fsimpl; eauto 10|]);
    intros [= <- <-]; fsimpl; osimpl;
    rewrite ?alter_last, ?insert_last; osimpl;
    rewrite ?alter_last, ?insert_last; repeat split; reflexivity.
Qed.


(** The world with the address book and the address sequence replaced:
    what storing and copying addresses changes. *)
Definition with_addresses (book : list (Z * Address)) (seq : Z) (w : World) : World :=
  mkWorld (set_address_seq (λ _, seq) (set_address_book (λ _, book) (db w)))
    (log w) (clock w).

Lemma with_addresses_id w :
  with_addresses (address_book (db w)) (address_seq (db w)) w = w.
Proof. by destruct w as [[] ? ?]. Qed.

Lemma with_addresses_twice b1 s1 b2 s2 w :
  with_addresses b2 s2 (with_addresses b1 s1 w) = with_addresses b2 s2 w.
Proof. reflexivity. Qed.

Lemma store_and_copy_run u a t w :
  ∃ r book seq, store_and_copy u a t w = (Ok r, with_addresses book seq w).
Proof.
  unfold store_and_copy, get_copy. mrun.
  destruct (user_has_address _ u a); mrun; by eexists _, _, _.
Qed.

Lemma _process_shipping_data_for_order_run ci base price lines w :
  ∃ sd book seq,
    _process_shipping_data_for_order ci base price lines w
    = (Ok sd, with_addresses book seq w).
Proof.
  unfold _process_shipping_data_for_order. mrun.
  destruct (store_as_customer_address _), (user ci), (dm_shipping_address _);
    mrun; try (eexists _, _, _; by rewrite with_addresses_id).
  destruct (store_and_copy_run u a SHIPPING w) as (r & book & seq & ->).
  by eexists _, _, _.
Qed.

Lemma _process_user_data_for_order_run ci w :
  ∃ ud book seq,
    _process_user_data_for_order ci w = (Ok ud, with_addresses book seq w).
Proof.
  unfold _process_user_data_for_order. mrun.
  destruct (user ci), (billing_address ci);
    mrun; try (eexists _, _, _; by rewrite with_addresses_id).
  destruct (store_and_copy_run u a BILLING w) as (r & book & seq & ->).
  by eexists _, _, _.
Qed.

Lemma _create_line_for_order_world ci lines cli pt vt tax_incl w :
  (_create_line_for_order ci lines cli pt vt tax_incl w).2 = w.
Proof.
  unfold _create_line_for_order. mrun.
  destruct (taxed_sub _ _); [|done]. mrun.
  destruct (_create_order_line_discounts _ _); mrun; [done|].
  destruct (rules_info cli); by mrun.
Qed.

Lemma for_each_world {A B} (f : A → M B) (l : list A) w :
  (∀ x w, (f x w).2 = w) → (for_each f l w).2 = w.
Proof.
  intros Hf. revert w. induction l as [|x l IH]; intros w; [done|].
  cbn [for_each]. rewrite bind_run.
  pose proof (Hf x w) as Hx. destruct (f x w) as [[y|e] w1]; cbn in Hx; subst w1; [|done].
  rewrite bind_run. pose proof (IH w) as Hl.
  destruct (for_each f l w) as [[ys|e] w1]; cbn in Hl; by subst w1.
Qed.

Lemma _create_lines_for_order_world ci lines tax_incl w :
  (_create_lines_for_order ci lines tax_incl w).2 = w.
Proof.
  unfold _create_lines_for_order. mrun.
  destruct (check_stock_and_preorder_quantity_bulk _ _ _ _ _ _ _); [done|].
  apply for_each_world. intros x w0. apply _create_line_for_order_world.
Qed.

Lemma _create_lines_for_order_run ci lines tax_incl w :
  ∃ r, _create_lines_for_order ci lines tax_incl w = (r, w).
Proof.
  pose proof (_create_lines_for_order_world ci lines tax_incl w) as Hw.
  destruct (_create_lines_for_order ci lines tax_incl w) as [r w1]. cbn in Hw.
  subst. eauto.
Qed.


(** What the transaction-flow materializer does to the world; the log, the
    clock, the checkouts and the voucher ledger are never touched. *)
Lemma _create_order_from_checkout_spec ci lines user ml pml w r w' :
  _create_order_from_checkout ci lines user ml pml w = (r, w') →
  log w' = log w ∧ clock w' = clock w
  ∧ checkouts (db w') = checkouts (db w)
  ∧ voucher_used (db w') = voucher_used (db w)
  ∧ match r with
    | Ok o =>
        orders (db w') = orders (db w) ++ [o]
        ∧ order_pk o = length (orders (db w))
        ∧ checkout_token o = token (checkout ci)
        ∧ status o = (if automatically_confirm_all_new_orders (channel ci)
                         && payment_transactions_exist (db w) (checkout ci)
                      then UNFULFILLED else UNCONFIRMED)
        ∧ origin o = ORIGIN_CHECKOUT
        ∧ order_channel o = channel ci
        ∧ discounts o = (if truthy_money (discount (checkout ci))
                         then [checkout_discount_record (checkout ci)] else [])
    | Raise e => True
    end.
Proof.
  unfold _create_order_from_checkout. mrun.
  destruct (_process_shipping_data_for_order_run ci
              (base_checkout_delivery_price ci lines)
              (checkout_shipping_price ci lines
                 (or_else (shipping_address ci) (billing_address ci)))
              lines w) as (sd & b1 & s1 & ->).
  mrun.
  destruct (_process_user_data_for_order_run ci (with_addresses b1 s1 w))
    as (ud & b2 & s2 & ->).
  rewrite with_addresses_twice.
  unfold create_order_row, _handle_checkout_discount,
    _create_order_lines_from_checkout_lines, bulk_create_lines,
    _handle_allocations_of_order_lines, run_allocate_stocks,
    run_allocate_preorders, assign_payments, assign_payment_transactions,
    save_order, _post_create_order_actions, transaction_on_commit,
    with_addresses.
  mrun. fsimpl.
  destruct (truthy_money (discount (checkout ci))) eqn:Hdisc; mrun;
    (match goal with
     | |- context [_create_lines_for_order ?a ?b ?c ?w0] =>
         destruct (_create_lines_for_order_run a b c w0) as ([infos|e] & ->)
     end; mrun; [|intros [= <- <-]; fsimpl; done]);
    (destruct (taxed_sum _ _) as [lines_total|]; mrun;
     [|intros [= <- <-]; fsimpl; done]);
    (destruct (taxed_add lines_total _) as [undiscounted|]; mrun;
     [|intros [= <- <-]; fsimpl; done]);
    (destruct (allocate_stocks _ _ _ _ _ _) as [items|rows]; mrun;
     [intros [= <- <-]; fsimpl; done|]);
    (destruct (taxed_sum _ _) as [subtotal|]; mrun;
     [|intros [= <- <-]; fsimpl; done]);
    (destruct (_ ≫= _) as [total_without_giftcard|]; mrun;
     [|intros [= <- <-]; fsimpl; done]);
    (destruct (add_gift_cards_to_order _ _ _ _ _) as [[msg c]|]; mrun;
     [intros [= <- <-]; fsimpl; done|]);
    intros [= <- <-]; fsimpl; osimpl;
    rewrite ?alter_last, ?insert_last; osimpl;
    rewrite ?alter_last, ?insert_last; osimpl;
    rewrite ?alter_last, ?insert_last; repeat split; reflexivity.
Qed.

End Materializers.

Section MaterializerClaims.

Context {pricing : Calculations} {ledger : Discounts} {warehouse : Warehouse}
  {cards : GiftCards} {cleaner : Validators} {manager : PluginsManager}
  {psp : Gateway} {environment : Environment}.

(** C6. Order status decision: an order created by the payment-flow
    materializer [_create_order] is [UNFULFILLED] when the channel
    automatically confirms new orders and [UNCONFIRMED] otherwise; an order
    created by the transaction-flow materializer [_create_order_from_checkout]
    is [UNFULFILLED] when the channel automatically confirms new orders and
    the checkout has at least one payment transaction, and [UNCONFIRMED] in
    every other case.  The created order is the row the table gains. *)
Theorem order_status_decision ci lines :
  (∀ od user ss ml pml w o w',
     order_by_token (db w) (token (checkout ci)) = None →
     _create_order ci lines od user ss ml pml w = (Ok o, w') →
     orders (db w') = orders (db w) ++ [o]
     ∧ (automatically_confirm_all_new_orders (channel ci) = true →
        status o = UNFULFILLED)
     ∧ (automatically_confirm_all_new_orders (channel ci) = false →
        status o = UNCONFIRMED))
  ∧ (∀ user ml pml w o w',
       _create_order_from_checkout ci lines user ml pml w = (Ok o, w') →
       orders (db w') = orders (db w) ++ [o]
       ∧ (automatically_confirm_all_new_orders (channel ci) = true →
          Exists (λ t, ti_checkout t = Some (token (checkout ci)))
            (payment_transactions (db w)) →
          status o = UNFULFILLED)
       ∧ (automatically_confirm_all_new_orders (channel ci) = false
          ∨ ¬ Exists (λ t, ti_checkout t = Some (token (checkout ci)))
                (payment_transactions (db w)) →
          status o = UNCONFIRMED)).
Proof.
  split.
  - intros od user ss ml pml w o w' Hnone Hr.
    apply _create_order_new in Hr as (_ & _ & Ho & _ & _ & _ & _ & Hst & _); [|done].
    rewrite Hst. split; [done|]. by split; intros ->.
  - intros user ml pml w o w' Hr.
    apply _create_order_from_checkout_spec in Hr
      as (_ & _ & _ & _ & Ho & _ & _ & Hst & _).
    rewrite Hst. split; [done|]. unfold payment_transactions_exist. split.
    + intros -> Hex. by rewrite bool_decide_eq_true_2.
    + intros [->|Hex]; [done|].
      rewrite bool_decide_eq_false_2 by done. by rewrite andb_false_r.
Qed.

(** C10. Order-level discount record: in both materializers the created
    order gets a discount record exactly when the checkout's discount is not
    zero, and then exactly one, of type [VOUCHER] and value type [FIXED], its
    value the checkout's discount amount, whatever kind of voucher gave the
    discount. *)
Theorem checkout_discount_recorded ci lines :
  let c := checkout ci in
  let record :=
    mkOrderDiscount VOUCHER FIXED (discount_amount c) (discount_name c)
      (translated_discount_name c) (checkout_currency c) (discount_amount c) in
  (∀ od user ss ml pml w o w',
     order_by_token (db w) (token c) = None →
     _create_order ci lines od user ss ml pml w = (Ok o, w') →
     orders (db w') = orders (db w) ++ [o]
     ∧ (discount_amount c ≠ 0 → discounts o = [record])
     ∧ (discount_amount c = 0 → discounts o = []))
  ∧ (∀ user ml pml w o w',
       _create_order_from_checkout ci lines user ml pml w = (Ok o, w') →
       orders (db w') = orders (db w) ++ [o]
       ∧ (discount_amount c ≠ 0 → discounts o = [record])
       ∧ (discount_amount c = 0 → discounts o = [])).
Proof.
  intros c record.
  assert (∀ l, l = (if truthy_money (discount c)
                    then [checkout_discount_record c] else []) →
               (discount_amount c ≠ 0 → l = [record])
               ∧ (discount_amount c = 0 → l = [])) as Hcases.
  { intros l ->. unfold truthy_money. cbn [discount amount].
    split.
    - intros Hne. apply Z.eqb_neq in Hne. by rewrite Hne.
    - intros Heq. apply Z.eqb_eq in Heq. by rewrite Heq. }
  split.
  - intros od user ss ml pml w o w' Hnone Hr.
    apply _create_order_new in Hr
      as (_ & _ & Ho & _ & _ & _ & _ & _ & _ & _ & _ & Hd); [|done].
    split; [done|]. by apply Hcases.
  - intros user ml pml w o w' Hr.
    apply _create_order_from_checkout_spec in Hr
      as (_ & _ & _ & _ & Ho & _ & _ & _ & _ & _ & Hd).
    split; [done|]. by apply Hcases.
Qed.

End MaterializerClaims.

(** ** The theorems at work on the concrete scenario *)

Import Scenario.

Lemma discount_arithmetic_witness :
  ∃ li w',
    _create_line_for_order (pricing:=scenario_calculations) (ledger:=scenario_discounts)
      (checkout_info_of channel_payment_flow checkout1) [line_info_promo]
      line_info_promo ∅ ∅ true world0 = (Ok li, w')
    ∧ (let l := oli_line li in
       (if true
        then money_sub (gross (undiscounted_unit_price l)) (gross (unit_price l))
        else money_sub (net (undiscounted_unit_price l)) (net (unit_price l)))
       = Some (unit_discount l)
       ∧ amount (unit_discount l) =
           (if true
            then amount (gross (undiscounted_unit_price l)) - amount (gross (unit_price l))
            else amount (net (undiscounted_unit_price l)) - amount (net (unit_price l)))
       ∧ unit_discount_value l = amount (unit_discount l))
    ∧ unit_discount (oli_line li) = usd 3.
Proof.
  eexists _, _. split; [reflexivity|]. split; [|reflexivity].
  apply (discount_arithmetic (pricing:=scenario_calculations)
           (ledger:=scenario_discounts)
           (checkout_info_of channel_payment_flow checkout1) [line_info_promo]
           line_info_promo ∅ ∅ true world0 _ world0).
  reflexivity.
Defined.

Lemma translation_fallback_witness :
  ∃ li w',
    _create_line_for_order (pricing:=scenario_calculations) (ledger:=scenario_discounts)
      (checkout_info_of channel_payment_flow checkout1) [line_info1]
      line_info1 product_names ∅ true world0 = (Ok li, w')
    ∧ product_name (oli_line li) = "Shirt"
    ∧ translated_product_name (oli_line li) = Some EmptyString
    ∧ translated_variant_name (oli_line li) = Some EmptyString.
Proof.
  eexists _, _. split; [reflexivity|].
  destruct (translation_fallback (pricing:=scenario_calculations)
              (ledger:=scenario_discounts)
              (checkout_info_of channel_payment_flow checkout1) [line_info1]
              line_info1 product_names ∅ true world0 _ world0 eq_refl)
    as (Hname & _ & Hproduct & _ & _ & Hvariant & _).
  split; [exact Hname|]. split; [by apply Hproduct|by apply Hvariant].
Defined.

Lemma zero_total_auto_pay_witness :
  ∃ order w3,
    complete_checkout_post_payment_part (warehouse:=scenario_warehouse true)
      (cards:=scenario_gift_cards)
      (environment:=scenario_environment channel_payment_flow id)
      (checkout_info_of channel_payment_flow checkout1) [line_info1] None None
      order_data_zero None None None None world0
    = (Ok (Some order, false, ∅), w3)
    ∧ log w3 = [EvMarkOrderAsPaid (order_pk order)].
Proof.
  destruct (zero_total_auto_pay (warehouse:=scenario_warehouse true)
              (cards:=scenario_gift_cards)
              (environment:=scenario_environment channel_payment_flow id)
              (checkout_info_of channel_payment_flow checkout1) [line_info1]
              None None order_data_zero None None None None world0 ∅ world0 _ _
              eq_refl eq_refl eq_refl eq_refl)
    as (w3 & Hrun & _ & Hlog).
  eexists _, w3. split; [exact Hrun|exact Hlog].
Defined.

Lemma post_payment_compensation_witness :
  ∃ w4,
    complete_checkout_post_payment_part (warehouse:=scenario_warehouse false)
      (cards:=scenario_gift_cards)
      (environment:=scenario_environment channel_payment_flow id)
      (checkout_info_of channel_payment_flow checkout1) [line_info1]
      (Some payment1) (Some txn_ok) order_data1 None None None None world0
    = (Raise (ValidationError (Some "lines") "Insufficient product stock."
                INSUFFICIENT_STOCK), w4)
    ∧ log w4 = [EvRefundOrVoid 5]
    ∧ orders (db w4) = []
    ∧ used (db w4) voucher10 = used db0 voucher10 - 1.
Proof.
  destruct (post_payment_compensation (warehouse:=scenario_warehouse false)
              (cards:=scenario_gift_cards)
              (environment:=scenario_environment channel_payment_flow id)
              (checkout_info_of channel_payment_flow checkout1) [line_info1]
              (Some payment1) (Some txn_ok) order_data1 None None None None
              world0 ∅ world0 (InsufficientStock [mkInsufficientStockData 11 2])
              world0 eq_refl eq_refl eq_refl (or_introl (ex_intro _ _ eq_refl)))
    as (w3 & w4 & _ & _ & Hrun & Hlog & Horders & _ & Hused).
  exists w4. split; [exact Hrun|]. split; [exact Hlog|]. split; [exact Horders|].
  by apply Hused.
Defined.


(** ** At most one order per checkout token *)

(** No two rows of the order table have the same checkout token. *)
Definition unique_tokens (d : Db) : Prop := NoDup (checkout_token <$> orders d).

(** [keeps_orders P m]: running [m] keeps a property of the order table. *)
Definition keeps_orders {A} (P : list Order → Prop) (m : M A) : Prop :=
  ∀ w, P (orders (db w)) → P (orders (db (m w).2)).

Lemma keeps_ret {A} P (a : A) : keeps_orders P (ret a).
Proof. by intros w. Qed.

Lemma keeps_raise {A} P e : keeps_orders P (raise (A:=A) e).
Proof. by intros w. Qed.

Lemma keeps_get_db P : keeps_orders P get_db.
Proof. by intros w. Qed.

Lemma keeps_emit P ev : keeps_orders P (emit ev).
Proof. by intros w. Qed.

Lemma keeps_modify_db P f :
  (∀ d, P (orders d) → P (orders (f d))) → keeps_orders P (modify_db f).
Proof. intros Hf w. apply Hf. Qed.

Lemma keeps_bind {A B} P (m : M A) (k : A → M B) :
  keeps_orders P m → (∀ a, keeps_orders P (k a)) → keeps_orders P (bind m k).
Proof.
  intros Hm Hk w HP. rewrite bind_run. specialize (Hm w HP).
  destruct (m w) as [[a|e] w1]; cbn in *; [by apply Hk|done].
Qed.

Lemma keeps_try_except {A} P (m : M A) h :
  keeps_orders P m → (∀ e, keeps_orders P (h e)) → keeps_orders P (try_except m h).
Proof.
  intros Hm Hh w HP. rewrite try_except_run. specialize (Hm w HP).
  destruct (m w) as [[a|e] w1]; cbn in *; [done|by apply Hh].
Qed.

Lemma keeps_atomic {A} P (m : M A) : keeps_orders P m → keeps_orders P (atomic m).
Proof.
  intros Hm w HP. rewrite atomic_run. specialize (Hm w HP).
  by destruct (m w) as [[a|e] w1].
Qed.

Lemma keeps_when P (c : bool) m : keeps_orders P m → keeps_orders P (when c m).
Proof. intros Hm. destruct c; [done|apply keeps_ret]. Qed.

Lemma keeps_value_of {A} P (o : option A) : keeps_orders P (value_of o).
Proof. destruct o; by intros w. Qed.

Lemma keeps_validate P r : keeps_orders P (validate r).
Proof. destruct r; by intros w. Qed.

Lemma keeps_check_stock P r : keeps_orders P (check_stock r).
Proof. destruct r; by intros w. Qed.

Lemma keeps_check_gift_cards P r : keeps_orders P (check_gift_cards r).
Proof. destruct r; by intros w. Qed.

Lemma keeps_unchanged {A} P (m : M A) : (∀ w, (m w).2 = w) → keeps_orders P m.
Proof. intros Hm w HP. by rewrite Hm. Qed.

(** One step of a proof that a function keeps the order table's property:
    the rule of the head construct, or a case split on what it branches on. *)
Ltac keeps_step :=
  lazy zeta;
  match goal with
  | |- keeps_orders _ (bind _ _) => apply keeps_bind; [|intros ?]
  | |- keeps_orders _ (ret _) => apply keeps_ret
  | |- keeps_orders _ (raise _) => apply keeps_raise
  | |- keeps_orders _ get_db => apply keeps_get_db
  | |- keeps_orders _ (emit _) => apply keeps_emit
  | |- keeps_orders _ (try_except _ _) => apply keeps_try_except; [|intros ?]
  | |- keeps_orders _ (atomic _) => apply keeps_atomic
  | |- keeps_orders _ (transaction_with_commit_on_errors _) =>
      unfold transaction_with_commit_on_errors
  | |- keeps_orders _ (when _ _) => apply keeps_when
  | |- keeps_orders _ (value_of _) => apply keeps_value_of
  | |- keeps_orders _ (validate _) => apply keeps_validate
  | |- keeps_orders _ (check_stock _) => apply keeps_check_stock
  | |- keeps_orders _ (check_gift_cards _) => apply keeps_check_gift_cards
  | |- keeps_orders _ (modify_db _) =>
      apply keeps_modify_db; intros ? ?; fsimpl; solve [eauto]
  | |- keeps_orders _ (match ?x with _ => _ end) => destruct x
  end.

Ltac keeps_tac := repeat first [ solve [eauto with keeps] | keeps_step ].

Create HintDb keeps.

Section OrderTableKept.

Context {pricing : Calculations} {ledger : Discounts} {warehouse : Warehouse}
  {cards : GiftCards} {cleaner : Validators} {manager : PluginsManager}
  {psp : Gateway} {environment : Environment}.

Variable P : list Order → Prop.

(** What other workers do keeps the property. *)
Hypothesis others_keep : ∀ d, P (orders d) → P (orders (concurrent_activity d)).

Lemma keeps_save_checkout c : keeps_orders P (save_checkout c).
Proof. unfold save_checkout. keeps_tac. Qed.

Lemma keeps_delete_checkout_row c : keeps_orders P (delete_checkout_row c).
Proof. unfold delete_checkout_row. keeps_tac. Qed.

Lemma keeps_release_voucher_usage v e : keeps_orders P (release_voucher_usage v e).
Proof. unfold release_voucher_usage. keeps_tac. Qed.

Lemma keeps_payment_refund_or_void p : keeps_orders P (payment_refund_or_void p).
Proof. unfold payment_refund_or_void. keeps_tac. Qed.

Lemma keeps_others_commit : keeps_orders P others_commit.
Proof. unfold others_commit. keeps_tac. Qed.

Lemma keeps_select_for_update_checkout pk :
  keeps_orders P (select_for_update_checkout pk).
Proof. unfold select_for_update_checkout. keeps_tac. Qed.

#[local] Hint Resolve keeps_save_checkout keeps_delete_checkout_row
  keeps_release_voucher_usage keeps_payment_refund_or_void
  keeps_others_commit keeps_select_for_update_checkout : keeps.

Lemma keeps_fetch_checkout_data ci lines : keeps_orders P (fetch_checkout_data ci lines).
Proof. unfold fetch_checkout_data. keeps_tac. Qed.

Lemma keeps__prepare_checkout ci lines url : keeps_orders P (_prepare_checkout ci lines url).
Proof. unfold _prepare_checkout. keeps_tac. Qed.

#[local] Hint Resolve keeps_fetch_checkout_data keeps__prepare_checkout : keeps.

Lemma keeps__prepare_checkout_with_payment ci lines url p :
  keeps_orders P (_prepare_checkout_with_payment ci lines url p).
Proof. unfold _prepare_checkout_with_payment. keeps_tac. Qed.

Lemma keeps__process_shipping_data_for_order ci b s lines :
  keeps_orders P (_process_shipping_data_for_order ci b s lines).
Proof.
  intros w HP.
  by destruct (_process_shipping_data_for_order_run ci b s lines w)
    as (sd & book & seq & ->).
Qed.

Lemma keeps__process_user_data_for_order ci :
  keeps_orders P (_process_user_data_for_order ci).
Proof.
  intros w HP.
  by destruct (_process_user_data_for_order_run ci w) as (ud & book & seq & ->).
Qed.

Lemma keeps__create_lines_for_order ci lines t :
  keeps_orders P (_create_lines_for_order ci lines t).
Proof. apply keeps_unchanged. intros w. apply _create_lines_for_order_world. Qed.

Lemma keeps__process_voucher_data_for_order ci :
  keeps_orders P (_process_voucher_data_for_order ci).
Proof.
  unfold _process_voucher_data_for_order, increase_voucher_usage,
    add_voucher_usage_by_customer.
  keeps_tac.
Qed.

#[local] Hint Resolve keeps__prepare_checkout_with_payment
  keeps__process_shipping_data_for_order keeps__process_user_data_for_order
  keeps__create_lines_for_order keeps__process_voucher_data_for_order : keeps.

Lemma keeps__prepare_order_data ci lines t :
  keeps_orders P (_prepare_order_data ci lines t).
Proof. unfold _prepare_order_data. keeps_tac. Qed.

#[local] Hint Resolve keeps__prepare_order_data : keeps.

Lemma keeps__get_order_data ci lines : keeps_orders P (_get_order_data ci lines).
Proof. unfold _get_order_data. keeps_tac. Qed.

#[local] Hint Resolve keeps__get_order_data : keeps.

Lemma keeps_complete_checkout_pre_payment_part ci lines user ss url :
  keeps_orders P (complete_checkout_pre_payment_part ci lines user ss url).
Proof. unfold complete_checkout_pre_payment_part. keeps_tac. Qed.

(** The reservation step cannot fail; it adds rows to the reservation
    table and reads the clock once per row. *)
Lemma _reserve_stocks_without_availability_check_run ci lines w :
  ∃ rs,
    _reserve_stocks_without_availability_check ci lines w
    = (Ok rs, mkWorld (set_reservations (λ l, l ++ rs) (db w)) (log w)
                (Nat.iter (length rs) tick (clock w))).
Proof.
  unfold _reserve_stocks_without_availability_check. rewrite bind_run, get_db_run.
  lazy beta iota zeta.
  match goal with
  | |- context [build_reservations ?m lines] =>
      destruct (build_reservations_run m lines w) as (rs & Hrun & _)
  end.
  exists rs. rewrite bind_run, Hrun. by mrun.
Qed.

Lemma keeps__reserve_stocks_without_availability_check ci lines :
  keeps_orders P (_reserve_stocks_without_availability_check ci lines).
Proof.
  intros w HP.
  by destruct (_reserve_stocks_without_availability_check_run ci lines w)
    as (rs & ->).
Qed.

#[local] Hint Resolve keeps_complete_checkout_pre_payment_part
  keeps__reserve_stocks_without_availability_check : keeps.

Lemma keeps_locked_pre_payment pk user ss url :
  keeps_orders P (locked_pre_payment pk user ss url).
Proof. unfold locked_pre_payment. keeps_tac. Qed.

Lemma keeps__process_payment p cid store data od slug :
  keeps_orders P (_process_payment p cid store data od slug).
Proof. unfold _process_payment, gateway_call. keeps_tac. Qed.

#[local] Hint Resolve keeps__process_payment : keeps.

Lemma keeps_unlocked_payment ci p cid store data od :
  keeps_orders P (unlocked_payment ci p cid store data od).
Proof. unfold unlocked_payment, refresh_from_db. keeps_tac. Qed.

Lemma keeps_payment_action p t od user : keeps_orders P (payment_action p t od user).
Proof. unfold payment_action, store_customer_id. keeps_tac. Qed.

Lemma keeps__is_refund_ongoing p : keeps_orders P (_is_refund_ongoing p).
Proof. unfold _is_refund_ongoing. keeps_tac. Qed.

End OrderTableKept.

Lemma order_by_token_Some d tok o :
  order_by_token d tok = Some o → o ∈ orders d ∧ checkout_token o = tok.
Proof.
  unfold order_by_token. intros Hlast.
  assert (o ∈ filter (λ o, checkout_token o = tok) (orders d)) as Ho.
  { apply last_Some in Hlast as [l ->]. set_solver. }
  by apply list_elem_of_filter in Ho as [? ?].
Qed.

Lemma order_by_token_None d tok :
  order_by_token d tok = None ↔ tok ∉ checkout_token <$> orders d.
Proof.
  unfold order_by_token. rewrite last_None. split.
  - intros Hnil Hin. apply list_elem_of_fmap in Hin as (o & -> & Ho).
    assert (o ∈ filter (λ o', checkout_token o' = checkout_token o) (orders d)) as Hf
      by by apply list_elem_of_filter.
    rewrite Hnil in Hf. by apply not_elem_of_nil in Hf.
  - intros Hnot. destruct (filter _ _) as [|o l] eqn:Hf; [done|].
    exfalso. apply Hnot.
    assert (o ∈ filter (λ o, checkout_token o = tok) (orders d)) as Ho
      by (rewrite Hf; set_solver).
    apply list_elem_of_filter in Ho as [<- Ho].
    apply list_elem_of_fmap. eauto.
Qed.

(** The look-up finds an order whenever one exists for the token. *)
Lemma order_by_token_found d tok :
  (∃ o, o ∈ orders d ∧ checkout_token o = tok) →
  ∃ o, order_by_token d tok = Some o ∧ o ∈ orders d ∧ checkout_token o = tok.
Proof.
  intros (o & Ho & Htok).
  destruct (order_by_token d tok) as [o'|] eqn:Hfind.
  - exists o'. split; [done|]. by apply order_by_token_Some.
  - exfalso. apply order_by_token_None in Hfind. apply Hfind.
    apply list_elem_of_fmap. eauto.
Qed.

Section OneOrderPerToken.

Context {pricing : Calculations} {ledger : Discounts} {warehouse : Warehouse}
  {cards : GiftCards} {cleaner : Validators} {manager : PluginsManager}
  {psp : Gateway} {environment : Environment}.

Abbreviation unique := (λ l : list Order, NoDup (checkout_token <$> l)).

(** The payment-flow materializer never adds a second order for a token. *)
Lemma keeps__create_order ci lines od user ss ml pml :
  keeps_orders unique (_create_order ci lines od user ss ml pml).
Proof.
  intros w Huniq.
  destruct (order_by_token (db w) (token (checkout ci))) as [order|] eqn:Hfind.
  - by rewrite (_create_order_existing _ _ _ _ _ _ _ _ _ Hfind).
  - destruct (_create_order ci lines od user ss ml pml w) as [r w'] eqn:Hrun.
    apply _create_order_new in Hrun as (_ & _ & Hr); [|done]. cbn.
    destruct r as [o|e].
    + destruct Hr as (-> & _ & _ & _ & Htok & _).
      rewrite fmap_app. cbn. apply NoDup_app. split; [done|]. split.
      * intros tok Hin Hin'. apply list_elem_of_singleton in Hin'. subst tok.
        rewrite Htok in Hin. by apply order_by_token_None in Hfind.
      * apply NoDup_singleton.
    + destruct Hr as [-> _]. done.
Qed.

Hypothesis others_keep : ∀ d, unique (orders d) → unique (orders (concurrent_activity d)).

#[local] Hint Resolve keeps__create_order : keeps.
#[local] Hint Resolve keeps_delete_checkout_row keeps_release_voucher_usage
  keeps_payment_refund_or_void keeps_others_commit
  keeps_select_for_update_checkout keeps_payment_action keeps__is_refund_ongoing keeps_locked_pre_payment
  keeps_unlocked_payment : keeps.

Lemma keeps_complete_checkout_post_payment_part ci lines p t od user ss ml pml :
  keeps_orders unique
    (complete_checkout_post_payment_part ci lines p t od user ss ml pml).
Proof.
  unfold complete_checkout_post_payment_part, mark_order_as_paid_with_payment.
  keeps_tac.
Qed.

#[local] Hint Resolve keeps_complete_checkout_post_payment_part : keeps.

Lemma keeps_locked_post_payment ci p t od user ss ml pml :
  keeps_orders unique (locked_post_payment ci p t od user ss ml pml).
Proof. unfold locked_post_payment. keeps_tac. Qed.

#[local] Hint Resolve keeps_locked_post_payment : keeps.

Lemma keeps_complete_checkout_with_payment pk data store user ss url ml pml :
  keeps_orders unique
    (complete_checkout_with_payment pk data store user ss url ml pml).
Proof. unfold complete_checkout_with_payment. keeps_tac. Qed.

End OneOrderPerToken.

Section LostRace.

Context {pricing : Calculations} {ledger : Discounts} {warehouse : Warehouse}
  {cards : GiftCards} {cleaner : Validators} {manager : PluginsManager}
  {psp : Gateway} {environment : Environment}.

(** A completion that finds no checkout row under the lock returns the
    order looked up by the token, and raises nothing. *)
Lemma locked_pre_payment_lost_race pk user ss url w :
  let d := concurrent_activity (db w) in
  checkouts d !! pk = None →
  locked_pre_payment pk user ss url w
  = (Ok (inl (order_by_token d pk, false, ∅)), mkWorld d (log w) (clock w)).
Proof.
  intros d Hgone. unfold locked_pre_payment, others_commit, select_for_update_checkout.
  mrun. fold d. rewrite Hgone. by mrun.
Qed.

Lemma locked_post_payment_lost_race ci p t od user ss ml pml w :
  let d := concurrent_activity (db w) in
  checkouts d !! token (checkout ci) = None →
  locked_post_payment ci p t od user ss ml pml w
  = (Ok (order_by_token d (token (checkout ci)), false, ∅),
     mkWorld d (log w) (clock w)).
Proof.
  intros d Hgone. unfold locked_post_payment, others_commit, select_for_update_checkout.
  mrun. fold d. rewrite Hgone. by mrun.
Qed.

Lemma order_transaction_lost_race ci user del ml pml w :
  let d := concurrent_activity (db w) in
  checkouts d !! token (checkout ci) = None →
  order_transaction ci user del ml pml w
  = (Ok (order_by_token d (token (checkout ci))), mkWorld d (log w) (clock w)).
Proof.
  intros d Hgone. unfold order_transaction, others_commit, select_for_update_checkout.
  mrun. fold d. rewrite Hgone. by mrun.
Qed.

Lemma complete_checkout_with_payment_lost_race pk data store user ss url ml pml w :
  let d := concurrent_activity (db w) in
  checkouts d !! pk = None →
  complete_checkout_with_payment pk data store user ss url ml pml w
  = (Ok (order_by_token d pk, false, ∅), mkWorld d (log w) (clock w)).
Proof.
  intros d Hgone. unfold complete_checkout_with_payment.
  rewrite bind_run, (locked_pre_payment_lost_race pk user ss url w Hgone).
  reflexivity.
Qed.

End LostRace.

Section OneOrderPerTokenTransactionFlow.

Context {pricing : Calculations} {ledger : Discounts} {warehouse : Warehouse}
  {cards : GiftCards} {cleaner : Validators} {manager : PluginsManager}
  {psp : Gateway} {environment : Environment}.

Lemma keeps_voucher_usage_transaction P ci :
  keeps_orders P (voucher_usage_transaction ci).
Proof.
  unfold voucher_usage_transaction, _increase_voucher_usage,
    add_voucher_usage_by_customer, increase_voucher_usage.
  keeps_tac.
Qed.

Lemma assign_checkout_user_token user d row lines v :
  token (checkout (assign_checkout_user user (fetch_checkout_info d row lines v)))
  = token row.
Proof.
  unfold assign_checkout_user, fetch_checkout_info, with_user, with_checkout.
  by destruct (_ && _ && _).
Qed.

(** The transaction-flow materializer has no look-up of its own: it keeps
    the tokens distinct when the locked checkout row has no order yet. *)
Lemma order_transaction_unique ci user del ml pml w :
  let d := concurrent_activity (db w) in
  unique_tokens d →
  (∀ row, checkouts d !! token (checkout ci) = Some row →
          order_by_token d (token row) = None) →
  unique_tokens (db (order_transaction ci user del ml pml w).2).
Proof.
  intros d Huniq Hfresh.
  unfold order_transaction, others_commit, select_for_update_checkout.
  mrun. fold d.
  destruct (checkouts d !! token (checkout ci)) as [row|] eqn:Hrow; mrun; [|done].
  specialize (Hfresh row eq_refl).
  match goal with
  | |- context [_create_order_from_checkout ?a ?b ?c ?e ?f ?w0] =>
      destruct (_create_order_from_checkout a b c e f w0) as [r w1] eqn:Hrun;
      apply _create_order_from_checkout_spec in Hrun
        as (_ & _ & _ & _ & Hr)
  end.
  destruct r as [o|e]; mrun.
  - destruct Hr as (Horders & _ & Htok & _). cbn [db] in Horders.
    rewrite assign_checkout_user_token in Htok.
    assert (unique_tokens (db w1)) as Huniq1.
    { unfold unique_tokens. rewrite Horders, fmap_app. cbn.
      apply NoDup_app. split; [done|]. split; [|apply NoDup_singleton].
      intros tok Hin Hin'. apply list_elem_of_singleton in Hin'. subst tok.
      rewrite Htok in Hin. by apply order_by_token_None in Hfresh. }
    destruct del; unfold delete_checkout_row; mrun; [|done].
    unfold unique_tokens. by fsimpl.
  - destruct e; mrun;
      try match goal with
          | |- context [release_voucher_usage ?v ?m ?w0] =>
              destruct (release_voucher_usage_run v m w0) as (w2 & -> & _); mrun
          end; done.
Qed.

End OneOrderPerTokenTransactionFlow.

(** C1 as stated fails: [create_order_from_checkout] called twice with
    [delete_checkout=False] creates a second order for the token, although
    the look-up by the token finds the first one. *)
Lemma second_order_for_one_token :
  unique_tokens (db (complete_keeping_checkout world_transaction_flow).2)
  ∧ order_pk <$> order_by_token
                   (db (complete_keeping_checkout world_transaction_flow).2) "tok-1"
    = Some 0%nat
  ∧ match (complete_keeping_checkout
             (complete_keeping_checkout world_transaction_flow).2).1 with
    | Ok (Some order) => order_pk order = 1%nat
    | _ => False
    end
  ∧ checkout_token <$>
      orders (db (complete_keeping_checkout
                    (complete_keeping_checkout world_transaction_flow).2).2)
    = ["tok-1"; "tok-1"]
  ∧ ¬ unique_tokens
        (db (complete_keeping_checkout
               (complete_keeping_checkout world_transaction_flow).2).2).
Proof.
  split; [vm_compute; apply NoDup_singleton|].
  split; [vm_compute; reflexivity|].
  split; [vm_compute; reflexivity|].
  assert (checkout_token <$>
            orders (db (complete_keeping_checkout
                          (complete_keeping_checkout world_transaction_flow).2).2)
          = ["tok-1"; "tok-1"]) as Htokens by (vm_compute; reflexivity).
  split; [exact Htokens|].
  unfold unique_tokens. rewrite Htokens. intros Hnodup.
  apply NoDup_cons in Hnodup as [Hnotin _]. apply Hnotin. apply list_elem_of_here.
Qed.

(** ** Voucher usage over a completion attempt *)

(** C3 on the scenario, whose voucher is usage-limited and has been used
    twice.  A successful completion leaves the count at three, in both
    flows, and insufficient stock in the payment flow leaves it at two.  Two
    failures after the increment leave it at three: the payment found
    inactive after the gateway call, where no release is called, and
    insufficient stock in the transaction flow, where the release runs
    inside the transaction that the re-raised error rolls back. *)
Theorem voucher_usage_not_restored :
  used db0 voucher10 = 2
  ∧ used db_transaction_flow voucher10 = 2
  ∧ outcome (attempt channel_payment_flow true id world0) = (inl (Some 0%nat), 3)
  ∧ outcome (attempt channel_transaction_flow true id world_transaction_flow)
    = (inl (Some 0%nat), 3)
  ∧ outcome (attempt channel_payment_flow false id world0)
    = (inr (ValidationError (Some "lines") "Insufficient product stock."
              INSUFFICIENT_STOCK), 2)
  ∧ outcome (attempt channel_payment_flow true deactivate_payment world0)
    = (inr (ValidationError None
              "The payment with pspReference: psp-1 is inactive."
              INACTIVE_PAYMENT), 3)
  ∧ outcome (attempt channel_transaction_flow false id world_transaction_flow)
    = (inr (ValidationError (Some "lines") "Insufficient product stock."
              INSUFFICIENT_STOCK), 3).
Proof. repeat split; vm_compute; reflexivity. Qed.

Section InactivePayment.

Context {pricing : Calculations} {ledger : Discounts} {warehouse : Warehouse}
  {cards : GiftCards} {cleaner : Validators} {manager : PluginsManager}
  {psp : Gateway} {environment : Environment}.

(** Whenever the payment step ends with the inactive-payment error, this
    worker has written nothing to the voucher ledger: no release ran. *)
Lemma inactive_payment_skips_release ci p cid store data od w msg w' :
  unlocked_payment ci (Some p) cid store data od w
  = (Raise (ValidationError None msg INACTIVE_PAYMENT), w') →
  voucher_used (db w') = voucher_used (concurrent_activity (db w))
  ∧ voucher_customers (db w') = voucher_customers (concurrent_activity (db w)).
Proof.
  unfold unlocked_payment, _process_payment, gateway_call, others_commit,
    refresh_from_db, payment_refund_or_void.
  destruct (to_confirm p); mrun;
    match goal with
    | |- context [match ?answer with inl _ => _ | inr _ => _ end] =>
        destruct answer as [failure|txn]
    end; mrun;
    try (destruct (release_voucher_usage_run (od_voucher od)
                     (ud_user_email (od_user od))
                     (mkWorld (concurrent_activity (db w))
                        (log w ++ [EvGatewayConfirm (payment_pk p)]) (clock w)))
           as (w2 & -> & _); mrun; discriminate);
    try (destruct (release_voucher_usage_run (od_voucher od)
                     (ud_user_email (od_user od))
                     (mkWorld (concurrent_activity (db w))
                        (log w ++ [EvGatewayProcessPayment (payment_pk p) cid store])
                        (clock w)))
           as (w2 & -> & _); mrun; discriminate).
  all: destruct (is_success txn); cbn [negb]; mrun.
  all: try match goal with
           | |- context [release_voucher_usage ?v ?m ?w0] =>
               destruct (release_voucher_usage_run v m w0) as (w2 & -> & _);
               mrun; discriminate
           end.
  all: match goal with
       | |- context [payment_is_active ?q] => destruct (payment_is_active q)
       end; cbn [negb]; mrun; intros [= _ <-]; done.
Qed.

End InactivePayment.

(** * Footprints

    What a function may change, as a relation between the world before and
    the world after: it holds of every run, returning or raising. *)

Definition within {A} (R : World → World → Prop) (m : M A) : Prop :=
  ∀ w, R w (m w).2.

(** The relations that compose along a run; a rollback restores the
    database and keeps the log and the clock. *)
Class Footprint (R : World → World → Prop) : Prop := {
  R_refl : ∀ w, R w w;
  R_trans : ∀ w1 w2 w3, R w1 w2 → R w2 w3 → R w1 w3;
  R_rollback : ∀ w w', R w w' → R w (mkWorld (db w) (log w') (clock w')) }.

Section Footprint.

Context (R : World → World → Prop) `{!Footprint R}.

Lemma within_ret {A} (a : A) : within R (ret a).
Proof. intros w. apply R_refl. Qed.

Lemma within_raise {A} e : within R (raise (A:=A) e).
Proof. intros w. apply R_refl. Qed.

Lemma within_get_db : within R get_db.
Proof. intros w. apply R_refl. Qed.

Lemma within_bind {A B} (m : M A) (k : A → M B) :
  within R m → (∀ a, within R (k a)) → within R (bind m k).
Proof.
  intros Hm Hk w. rewrite bind_run. specialize (Hm w).
  destruct (m w) as [[a|e] w1]; cbn in *; [|done].
  eapply R_trans; [exact Hm|apply Hk].
Qed.

Lemma within_try_except {A} (m : M A) h :
  within R m → (∀ e, within R (h e)) → within R (try_except m h).
Proof.
  intros Hm Hh w. rewrite try_except_run. specialize (Hm w).
  destruct (m w) as [[a|e] w1]; cbn in *; [done|].
  eapply R_trans; [exact Hm|apply Hh].
Qed.

Lemma within_atomic {A} (m : M A) : within R m → within R (atomic m).
Proof.
  intros Hm w. rewrite atomic_run. specialize (Hm w).
  destruct (m w) as [[a|e] w1]; cbn in *; [done|by apply R_rollback].
Qed.

Lemma within_when (c : bool) m : within R m → within R (when c m).
Proof. intros Hm. destruct c; [done|apply within_ret]. Qed.

Lemma within_value_of {A} (o : option A) : within R (value_of o).
Proof. destruct o; [apply within_ret|apply within_raise]. Qed.

Lemma within_validate r : within R (validate r).
Proof. destruct r; intros w; apply R_refl. Qed.

Lemma within_check_stock r : within R (check_stock r).
Proof. destruct r; intros w; apply R_refl. Qed.

Lemma within_check_gift_cards r : within R (check_gift_cards r).
Proof. destruct r; intros w; apply R_refl. Qed.

Lemma within_unchanged {A} (m : M A) : (∀ w, (m w).2 = w) → within R m.
Proof. intros Hm w. rewrite Hm. apply R_refl. Qed.

Lemma within_for_each {A B} (f : A → M B) (l : list A) :
  (∀ x, within R (f x)) → within R (for_each f l).
Proof.
  intros Hf. induction l as [|x l IH]; [apply within_ret|].
  cbn [for_each]. apply within_bind; [apply Hf|intros y].
  apply within_bind; [apply IH|intros ys]. apply within_ret.
Qed.

End Footprint.

Ltac within_rule lem := apply lem; try exact _.

(** One step of a footprint proof: the rule of the head construct, or a
    case split on what it branches on. *)
Ltac within_step :=
  lazy zeta;
  match goal with
  | |- within _ (bind _ _) => within_rule within_bind; [|intros ?]
  | |- within _ (ret _) => within_rule within_ret
  | |- within _ (raise _) => within_rule within_raise
  | |- within _ get_db => within_rule within_get_db
  | |- within _ (try_except _ _) => within_rule within_try_except; [|intros ?]
  | |- within _ (atomic _) => within_rule within_atomic
  | |- within _ (transaction_with_commit_on_errors _) =>
      unfold transaction_with_commit_on_errors
  | |- within _ (when _ _) => within_rule within_when
  | |- within _ (value_of _) => within_rule within_value_of
  | |- within _ (validate _) => within_rule within_validate
  | |- within _ (check_stock _) => within_rule within_check_stock
  | |- within _ (check_gift_cards _) => within_rule within_check_gift_cards
  | |- within _ (match ?x with _ => _ end) => destruct x
  end.

Create HintDb within.

Ltac within_tac :=
  repeat first [ solve [eauto with within typeclass_instances] | within_step ].

(** The log is as it was: no event was emitted. *)
Definition same_log (w w' : World) : Prop := log w' = log w.

(** The voucher usage ledger is as it was. *)
Definition same_ledger (w w' : World) : Prop :=
  voucher_used (db w') = voucher_used (db w)
  ∧ voucher_customers (db w') = voucher_customers (db w).

#[global] Instance same_log_footprint : Footprint same_log.
Proof. split; unfold same_log; [done|congruence|done]. Qed.

#[global] Instance same_ledger_footprint : Footprint same_ledger.
Proof.
  split; unfold same_ledger; [done| |done].
  intros w1 w2 w3 [? ?] [? ?]. split; congruence.
Qed.

(** * Further properties of the orchestrator *)

Section PostPaymentResults.

Context {pricing : Calculations} {ledger : Discounts} {warehouse : Warehouse}
  {cards : GiftCards} {cleaner : Validators} {manager : PluginsManager}
  {psp : Gateway} {environment : Environment}.

(** X1. [_create_order] is all or nothing: when it raises, the database,
    the log and the clock are as before the call (no order row, allocation,
    payment assignment or queued hook stays behind), there was no order for
    the token, and the error is insufficient stock or a gift-card
    rejection. *)
Theorem _create_order_all_or_nothing ci lines od user ss ml pml w e w' :
  _create_order ci lines od user ss ml pml w = (Raise e, w') →
  w' = w
  ∧ order_by_token (db w) (token (checkout ci)) = None
  ∧ ((∃ items, e = InsufficientStock items)
     ∨ (∃ msg c, e = GiftCardNotApplicable msg c)).
Proof.
  intros Hrun.
  destruct (order_by_token (db w) (token (checkout ci))) as [order|] eqn:Hfind.
  - by rewrite (_create_order_existing _ _ _ _ _ _ _ _ _ Hfind) in Hrun.
  - apply _create_order_new in Hrun as (Hlog & Hclock & Hdb & He); [|done].
    split; [|done]. destruct w, w'; cbn in *. congruence.
Qed.

(** The first block of the post-payment part never fails; it keeps the
    order and checkout tables, and writes to the database only to release
    the voucher when the transaction requires an action. *)
Lemma payment_action_run payment txn od user w :
  ∃ a data w1,
    payment_action payment txn od user w = (Ok (a, data), w1)
    ∧ clock w1 = clock w
    ∧ orders (db w1) = orders (db w)
    ∧ checkouts (db w1) = checkouts (db w)
    ∧ (a = false → db w1 = db w ∧ data = ∅)
    ∧ (a = true → ∃ p t, payment = Some p ∧ txn = Some t
                         ∧ action_required t = true
                         ∧ data = action_required_data t).
Proof.
  unfold payment_action, store_customer_id.
  destruct payment as [p|], txn as [t|]; mrun;
    try (eexists _, _, _; repeat split; done).
  assert (∀ w0, ∃ w1,
            (if action_required t
             then release_voucher_usage (od_voucher od)
                    (ud_user_email (od_user od)) ;;;
                  ret (true, action_required_data t)
             else ret (false, ∅)) w0
            = (Ok (action_required t,
                   if action_required t then action_required_data t else ∅), w1)
            ∧ clock w1 = clock w0
            ∧ orders (db w1) = orders (db w0)
            ∧ checkouts (db w1) = checkouts (db w0)
            ∧ (action_required t = false → db w1 = db w0)) as Hrest.
  { intros w0. destruct (action_required t); mrun;
      [|eexists; repeat split; done].
    destruct (release_voucher_usage_run (od_voucher od)
                (ud_user_email (od_user od)) w0)
      as (w1 & -> & _ & Hclock & Horders & Hcheckouts & _).
    mrun. eexists; repeat split; done. }
  destruct (customer_id t) as [cid|], user as [u|]; mrun;
    try destruct (truthy_string cid); mrun;
    match goal with
    | |- context [(if action_required t then _ else _) ?w0] =>
        destruct (Hrest w0) as (w1 & -> & Hclock & Horders & Hcheckouts & Hdb)
    end;
    exists (action_required t),
      (if action_required t then action_required_data t else ∅), w1;
    (split; [done|]); (split; [done|]); (split; [done|]); (split; [done|]);
    (split; [intros Ha; rewrite Ha in *; by split; [apply Hdb|]
            |intros Ha; rewrite Ha; by eauto 10]).
Qed.

Lemma order_by_token_snoc d d' o :
  orders d' = orders d ++ [o] →
  order_by_token d' (checkout_token o) = Some o.
Proof.
  intros Horders. unfold order_by_token.
  rewrite Horders, filter_app, filter_cons_True, filter_nil by done.
  apply last_snoc.
Qed.

(** What [_create_order] returns is the order a look-up by the token finds
    afterwards. *)
Lemma _create_order_found ci lines od user ss ml pml w o w' :
  _create_order ci lines od user ss ml pml w = (Ok o, w') →
  order_by_token (db w') (token (checkout ci)) = Some o
  ∧ checkouts (db w') = checkouts (db w).
Proof.
  intros Hrun.
  destruct (order_by_token (db w) (token (checkout ci))) as [order|] eqn:Hfind.
  - rewrite (_create_order_existing _ _ _ _ _ _ _ _ _ Hfind) in Hrun.
    by injection Hrun as <- <-.
  - apply _create_order_new in Hrun
      as (_ & _ & Horders & Hcheckouts & _ & _ & Htoken & _); [|done].
    split; [|done]. rewrite <- Htoken. by eapply order_by_token_snoc.
Qed.

(** An order returned by the post-payment part is stored and found. *)
Lemma post_payment_order_found ci lines payment txn od user ss ml pml
    w o a data w' :
  complete_checkout_post_payment_part ci lines payment txn od user ss ml pml w
  = (Ok (Some o, a, data), w') →
  a = false ∧ data = ∅
  ∧ checkouts (db w') !! token (checkout ci) = None
  ∧ order_by_token (db w') (token (checkout ci)) = Some o.
Proof.
  unfold complete_checkout_post_payment_part.
  destruct (payment_action_run payment txn od user w)
    as (a0 & data0 & w1 & Hact & _ & _ & _ & Hquiet & _).
  run_with Hact.
  destruct (_is_refund_ongoing_run payment w1) as (refund & Href).
  run_with Href.
  destruct a0, refund; cbn [negb andb]; mrun; try discriminate.
  destruct (Hquiet eq_refl) as [_ ->].
  destruct (_create_order ci lines od user ss ml pml w1) as [[order|e] w2]
    eqn:Hcreate; mrun.
  - apply _create_order_found in Hcreate as [Hfound _].
    unfold delete_checkout_row, mark_order_as_paid_with_payment. mrun.
    destruct (amount (net (order_total order)) =? 0); mrun;
      [destruct (bool_decide _); mrun|];
      intros [= <- <- <- <-]; fsimpl;
      (split; [done|]); (split; [done|]);
      (split; [apply lookup_delete_eq|exact Hfound]).
  - unfold payment_refund_or_void.
    destruct e; mrun; try discriminate;
      match goal with
      | |- context [release_voucher_usage ?v ?m ?w0] =>
          destruct (release_voucher_usage_run v m w0) as (w3 & -> & _)
      end; mrun; destruct payment; mrun; discriminate.
Qed.

(** X2. When the post-payment part returns an order, no action is
    required, the checkout row is gone, and a look-up by the checkout token
    finds that very order. *)
Theorem post_payment_order_stored ci lines payment txn od user ss ml pml
    w o a data w' :
  complete_checkout_post_payment_part ci lines payment txn od user ss ml pml w
  = (Ok (Some o, a, data), w') →
  a = false ∧ data = ∅
  ∧ checkouts (db w') !! token (checkout ci) = None
  ∧ order_by_token (db w') (token (checkout ci)) = Some o.
Proof. apply post_payment_order_found. Qed.

(** X3. When the gateway transaction requires an action, the post-payment
    part creates no order and keeps the checkout: it releases the voucher
    usage and returns the transaction's action data. *)
Theorem action_required_keeps_checkout ci lines p t od user ss ml pml w :
  action_required t = true →
  ∃ w',
    complete_checkout_post_payment_part ci lines (Some p) (Some t) od user ss
      ml pml w
    = (Ok (None, true, action_required_data t), w')
    ∧ orders (db w') = orders (db w)
    ∧ checkouts (db w') = checkouts (db w)
    ∧ ∀ v, od_voucher od = Some v → truthy_opt_Z (usage_limit v) = true →
           used (db w') v = used (db w) v - 1.
Proof.
  intros Haction.
  assert (∃ w1,
            payment_action (Some p) (Some t) od user w
            = (Ok (true, action_required_data t), w1)
            ∧ orders (db w1) = orders (db w)
            ∧ checkouts (db w1) = checkouts (db w)
            ∧ ∀ v, od_voucher od = Some v → truthy_opt_Z (usage_limit v) = true →
                   used (db w1) v = used (db w) v - 1)
    as (w1 & Hact & Horders & Hcheckouts & Hused).
  { unfold payment_action, store_customer_id. rewrite Haction.
    destruct (customer_id t) as [cid|], user as [u|]; mrun;
      try destruct (truthy_string cid); mrun;
      match goal with
      | |- context [release_voucher_usage ?v ?m ?w0] =>
          destruct (release_voucher_usage_run v m w0)
            as (w1 & -> & _ & _ & Horders & Hcheckouts & Hused)
      end;
      mrun; exists w1; repeat split; try done;
      intros v Hv Hlimit; rewrite (Hused v), Hv, Hlimit;
      by rewrite bool_decide_eq_true_2. }
  unfold complete_checkout_post_payment_part. run_with Hact.
  destruct (_is_refund_ongoing_run (Some p) w1) as (refund & Href).
  run_with Href. cbn [negb andb]. mrun. by exists w1.
Qed.

(** X4. When a refund is ongoing for the payment and no action is
    required, the post-payment part creates no order and leaves the
    database as it is: the checkout is kept and no voucher usage is
    released. *)
Theorem refund_ongoing_creates_no_order ci lines p txn od user ss ml pml w :
  (∀ t, txn = Some t → action_required t = false) →
  Exists (λ t, txn_payment t = payment_pk p
               ∧ kind t = KIND_REFUND_ONGOING ∧ is_success t = true)
    (gateway_transactions (db w)) →
  ∃ w',
    complete_checkout_post_payment_part ci lines (Some p) txn od user ss ml pml w
    = (Ok (None, false, ∅), w')
    ∧ db w' = db w.
Proof.
  intros Hquiet Hrefund.
  unfold complete_checkout_post_payment_part.
  destruct (payment_action_run (Some p) txn od user w)
    as (a & data & w1 & Hact & _ & _ & _ & Hfalse & Htrue).
  destruct a.
  { destruct (Htrue eq_refl) as (p' & t & _ & Htxn & Ha & _).
    rewrite (Hquiet t Htxn) in Ha. discriminate. }
  destruct (Hfalse eq_refl) as [Hdb ->].
  run_with Hact. unfold _is_refund_ongoing. mrun.
  rewrite Hdb, bool_decide_eq_true_2 by done.
  cbn [negb andb]. mrun. by exists w1.
Qed.

End PostPaymentResults.

Section PaymentStep.

Context {pricing : Calculations} {ledger : Discounts} {warehouse : Warehouse}
  {cards : GiftCards} {cleaner : Validators} {manager : PluginsManager}
  {psp : Gateway} {environment : Environment}.

(** The gateway call [_process_payment] makes for a payment. *)
Definition gateway_event (p : Payment) (customer_id : option string)
    (store_source : bool) : Event :=
  if to_confirm p then EvGatewayConfirm (payment_pk p)
  else EvGatewayProcessPayment (payment_pk p) customer_id store_source.

(** The outcomes of [_process_payment]. *)
Lemma _process_payment_cases p cid store data od channel_slug w r w' :
  _process_payment p cid store data od channel_slug w = (r, w') →
  log w' = log w ++ [gateway_event p cid store]
  ∧ match r with
    | Ok txn =>
        is_success txn = true
        ∧ db w' = set_gateway_transactions (λ l, l ++ [txn])
                    (concurrent_activity (db w))
    | Raise e =>
        (∃ msg, e = ValidationError None msg PAYMENT_ERROR)
        ∧ ∀ v, od_voucher od = Some v → truthy_opt_Z (usage_limit v) = true →
               used (db w') v = used (concurrent_activity (db w)) v - 1
    end.
Proof.
  unfold _process_payment, gateway_call, others_commit, gateway_event.
  assert (∀ w0 w1,
            (release_voucher_usage (od_voucher od) (ud_user_email (od_user od)) w0).2
            = w1 →
            log w1 = log w0
            ∧ ∀ v, od_voucher od = Some v → truthy_opt_Z (usage_limit v) = true →
                   used (db w1) v = used (db w0) v - 1) as Hrelease.
  { intros w0 w1 <-.
    destruct (release_voucher_usage_run (od_voucher od)
                (ud_user_email (od_user od)) w0)
      as (w1 & -> & Hlog & _ & _ & _ & Hused).
    split; [done|]. intros v Hv Hlimit. cbn. rewrite (Hused v), Hv, Hlimit.
    by rewrite bool_decide_eq_true_2. }
  destruct (to_confirm p); mrun;
    match goal with
    | |- context [match ?answer with inl _ => _ | inr _ => _ end] =>
        destruct answer as [failure|txn]
    end; mrun;
    try destruct (is_success txn) eqn:Hsuccess; cbn [negb]; mrun;
    try (intros [= <- <-]; by fsimpl);
    match goal with
    | |- context [release_voucher_usage ?v ?m ?w0] =>
        pose proof (Hrelease w0 _ eq_refl) as [Hlog Hused];
        destruct (release_voucher_usage_run v m w0) as (w1 & Hrel & _);
        rewrite Hrel in *
    end; mrun; intros [= <- <-]; cbn in Hlog, Hused; fsimpl;
    (split; [done|]); (split; [by eexists|]); exact Hused.
Qed.

(** X5. [_process_payment] calls the gateway exactly once, [confirm] for a
    payment to confirm and [process_payment] otherwise.  It returns a
    transaction only if the transaction is successful, stored beside what
    the other workers committed meanwhile; every failure of the gateway
    surfaces as a validation error with code PAYMENT_ERROR, after the
    voucher usage of the order data is released. *)
Theorem _process_payment_outcomes p cid store data od channel_slug w r w' :
  _process_payment p cid store data od channel_slug w = (r, w') →
  log w' = log w ++ [gateway_event p cid store]
  ∧ match r with
    | Ok txn =>
        is_success txn = true
        ∧ db w' = set_gateway_transactions (λ l, l ++ [txn])
                    (concurrent_activity (db w))
    | Raise e =>
        (∃ msg, e = ValidationError None msg PAYMENT_ERROR)
        ∧ ∀ v, od_voucher od = Some v → truthy_opt_Z (usage_limit v) = true →
               used (db w') v = used (concurrent_activity (db w)) v - 1
    end.
Proof. apply _process_payment_cases. Qed.

(** [payment.refresh_from_db()] gives a row of the same payment. *)
Lemma refresh_from_db_pk p w :
  ∃ p', refresh_from_db p w = (Ok p', w) ∧ payment_pk p' = payment_pk p.
Proof.
  unfold refresh_from_db. mrun. eexists. split; [done|].
  destruct (last _) as [p'|] eqn:Hlast; [|done]. cbn.
  apply last_Some in Hlast as [l Hl].
  assert (p' ∈ filter (λ q, payment_pk q = payment_pk p) (payments (db w))) as Hin
    by (rewrite Hl; set_solver).
  by apply list_elem_of_filter in Hin as [? _].
Qed.

(** X6. The inactive-payment error surfaces only after the gateway has
    answered with a successful transaction, which is stored, and a
    refund-or-void has been requested for the payment; the rest of the
    database, the voucher ledger included, is as the other workers left it
    during the gateway call. *)
Theorem inactive_payment_refunded ci p cid store data od w msg w' :
  unlocked_payment ci (Some p) cid store data od w
  = (Raise (ValidationError None msg INACTIVE_PAYMENT), w') →
  ∃ txn,
    is_success txn = true
    ∧ log w' = log w ++ [gateway_event p cid store; EvRefundOrVoid (payment_pk p)]
    ∧ db w' = set_gateway_transactions (λ l, l ++ [txn])
                (concurrent_activity (db w)).
Proof.
  unfold unlocked_payment. rewrite bind_run.
  destruct (_process_payment p cid store data od (slug (channel ci)) w)
    as [[txn|e] w1] eqn:Hpay;
    apply _process_payment_cases in Hpay as [Hlog Hr].
  - destruct Hr as [Hsuccess Hdb].
    destruct (refresh_from_db_pk p w1) as (p' & Hrefresh & Hpk).
    run_with Hrefresh. unfold payment_refund_or_void.
    destruct (payment_is_active p'); cbn [negb]; mrun; [discriminate|].
    intros [= _ <-]. exists txn. cbn. rewrite Hlog, Hpk, <- app_assoc. done.
  - destruct Hr as [[msg' ->] _]. discriminate.
Qed.

End PaymentStep.

Section Preparation.

Context {pricing : Calculations} {ledger : Discounts} {warehouse : Warehouse}
  {cards : GiftCards} {cleaner : Validators} {manager : PluginsManager}
  {psp : Gateway} {environment : Environment}.

(** The exceptions of the collaborators that the completion functions
    turn into validation errors. *)
Definition domain_error (e : Exn) : bool :=
  match e with
  | InsufficientStock _ | NotApplicable _ | GiftCardNotApplicable _ _
  | TaxError _ => true
  | _ => false
  end.

(** X7. [_get_order_data] never lets a stock, voucher, gift-card or tax
    exception of [_prepare_order_data] through: each surfaces as the
    validation error of its kind, any other exception is passed on, and the
    world is as [_prepare_order_data] left it. *)
Theorem _get_order_data_errors ci lines w e w' :
  _get_order_data ci lines w = (Raise e, w') →
  domain_error e = false
  ∧ ∃ e0,
      _prepare_order_data ci lines (prices_entered_with_tax ci) w = (Raise e0, w')
      ∧ e = match e0 with
            | InsufficientStock items =>
                prepare_insufficient_stock_checkout_validation_error items
            | NotApplicable _ =>
                ValidationError None "Voucher not applicable" VOUCHER_NOT_APPLICABLE
            | GiftCardNotApplicable message code => ValidationError None message code
            | TaxError tax_error =>
                ValidationError None ("Unable to calculate taxes - " +:+ tax_error)
                  TAX_ERROR
            | _ => e0
            end.
Proof.
  unfold _get_order_data. rewrite try_except_run.
  destruct (_prepare_order_data ci lines (prices_entered_with_tax ci) w)
    as [[od|e0] w1]; [discriminate|].
  destruct e0; mrun; intros [= <- <-]; (split; [done|]); by eexists.
Qed.

(** X8. [complete_checkout_with_transaction] surfaces a voucher that is no
    longer applicable, insufficient stock and a gift-card rejection as
    validation errors on the fields voucher_code, lines and gift_cards; it
    never raises one of these exceptions itself. *)
Theorem complete_checkout_with_transaction_errors ci lines user url ml pml
    w e w' :
  complete_checkout_with_transaction ci lines user url ml pml w = (Raise e, w') →
  (∀ msg, e ≠ NotApplicable msg)
  ∧ (∀ items, e ≠ InsufficientStock items)
  ∧ (∀ message code, e ≠ GiftCardNotApplicable message code)
  ∧ ∃ e0,
      (checkout_info <- _prepare_checkout_with_transactions ci lines url ;;
       create_order_from_checkout checkout_info user true ml pml) w
      = (Raise e0, w')
      ∧ e = match e0 with
            | NotApplicable _ =>
                ValidationError (Some "voucher_code") "Voucher not applicable"
                  VOUCHER_NOT_APPLICABLE
            | InsufficientStock items =>
                prepare_insufficient_stock_checkout_validation_error items
            | GiftCardNotApplicable message code =>
                ValidationError (Some "gift_cards") message code
            | _ => e0
            end.
Proof.
  unfold complete_checkout_with_transaction. rewrite try_except_run.
  destruct ((checkout_info <- _prepare_checkout_with_transactions ci lines url ;;
             create_order_from_checkout checkout_info user true ml pml) w)
    as [[o|e0] w1]; [discriminate|].
  destruct e0; mrun; intros [= <- <-]; repeat split; try done; by eexists.
Qed.

(** The outcomes of [_prepare_checkout]. *)
Lemma _prepare_checkout_cases ci lines url w r w' :
  _prepare_checkout ci lines url w = (r, w') →
  match r with
  | Raise e => w' = w
  | Ok ci' =>
      is_active (channel ci) = true
      ∧ clean_checkout_shipping ci lines = None
      ∧ match url with
        | Some u =>
            if truthy_string u
            then validate_storefront_url u = None
                 ∧ ci' = with_checkout (with_redirect_url url (checkout ci)) ci
                 ∧ (url = redirect_url (checkout ci) → ci' = ci ∧ w' = w)
                 ∧ (url ≠ redirect_url (checkout ci) →
                    (save_checkout (with_redirect_url url (checkout ci)) w).2 = w')
            else ci' = ci ∧ w' = w
        | None => ci' = ci ∧ w' = w
        end
  end.
Proof.
  unfold _prepare_checkout.
  destruct (clean_checkout_shipping ci lines) as [error|]; mrun;
    [by intros [= <- <-]|].
  destruct (is_active (channel ci)); cbn [negb]; [|by intros [= <- <-]].
  destruct url as [u|]; [|by intros [= <- <-]].
  destruct (truthy_string u); [|by intros [= <- <-]].
  destruct (validate_storefront_url u) as [error|]; mrun; [by intros [= <- <-]|].
  assert (Some u = redirect_url (checkout ci) →
          ci = with_checkout (with_redirect_url (Some u) (checkout ci)) ci)
    as Hsame.
  { intros Hu. destruct ci as [c ? ? ? ? ? ? ?]. destruct c. cbn in *.
    unfold with_checkout, with_redirect_url. cbn. by subst. }
  case_bool_decide as Hnew; mrun; intros [= <- <-].
  - repeat split; done.
  - repeat split; try done. by apply Hsame.
Qed.

(** X9. [_prepare_checkout] fails without writing anything.  When it
    succeeds the channel is active and the checkout's redirect URL is the
    given one if a non-empty one was given; the checkout row is written only
    then and only if the URL differs from the stored one. *)
Theorem _prepare_checkout_redirect_url ci lines url w r w' :
  _prepare_checkout ci lines url w = (r, w') →
  match r with
  | Raise e => w' = w
  | Ok ci' =>
      is_active (channel ci) = true
      ∧ clean_checkout_shipping ci lines = None
      ∧ match url with
        | Some u =>
            if truthy_string u
            then validate_storefront_url u = None
                 ∧ ci' = with_checkout (with_redirect_url url (checkout ci)) ci
                 ∧ (url = redirect_url (checkout ci) → ci' = ci ∧ w' = w)
                 ∧ (url ≠ redirect_url (checkout ci) →
                    (save_checkout (with_redirect_url url (checkout ci)) w).2 = w')
            else ci' = ci ∧ w' = w
        | None => ci' = ci ∧ w' = w
        end
  end.
Proof. apply _prepare_checkout_cases. Qed.

(** X10. [_prepare_checkout_with_transactions] lets a checkout through
    only if its authorized amount covers the total or the channel allows
    unpaid orders, a voucher code on the checkout has its voucher, the gift
    cards are valid, the channel is active, and the taxes can be computed. *)
Theorem _prepare_checkout_with_transactions_admits ci lines url w ci' w' :
  _prepare_checkout_with_transactions ci lines url w = (Ok ci', w') →
  clean_billing_address ci = None
  ∧ (authorize_status (checkout ci) = AUTH_FULL
     ∨ allow_unpaid_orders (channel ci) = true)
  ∧ (truthy_opt_string (voucher_code (checkout ci)) = true →
     is_none (voucher ci) = false)
  ∧ _validate_gift_cards (db w) (checkout ci) = None
  ∧ is_active (channel ci) = true
  ∧ preprocess_order_creation ci' lines = None
  ∧ _prepare_checkout ci lines url w = (Ok ci', w').
Proof.
  unfold _prepare_checkout_with_transactions.
  destruct (clean_billing_address ci) as [error|]; mrun; [discriminate|].
  case_bool_decide as Hauth;
    destruct (allow_unpaid_orders (channel ci)) eqn:Hunpaid;
    cbn [negb andb]; try discriminate;
    (destruct (truthy_opt_string (voucher_code (checkout ci))) eqn:Hcode;
     destruct (is_none (voucher ci)) eqn:Hvoucher;
     cbn [andb]; try discriminate);
    mrun;
    (destruct (_validate_gift_cards (db w) (checkout ci)) as [rejection|];
     mrun; [discriminate|]);
    (destruct (_prepare_checkout ci lines url w) as [[ci1|e] w1] eqn:Hprepare;
     [|discriminate]);
    pose proof (_prepare_checkout_cases _ _ _ _ _ _ Hprepare) as [Hactive _];
    (destruct (preprocess_order_creation ci1 lines) as [tax_error|] eqn:Htax;
     mrun; [discriminate|]);
    intros [= <- <-]; repeat split; auto;
    try (by left).
Qed.

End Preparation.

Section OrderLines.

Context {pricing : Calculations} {ledger : Discounts} {warehouse : Warehouse}
  {cards : GiftCards} {cleaner : Validators} {manager : PluginsManager}
  {psp : Gateway} {environment : Environment}.

(** The reason a voucher on the line gives for its discount. *)
Definition voucher_reason (cli : CheckoutLineInfo) : option string :=
  match line_voucher cli with
  | Some v => if truthy_string (code v) then Some ("Voucher code: " +:+ code v) else None
  | None => None
  end.

(** X11. The discount reason of an order line: without promotion discounts
    it is the voucher's reason, if the line has a voucher with a code, and
    the line has no sale id; with promotion discounts the sale id and the
    reason come from the promotion of the first rule of the line, the reason
    joined to the voucher's by an ampersand when there is one, and the line
    carries one order line discount per promotion discount.  The quantity
    and the metadata are those of the checkout line. *)
Theorem unit_discount_reason_composed ci lines cli pt vt (tax_incl : bool)
    w li w' :
  _create_line_for_order ci lines cli pt vt tax_incl w = (Ok li, w') →
  let l := oli_line li in
  ol_quantity l = quantity (line cli)
  ∧ oli_quantity li = quantity (line cli)
  ∧ ol_metadata l = line_metadata (line cli)
  ∧ ol_voucher_code l = code <$> line_voucher cli
  ∧ length (line_discounts li) = length (promotion_discounts cli)
  ∧ match promotion_discounts cli with
    | [] => unit_discount_reason l = voucher_reason cli ∧ sale_id l = None
    | _ :: _ =>
        ∃ rule,
          head (rules_info cli) = Some rule
          ∧ sale_id l = Some (get_sale_id (promotion rule))
          ∧ unit_discount_reason l =
              Some (match voucher_reason cli with
                    | Some r =>
                        r +:+ " & " +:+
                        prepare_promotion_discount_reason (promotion rule)
                          (get_sale_id (promotion rule))
                    | None =>
                        prepare_promotion_discount_reason (promotion rule)
                          (get_sale_id (promotion rule))
                    end)
    end.
Proof.
  unfold _create_line_for_order, _create_order_line_discounts, voucher_reason.
  intros Hr.
  apply bind_Ok_inv in Hr as (dp & w1 & Hdp & Hr).
  apply value_of_Ok_inv in Hdp as [_ ->].
  apply bind_Ok_inv in Hr as ([sale reason] & w2 & Hpromo & Hr).
  destruct (promotion_discounts cli) as [|d ds]; cbn in Hpromo.
  - injection Hpromo as <- <- <-. injection Hr as <- <-. cbn.
    by destruct (line_voucher cli).
  - destruct (rules_info cli) as [|rule rules]; [discriminate|].
    injection Hpromo as <- <- <-. injection Hr as <- <-. cbn.
    rewrite length_map.
    destruct (line_voucher cli) as [v|]; cbn;
      [destruct (truthy_string (code v))|];
      (do 5 (split; [done|])); by exists rule.
Qed.

(** X12. A line with promotion discounts and no rule cannot be built:
    when its amounts are in one currency, [_create_line_for_order] fails
    with an index error on [rules_info[0]]. *)
Theorem promotion_without_rule_fails ci lines cli pt vt (tax_incl : bool) w :
  promotion_discounts cli ≠ [] →
  rules_info cli = [] →
  is_Some (taxed_sub
             (mkTaxedMoney
                (calculate_undiscounted_base_line_unit_price cli (channel ci))
                (calculate_undiscounted_base_line_unit_price cli (channel ci)))
             (checkout_line_unit_price ci lines cli)) →
  _create_line_for_order ci lines cli pt vt tax_incl w = (Raise IndexError, w).
Proof.
  intros Hdiscounts Hrules [dp Hdp].
  unfold _create_line_for_order, _create_order_line_discounts.
  rewrite bind_run, Hdp. mrun.
  destruct (promotion_discounts cli); [done|]. cbn. rewrite Hrules. by mrun.
Qed.

Lemma for_each_Forall2 {A B} (f : A → M B) (l : list A) w ys w' :
  (∀ x w0, (f x w0).2 = w0) →
  for_each f l w = (Ok ys, w') →
  w' = w ∧ Forall2 (λ x y, f x w = (Ok y, w)) l ys.
Proof.
  intros Hf. revert ys w'. induction l as [|x l IH]; intros ys w'; cbn [for_each].
  - intros [= <- <-]. by split.
  - intros Hr. apply bind_Ok_inv in Hr as (y & w1 & Hx & Hr).
    pose proof (Hf x w) as Hw. rewrite Hx in Hw. cbn in Hw. subst w1.
    apply bind_Ok_inv in Hr as (ys' & w2 & Hl & Hr).
    destruct (IH _ _ Hl) as [-> Hall]. injection Hr as <- <-.
    split; [done|]. by constructor.
Qed.

(** X13. [_create_lines_for_order] only reads.  When the stock check
    fails it raises the insufficient-stock error without building a line;
    when it returns, the stock check has passed and the result has one order
    line per checkout line, in the same order, with the line's quantity and
    variant. *)
Theorem _create_lines_for_order_one_per_line ci lines (tax_incl : bool) w :
  let stock :=
    check_stock_and_preorder_quantity_bulk (db w) (map variant lines)
      (get_country ci) (map (λ line_info, quantity (line line_info)) lines)
      (slug (channel ci)) (delivery_method_info ci) lines in
  (_create_lines_for_order ci lines tax_incl w).2 = w
  ∧ (∀ items, stock = Some items →
       _create_lines_for_order ci lines tax_incl w
       = (Raise (InsufficientStock items), w))
  ∧ (∀ infos w', _create_lines_for_order ci lines tax_incl w = (Ok infos, w') →
       stock = None
       ∧ Forall2 (λ cli li, oli_quantity li = quantity (line cli)
                            ∧ ol_quantity (oli_line li) = quantity (line cli)
                            ∧ oli_variant li = variant cli
                            ∧ ol_variant (oli_line li) = variant cli)
           lines infos).
Proof.
  intros stock. split; [apply _create_lines_for_order_world|]. split.
  - intros items Hstock. unfold _create_lines_for_order. mrun.
    fold stock. rewrite Hstock. by mrun.
  - intros infos w'. unfold _create_lines_for_order. mrun. fold stock.
    destruct stock as [items|]; mrun; [discriminate|].
    intros Hr. split; [done|].
    apply for_each_Forall2 in Hr as [_ Hall];
      [|intros x w0; apply _create_line_for_order_world].
    eapply Forall2_impl; [exact Hall|]. intros cli li Hline. cbn in Hline.
    unfold _create_line_for_order in Hline.
    apply bind_Ok_inv in Hline as (dp & w1 & _ & Hline).
    apply bind_Ok_inv in Hline as ([sale reason] & w2 & _ & Hline).
    by injection Hline as <-.
Qed.

End OrderLines.

Section OrderDataLedger.

Context {pricing : Calculations} {ledger : Discounts} {warehouse : Warehouse}
  {cards : GiftCards} {cleaner : Validators} {manager : PluginsManager}
  {psp : Gateway} {environment : Environment}.

(** By how much a completion's increment moves the counter of [v]. *)
Definition usage_step (applied : option Voucher) (v : Voucher) : Z :=
  match applied with
  | Some v' =>
      if truthy_opt_Z (usage_limit v') && bool_decide (voucher_pk v' = voucher_pk v)
      then 1 else 0
  | None => 0
  end.

Lemma used_increase d k v :
  used (set_voucher_used (λ m, <[k := default 0 (m !! k) + 1]> m) d) v
  = if bool_decide (k = voucher_pk v) then used d v + 1 else used d v.
Proof.
  unfold used. fsimpl. case_bool_decide as Hk.
  - subst k. by rewrite lookup_insert_eq.
  - by rewrite lookup_insert_ne.
Qed.

Lemma used_set_voucher_customers d f v :
  used (set_voucher_customers f d) v = used d v.
Proof. done. Qed.

Lemma used_with_addresses book seq w v :
  used (db (with_addresses book seq w)) v = used (db w) v.
Proof. done. Qed.

Lemma with_addresses_ledger book seq w : same_ledger w (with_addresses book seq w).
Proof. done. Qed.

(** The voucher ledger over [_prepare_order_data], by outcome. *)
Lemma _prepare_order_data_ledger ci lines (tax_incl : bool) w r w' :
  _prepare_order_data ci lines tax_incl w = (r, w') →
  match r with
  | Ok od =>
      od_voucher od = get_voucher_for_checkout_info ci
      ∧ ∀ v, used (db w') v
             = used (db w) v + usage_step (get_voucher_for_checkout_info ci) v
  | Raise (InsufficientStock _) | Raise (GiftCardNotApplicable _ _) =>
      same_ledger w w'
  | Raise (TaxError _) => ∀ v, used (db w') v = used (db w) v
  | Raise _ => True
  end.
Proof.
  unfold _prepare_order_data. mrun.
  destruct (_process_shipping_data_for_order_run ci
              (base_checkout_delivery_price ci lines)
              (checkout_shipping_price ci lines
                 (or_else (shipping_address ci) (billing_address ci)))
              lines w) as (sd & b1 & s1 & ->).
  mrun.
  destruct (_process_user_data_for_order_run ci (with_addresses b1 s1 w))
    as (ud & b2 & s2 & ->).
  rewrite with_addresses_twice. lazy beta iota zeta. mrun.
  destruct (_create_lines_for_order_run ci lines tax_incl (with_addresses b2 s2 w))
    as ([infos|e] & ->); mrun;
    [|intros [= <- <-]; by destruct e].
  destruct (taxed_sum _ _) as [lines_total|]; mrun; [|by intros [= <- <-]].
  destruct (taxed_add lines_total _) as [undiscounted|]; mrun;
    [|by intros [= <- <-]].
  destruct (_validate_gift_cards _ _) as [rejection|]; mrun;
    [by intros [= <- <-]|].
  unfold _process_voucher_data_for_order, increase_voucher_usage,
    add_voucher_usage_by_customer, usage_step.
  destruct (truthy_opt_string (voucher_code (checkout ci))
            && is_none (get_voucher_for_checkout_info ci)); mrun;
    [by intros [= <- <-]|].
  destruct (get_voucher_for_checkout_info ci) as [v'|]; mrun.
  - destruct (truthy_opt_Z (usage_limit v')) eqn:Hlimit; mrun;
      (destruct (apply_once_per_customer v'); mrun;
       [destruct (customer_usage_allowed _ v' _); mrun;
        [|by intros [= <- <-]]|]);
      (destruct (s ← taxed_add _ _; taxed_sub_money s _) as [left|]; mrun;
       [|by intros [= <- <-]]);
      (destruct (preprocess_order_creation ci lines) as [tax_error|]; mrun;
       [match goal with
        | |- context [release_voucher_usage ?a ?b ?w0] =>
            destruct (release_voucher_usage_run a b w0)
              as (w3 & -> & _ & _ & _ & _ & Hused)
        end; mrun; intros [= <- <-]; intros v; rewrite (Hused v), Hlimit;
        cbn [andb]; fsimpl;
        rewrite ?used_set_voucher_customers, ?used_increase, ?used_with_addresses;
        repeat case_bool_decide; unfold used; fsimpl; lia
       |intros [= <- <-]; split; [done|]; intros v; cbn [andb]; fsimpl;
        rewrite ?used_set_voucher_customers, ?used_increase, ?used_with_addresses;
        repeat case_bool_decide; unfold used; fsimpl; lia]).
  - destruct (s ← taxed_add _ _; taxed_sub_money s _) as [left|]; mrun;
      [|by intros [= <- <-]].
    destruct (preprocess_order_creation ci lines) as [tax_error|]; mrun;
      intros [= <- <-]; [done|].
    split; [done|]. intros v. rewrite used_with_addresses. lia.
Qed.

(** X14. Insufficient stock and a gift-card rejection in
    [_prepare_order_data] come before the voucher usage is increased: when
    it raises one of them, the voucher ledger is untouched. *)
Theorem _prepare_order_data_early_failures ci lines (tax_incl : bool) w e w' :
  _prepare_order_data ci lines tax_incl w = (Raise e, w') →
  (∃ items, e = InsufficientStock items)
  ∨ (∃ message code, e = GiftCardNotApplicable message code) →
  voucher_used (db w') = voucher_used (db w)
  ∧ voucher_customers (db w') = voucher_customers (db w).
Proof.
  intros Hrun He. apply _prepare_order_data_ledger in Hrun.
  by destruct He as [[items ->]|(message & code & ->)].
Qed.


End OrderDataLedger.

(** ** Events of a completion attempt *)

(** A footprint that constrains the log only: database writes and clock
    readings are always within it. *)
Class LogOnly (R : World → World → Prop) : Prop :=
  log_only : ∀ w d c, R w (mkWorld d (log w) c).

(** A call that charges the customer: [gateway.confirm] or
    [gateway.process_payment]. *)
Definition is_charge (e : Event) : bool :=
  match e with
  | EvGatewayConfirm _ | EvGatewayProcessPayment _ _ _ => true
  | _ => false
  end.

(** Events were added to the log, none of them a charge. *)
Definition no_charge (w w' : World) : Prop :=
  ∃ evs, log w' = log w ++ evs ∧ Forall (λ e, is_charge e = false) evs.

#[global] Instance no_charge_footprint : Footprint no_charge.
Proof.
  split.
  - intros w. exists []. by rewrite app_nil_r.
  - intros w1 w2 w3 (evs1 & H1 & Hall1) (evs2 & H2 & Hall2).
    exists (evs1 ++ evs2). rewrite H2, H1, app_assoc. split; [done|].
    by apply Forall_app.
  - by intros w w' (evs & Hlog & Hall); exists evs.
Qed.

#[global] Instance same_log_only : LogOnly same_log.
Proof. by intros w d c. Qed.

#[global] Instance no_charge_only : LogOnly no_charge.
Proof. intros w d c. exists []. by rewrite app_nil_r. Qed.

Lemma no_charge_emit ev : is_charge ev = false → within no_charge (emit ev).
Proof. intros Hev w. exists [ev]. split; [done|]. by constructor. Qed.

Section LogFootprints.

Context {pricing : Calculations} {ledger : Discounts} {warehouse : Warehouse}
  {cards : GiftCards} {cleaner : Validators} {manager : PluginsManager}
  {psp : Gateway} {environment : Environment}.

Context (R : World → World → Prop) `{!Footprint R} `{!LogOnly R}.

Lemma within_modify_db f : within R (modify_db f).
Proof. intros w. apply log_only. Qed.

Lemma within_timezone_now : within R timezone_now.
Proof. intros w. apply log_only. Qed.

#[local] Hint Resolve within_modify_db within_timezone_now : within.

Lemma within_save_checkout c : within R (save_checkout c).
Proof. unfold save_checkout. within_tac. Qed.

Lemma within_delete_checkout_row c : within R (delete_checkout_row c).
Proof. unfold delete_checkout_row. within_tac. Qed.

Lemma within_release_voucher_usage v m : within R (release_voucher_usage v m).
Proof. unfold release_voucher_usage. within_tac. Qed.

Lemma within_others_commit : within R others_commit.
Proof. unfold others_commit. within_tac. Qed.

Lemma within_select_for_update_checkout pk : within R (select_for_update_checkout pk).
Proof. unfold select_for_update_checkout. within_tac. Qed.

#[local] Hint Resolve within_save_checkout within_delete_checkout_row
  within_release_voucher_usage within_others_commit
  within_select_for_update_checkout : within.

Lemma within_fetch_checkout_data ci lines : within R (fetch_checkout_data ci lines).
Proof. unfold fetch_checkout_data. within_tac. Qed.

Lemma within__prepare_checkout ci lines url : within R (_prepare_checkout ci lines url).
Proof. unfold _prepare_checkout. within_tac. Qed.

#[local] Hint Resolve within_fetch_checkout_data within__prepare_checkout : within.

Lemma within__prepare_checkout_with_payment ci lines url p :
  within R (_prepare_checkout_with_payment ci lines url p).
Proof. unfold _prepare_checkout_with_payment. within_tac. Qed.

Lemma within__process_shipping_data_for_order ci b s lines :
  within R (_process_shipping_data_for_order ci b s lines).
Proof.
  intros w.
  destruct (_process_shipping_data_for_order_run ci b s lines w)
    as (sd & book & seq & ->).
  apply log_only.
Qed.

Lemma within__process_user_data_for_order ci :
  within R (_process_user_data_for_order ci).
Proof.
  intros w.
  destruct (_process_user_data_for_order_run ci w) as (ud & book & seq & ->).
  apply log_only.
Qed.

Lemma within__create_lines_for_order ci lines t :
  within R (_create_lines_for_order ci lines t).
Proof. apply within_unchanged; [done|]. intros w. apply _create_lines_for_order_world. Qed.

Lemma within__process_voucher_data_for_order ci :
  within R (_process_voucher_data_for_order ci).
Proof.
  unfold _process_voucher_data_for_order, increase_voucher_usage,
    add_voucher_usage_by_customer.
  within_tac.
Qed.

#[local] Hint Resolve within__prepare_checkout_with_payment
  within__process_shipping_data_for_order within__process_user_data_for_order
  within__create_lines_for_order within__process_voucher_data_for_order : within.

Lemma within__prepare_order_data ci lines t : within R (_prepare_order_data ci lines t).
Proof. unfold _prepare_order_data. within_tac. Qed.

#[local] Hint Resolve within__prepare_order_data : within.

Lemma within__get_order_data ci lines : within R (_get_order_data ci lines).
Proof. unfold _get_order_data. within_tac. Qed.

Lemma within__reserve_stocks_without_availability_check ci lines :
  within R (_reserve_stocks_without_availability_check ci lines).
Proof.
  intros w.
  destruct (_reserve_stocks_without_availability_check_run ci lines w) as (rs & ->).
  apply log_only.
Qed.

Lemma within__is_refund_ongoing p : within R (_is_refund_ongoing p).
Proof. unfold _is_refund_ongoing. within_tac. Qed.

Lemma within__create_order ci lines od user ss ml pml :
  within R (_create_order ci lines od user ss ml pml).
Proof.
  unfold _create_order, create_order_row, _handle_checkout_discount,
    bulk_create_lines, run_allocate_stocks, run_allocate_preorders,
    assign_payments, save_order, transaction_on_commit.
  within_tac.
Qed.

End LogFootprints.

Section Charges.

Context {pricing : Calculations} {ledger : Discounts} {warehouse : Warehouse}
  {cards : GiftCards} {cleaner : Validators} {manager : PluginsManager}
  {psp : Gateway} {environment : Environment}.

(** The refund-or-void event of a payment, if there is one. *)
Definition refund_or_void_event (payment : option Payment) : list Event :=
  match payment with
  | Some p => [EvRefundOrVoid (payment_pk p)]
  | None => []
  end.

Lemma payment_refund_or_void_run payment w :
  payment_refund_or_void payment w
  = (Ok tt, mkWorld (db w) (log w ++ refund_or_void_event payment) (clock w)).
Proof. destruct payment; cbn; [done|]. rewrite app_nil_r. by destruct w. Qed.

Lemma get_last_active_payment_saved f d t c ci :
  get_last_active_payment (set_checkouts f d)
    (checkout (with_checkout (with_total t c) ci))
  = get_last_active_payment d c.
Proof. reflexivity. Qed.

(** X16. The pre-payment part makes no gateway call but one: when it fails
    with a validation error, it has first requested a refund-or-void for
    the checkout's last active payment, if there is one.  When it returns,
    nothing was emitted, the payment returned is that last active payment,
    and a customer id is fetched only for a payment and a user. *)
Theorem pre_payment_failure_refunds ci lines user ss url w r w' :
  complete_checkout_pre_payment_part ci lines user ss url w = (r, w') →
  let payment := get_last_active_payment (db w) (checkout ci) in
  match r with
  | Ok (p, customer_id, order_data) =>
      log w' = log w
      ∧ p = payment
      ∧ customer_id = match payment, user with
                      | Some p, Some u => fetch_customer_id u (gateway_name p)
                      | _, _ => None
                      end
  | Raise (ValidationError _ _ _) =>
      log w' = log w ++ refund_or_void_event payment
  | Raise _ => log w' = log w
  end.
Proof.
  unfold complete_checkout_pre_payment_part, fetch_checkout_data, save_checkout.
  mrun. rewrite !get_last_active_payment_saved.
  set (payment := get_last_active_payment (db w) (checkout ci)).
  match goal with
  | |- context [_prepare_checkout_with_payment ?a ?b ?c ?d ?w0] =>
      pose proof (within__prepare_checkout_with_payment same_log a b c d w0)
        as Hlog1;
      destruct (_prepare_checkout_with_payment a b c d w0) as [[ci1|e] w1]
  end; unfold same_log in Hlog1; cbn in Hlog1; mrun.
  - match goal with
    | |- context [_get_order_data ?a ?b ?w0] =>
        pose proof (within__get_order_data same_log a b w0) as Hlog2;
        destruct (_get_order_data a b w0) as [[od|e] w2]
    end; unfold same_log in Hlog2; cbn in Hlog2; mrun.
    + intros [= <- <-]. split; [congruence|done].
    + destruct e; mrun; rewrite ?payment_refund_or_void_run; mrun;
        intros [= <- <-]; cbn; congruence.
  - destruct e; mrun; rewrite ?payment_refund_or_void_run; mrun;
      intros [= <- <-]; cbn; congruence.
Qed.

Lemma within_payment_refund_or_void p : within no_charge (payment_refund_or_void p).
Proof. unfold payment_refund_or_void. destruct p; [by apply no_charge_emit|within_tac]. Qed.

#[local] Hint Resolve within_payment_refund_or_void
  within_fetch_checkout_data within__prepare_checkout_with_payment
  within__get_order_data within__reserve_stocks_without_availability_check
  within_others_commit within_select_for_update_checkout within__create_order
  within_delete_checkout_row within_release_voucher_usage
  within__is_refund_ongoing : within.

Lemma within_complete_checkout_pre_payment_part ci lines user ss url :
  within no_charge (complete_checkout_pre_payment_part ci lines user ss url).
Proof. unfold complete_checkout_pre_payment_part. within_tac. Qed.

#[local] Hint Resolve within_complete_checkout_pre_payment_part : within.

Lemma within_locked_pre_payment pk user ss url :
  within no_charge (locked_pre_payment pk user ss url).
Proof. unfold locked_pre_payment. within_tac. Qed.

Lemma within_payment_action p t od user :
  within no_charge (payment_action p t od user).
Proof.
  unfold payment_action, store_customer_id.
  repeat first [ solve [eauto with within typeclass_instances]
               | by apply no_charge_emit | within_step ].
Qed.

#[local] Hint Resolve within_payment_action : within.

Lemma within_complete_checkout_post_payment_part ci lines p t od user ss ml pml :
  within no_charge
    (complete_checkout_post_payment_part ci lines p t od user ss ml pml).
Proof.
  unfold complete_checkout_post_payment_part, mark_order_as_paid_with_payment.
  repeat first [ solve [eauto with within typeclass_instances]
               | by apply no_charge_emit | within_step ].
Qed.

#[local] Hint Resolve within_complete_checkout_post_payment_part : within.

Lemma within_locked_post_payment ci p t od user ss ml pml :
  within no_charge (locked_post_payment ci p t od user ss ml pml).
Proof. unfold locked_post_payment. within_tac. Qed.

(** The charges among some events. *)
Definition charges (evs : list Event) : nat :=
  length (filter (λ e, is_charge e = true) evs).

Lemma charges_app evs1 evs2 : charges (evs1 ++ evs2) = (charges evs1 + charges evs2)%nat.
Proof. unfold charges. by rewrite filter_app, length_app. Qed.

Lemma charges_none evs : Forall (λ e, is_charge e = false) evs → charges evs = 0%nat.
Proof.
  unfold charges. induction 1 as [|e evs He _ IH]; [done|].
  rewrite filter_cons_False; [done|]. by rewrite He.
Qed.

Lemma charges_gateway_event p cid store evs :
  Forall (λ e, is_charge e = false) evs →
  charges (gateway_event p cid store :: evs) = 1%nat.
Proof.
  intros Hnone. change (charges ([gateway_event p cid store] ++ evs) = 1%nat).
  rewrite charges_app, (charges_none evs Hnone).
  unfold gateway_event. by destruct (to_confirm p).
Qed.

(** X17. One completion attempt through [complete_checkout_with_payment]
    charges the customer at most once, whatever its outcome; and if its
    first locked block fails, for instance on a validation error, it
    surfaces that failure without any charge. *)
Theorem at_most_one_charge pk data store user ss url ml pml w :
  (∃ evs,
     log (complete_checkout_with_payment pk data store user ss url ml pml w).2
     = log w ++ evs
     ∧ (charges evs ≤ 1)%nat)
  ∧ ∀ e w1,
      locked_pre_payment pk user ss url w = (Raise e, w1) →
      complete_checkout_with_payment pk data store user ss url ml pml w
      = (Raise e, w1)
      ∧ ∃ evs, log w1 = log w ++ evs ∧ charges evs = 0%nat.
Proof.
  pose proof (within_locked_pre_payment pk user ss url w) as (evs1 & Hlog1 & Hnone1).
  apply charges_none in Hnone1.
  split.
  - unfold complete_checkout_with_payment. rewrite bind_run.
    destruct (locked_pre_payment pk user ss url w) as [[early|e] w1];
      cbn in Hlog1; [|exists evs1; split; [done|lia]].
    destruct early as [result|[ci [[payment cid] od]]]; mrun;
      [exists evs1; split; [done|lia]|].
    assert (∃ evs2, log (unlocked_payment ci payment cid store data od w1).2
                    = log w1 ++ evs2 ∧ (charges evs2 ≤ 1)%nat)
      as (evs2 & Hlog2 & Hone).
    { unfold unlocked_payment. destruct payment as [p|]; mrun;
        [|exists []; split; [by rewrite app_nil_r|cbn; lia]].
      destruct (_process_payment p cid store data od (slug (channel ci)) w1)
        as [[txn|e] w2] eqn:Hpay;
        apply _process_payment_cases in Hpay as [Hlog _]; mrun.
      - destruct (refresh_from_db_pk p w2) as (p' & -> & _). mrun.
        destruct (payment_is_active p'); cbn [negb]; mrun.
        + exists [gateway_event p cid store]. split; [done|].
          by rewrite charges_gateway_event.
        + rewrite payment_refund_or_void_run. mrun.
          exists [gateway_event p cid store; EvRefundOrVoid (payment_pk p')].
          cbn [refund_or_void_event]. rewrite Hlog, <- app_assoc.
          split; [done|]. rewrite charges_gateway_event; [done|].
          by repeat constructor.
      - exists [gateway_event p cid store]. split; [done|].
        by rewrite charges_gateway_event. }
    destruct (unlocked_payment ci payment cid store data od w1)
      as [[[payment' txn]|e] w2]; cbn in Hlog2; mrun.
    + pose proof (within_locked_post_payment ci payment' txn od user ss ml pml w2)
        as (evs3 & Hlog3 & Hnone3).
      apply charges_none in Hnone3.
      exists (evs1 ++ evs2 ++ evs3).
      split; [|rewrite !charges_app; lia].
      etrans; [exact Hlog3|]. rewrite Hlog2, Hlog1. by rewrite <- !app_assoc.
    + exists (evs1 ++ evs2). split; [|rewrite charges_app; lia].
      cbn. rewrite Hlog2, Hlog1. by rewrite <- app_assoc.
  - intros e w1 Hpre. unfold complete_checkout_with_payment.
    rewrite bind_run, Hpre. split; [done|].
    rewrite Hpre in Hlog1. by exists evs1.
Qed.

End Charges.

Section Addresses.

Context {pricing : Calculations} {ledger : Discounts} {warehouse : Warehouse}
  {cards : GiftCards} {cleaner : Validators} {manager : PluginsManager}
  {psp : Gateway} {environment : Environment}.

(** Storing an address for a user and taking the address the order keeps:
    the same data, on a fresh row exactly when the address is in the user's
    book after storing. *)
Lemma store_and_copy_result u a t w :
  ∃ kept w',
    store_and_copy u a t w = (Ok (Some kept), w')
    ∧ address_data kept = address_data a
    ∧ log w' = log w ∧ clock w' = clock w
    ∧ address_book (db w') = store_user_address u a t (address_book (db w))
    ∧ if user_has_address (set_address_book (store_user_address u a t) (db w)) u a
      then address_pk kept = address_seq (db w)
           ∧ address_seq (db w') = address_seq (db w) + 1
      else kept = a
           ∧ db w' = set_address_book (store_user_address u a t) (db w).
Proof.
  unfold store_and_copy, get_copy. mrun.
  destruct (user_has_address _ u a); mrun; eexists _, _; by repeat split.
Qed.

(** X18. [_process_shipping_data_for_order] never fails and carries the
    prices it is given.  The shipping address it returns has the data of
    the delivery method's address; it is stored in the user's address book
    only if the delivery method asks for it and the checkout has a user and
    an address, and only then can the order get a copy on a fresh row;
    otherwise nothing is written and the address is passed through. *)
Theorem _process_shipping_data_for_order_address ci base price lines w :
  let dm := delivery_method_info ci in
  ∃ sd w',
    _process_shipping_data_for_order ci base price lines w = (Ok sd, w')
    ∧ sd_base_shipping_price sd = base
    ∧ sd_shipping_price sd = price
    ∧ address_data <$> sd_shipping_address sd
      = address_data <$> dm_shipping_address dm
    ∧ match store_as_customer_address dm, user ci, dm_shipping_address dm with
      | true, Some u, Some a =>
          address_book (db w')
          = store_user_address u a SHIPPING (address_book (db w))
          ∧ if user_has_address
                 (set_address_book (store_user_address u a SHIPPING) (db w)) u a
            then ∃ kept, sd_shipping_address sd = Some kept
                         ∧ address_pk kept = address_seq (db w)
            else sd_shipping_address sd = Some a
      | _, _, _ => w' = w ∧ sd_shipping_address sd = dm_shipping_address dm
      end.
Proof.
  intros dm. unfold _process_shipping_data_for_order. fold dm. mrun.
  destruct (store_as_customer_address dm), (user ci) as [u|],
    (dm_shipping_address dm) as [a|]; mrun;
    try (eexists _, _; by repeat split).
  destruct (store_and_copy_result u a SHIPPING w)
    as (kept & w' & -> & Hdata & _ & _ & Hbook & Hkept).
  mrun. eexists _, w'. do 3 (split; [done|]).
  split; [cbn; by rewrite Hdata|]. split; [done|].
  destruct (user_has_address _ u a).
  - destruct Hkept as [Hpk _]. by exists kept.
  - by destruct Hkept as [-> _].
Qed.

(** X19. [_process_user_data_for_order] never fails: it returns the
    checkout's user, customer email and note, and a billing address with
    the data of the checkout's.  For an anonymous checkout, or one without
    a billing address, nothing is written; otherwise the address is stored
    in the user's book and the order gets a copy on a fresh row if the
    address is in the book. *)
Theorem _process_user_data_for_order_address ci w :
  ∃ ud w',
    _process_user_data_for_order ci w = (Ok ud, w')
    ∧ ud_user ud = user ci
    ∧ ud_user_email ud = get_customer_email ci
    ∧ ud_customer_note ud = note (checkout ci)
    ∧ address_data <$> ud_billing_address ud = address_data <$> billing_address ci
    ∧ match user ci, billing_address ci with
      | Some u, Some a =>
          address_book (db w')
          = store_user_address u a BILLING (address_book (db w))
          ∧ if user_has_address
                 (set_address_book (store_user_address u a BILLING) (db w)) u a
            then ∃ kept, ud_billing_address ud = Some kept
                         ∧ address_pk kept = address_seq (db w)
            else ud_billing_address ud = Some a
      | _, _ => w' = w ∧ ud_billing_address ud = billing_address ci
      end.
Proof.
  unfold _process_user_data_for_order. mrun.
  destruct (user ci) as [u|], (billing_address ci) as [a|]; mrun;
    try (eexists _, _; by repeat split).
  destruct (store_and_copy_result u a BILLING w)
    as (kept & w' & -> & Hdata & _ & _ & Hbook & Hkept).
  mrun. eexists _, w'. do 4 (split; [done|]).
  split; [cbn; by rewrite Hdata|]. split; [done|].
  destruct (user_has_address _ u a).
  - destruct Hkept as [Hpk _]. by exists kept.
  - by destruct Hkept as [-> _].
Qed.

End Addresses.

Section MaterializerEffects.

Context {pricing : Calculations} {ledger : Discounts} {warehouse : Warehouse}
  {cards : GiftCards} {cleaner : Validators} {manager : PluginsManager}
  {psp : Gateway} {environment : Environment}.

Lemma Forall2_map_r {A B} (P : A → B → Prop) (f : A → B) (l : list A) :
  (∀ x, P x (f x)) → Forall2 P l (map f l).
Proof. intros HP. induction l; constructor; auto. Qed.

(** X20. What a new order of [_create_order] leaves in the database: the
    row stored is the order returned; its lines are the lines of the order
    data, attached to the order, with their line discounts; it has the
    checkout's redirect URL; each payment of the checkout gets the order
    and keeps its checkout and all its other fields, every other payment is
    unchanged, and no payment row is added or removed; and two hooks are
    queued for the commit, the order-created hook before the confirmation
    email. *)
Theorem _create_order_effects ci lines od user ss ml pml w o w' :
  order_by_token (db w) (token (checkout ci)) = None →
  _create_order ci lines od user ss ml pml w = (Ok o, w') →
  orders (db w') = orders (db w) ++ [o]
  ∧ order_lines o
    = map (λ li, with_order_id (order_pk o) (oli_line li)) (od_lines od)
  ∧ order_line_discounts o = concat (map line_discounts (od_lines od))
  ∧ order_redirect_url o = redirect_url (checkout ci)
  ∧ on_commit (db w')
    = on_commit (db w)
      ++ [HookOrderCreated (order_pk o);
          HookSendOrderConfirmation (order_pk o) (redirect_url (checkout ci))]
  ∧ Forall2 (λ p p',
       p' = if bool_decide (payment_checkout p = Some (token (checkout ci)))
            then mkPayment (payment_pk p) (payment_checkout p)
                   (Some (order_pk o)) (payment_is_active p) (to_confirm p)
                   (gateway_name p) (payment_token p) (psp_reference p)
            else p)
      (payments (db w)) (payments (db w')).
Proof.
  intros Hnone. unfold _create_order. mrun. rewrite Hnone.
  unfold create_order_row, _handle_checkout_discount, bulk_create_lines,
    run_allocate_stocks, run_allocate_preorders, assign_payments, save_order,
    transaction_on_commit.
  mrun.
  destruct (truthy_money (discount (checkout ci))) eqn:Hdisc; mrun;
    (destruct (allocate_stocks _ _ _ _ _ _) as [items|rows]; mrun;
     [discriminate|]);
    (destruct (add_gift_cards_to_order _ _ _ _ _) as [[msg c]|]; mrun;
     [discriminate|]);
    intros [= <- <-]; fsimpl; osimpl;
    rewrite ?alter_last, ?insert_last; osimpl;
    rewrite ?alter_last, ?insert_last;
    (split; [reflexivity|]);
    (split; [by rewrite map_map|]);
    (split; [by rewrite map_map|]);
    (split; [reflexivity|]);
    (split; [by rewrite <- app_assoc|]);
    apply Forall2_map_r; intros p; case_bool_decide; done.
Qed.

End MaterializerEffects.

Section TransactionFlowEffects.

Context {pricing : Calculations} {ledger : Discounts} {warehouse : Warehouse}
  {cards : GiftCards} {cleaner : Validators} {manager : PluginsManager}
  {psp : Gateway} {environment : Environment}.

(** X21. The order [_create_order_from_checkout] returns is the row it
    stored.  The payments and the transaction items of the checkout are
    moved to the order: each gets the order and loses the checkout, the
    others are untouched, so that afterwards no transaction item refers to
    the checkout.  Two hooks are queued for the commit, the order-created
    hook before the confirmation email. *)
Theorem _create_order_from_checkout_moves_payments ci lines user ml pml w o w' :
  _create_order_from_checkout ci lines user ml pml w = (Ok o, w') →
  orders (db w') = orders (db w) ++ [o]
  ∧ Forall2 (λ p p',
       payment_pk p' = payment_pk p
       ∧ if bool_decide (payment_checkout p = Some (token (checkout ci)))
         then payment_order p' = Some (order_pk o) ∧ payment_checkout p' = None
         else p' = p)
      (payments (db w)) (payments (db w'))
  ∧ Forall2 (λ t t',
       ti_pk t' = ti_pk t
       ∧ if bool_decide (ti_checkout t = Some (token (checkout ci)))
         then ti_order t' = Some (order_pk o) ∧ ti_checkout t' = None
         else t' = t)
      (payment_transactions (db w)) (payment_transactions (db w'))
  ∧ payment_transactions_exist (db w') (checkout ci) = false
  ∧ on_commit (db w')
    = on_commit (db w)
      ++ [HookOrderCreated (order_pk o);
          HookSendOrderConfirmation (order_pk o) (redirect_url (checkout ci))].
Proof.
  unfold _create_order_from_checkout. mrun.
  destruct (_process_shipping_data_for_order_run ci
              (base_checkout_delivery_price ci lines)
              (checkout_shipping_price ci lines
                 (or_else (shipping_address ci) (billing_address ci)))
              lines w) as (sd & b1 & s1 & ->).
  mrun.
  destruct (_process_user_data_for_order_run ci (with_addresses b1 s1 w))
    as (ud & b2 & s2 & ->).
  rewrite with_addresses_twice.
  unfold create_order_row, _handle_checkout_discount,
    _create_order_lines_from_checkout_lines, bulk_create_lines,
    _handle_allocations_of_order_lines, run_allocate_stocks,
    run_allocate_preorders, assign_payments, assign_payment_transactions,
    save_order, _post_create_order_actions, transaction_on_commit,
    with_addresses.
  mrun. fsimpl.
  assert (∀ l : list TransactionItem,
            Exists (λ t, ti_checkout t = Some (token (checkout ci)))
              (map (λ t, if bool_decide (ti_checkout t = Some (token (checkout ci)))
                         then mkTransactionItem (ti_pk t) None (Some (length (orders (db w))))
                         else t) l)
            → False) as Hmoved.
  { intros l Hex. apply Exists_exists in Hex as (t' & Hin & Htok).
    apply list_elem_of_fmap in Hin as (t & -> & _).
    by case_bool_decide. }
  destruct (truthy_money (discount (checkout ci))) eqn:Hdisc; mrun;
    (match goal with
     | |- context [_create_lines_for_order ?a ?b ?c ?w0] =>
         destruct (_create_lines_for_order_run a b c w0) as ([infos|e] & ->)
     end; mrun; [|discriminate]);
    (destruct (taxed_sum _ _) as [lines_total|]; mrun; [|discriminate]);
    (destruct (taxed_add lines_total _) as [undiscounted|]; mrun; [|discriminate]);
    (destruct (allocate_stocks _ _ _ _ _ _) as [items|rows]; mrun; [discriminate|]);
    (destruct (taxed_sum _ _) as [subtotal|]; mrun; [|discriminate]);
    (destruct (_ ≫= _) as [total_without_giftcard|]; mrun; [|discriminate]);
    (destruct (add_gift_cards_to_order _ _ _ _ _) as [[msg c]|]; mrun;
     [discriminate|]);
    intros [= <- <-]; fsimpl; osimpl;
    rewrite ?alter_last, ?insert_last; osimpl;
    rewrite ?alter_last, ?insert_last; osimpl;
    rewrite ?alter_last, ?insert_last;
    (split; [reflexivity|]);
    (split; [apply Forall2_map_r; intros p; by case_bool_decide|]);
    (split; [apply Forall2_map_r; intros t; by case_bool_decide|]);
    (split; [unfold payment_transactions_exist; fsimpl;
             apply bool_decide_eq_false_2; intros Hex; by apply Hmoved in Hex|]);
    by rewrite <- app_assoc.
Qed.

End TransactionFlowEffects.

Section TransactionFlowResult.

Context {pricing : Calculations} {ledger : Discounts} {warehouse : Warehouse}
  {cards : GiftCards} {cleaner : Validators} {manager : PluginsManager}
  {psp : Gateway} {environment : Environment}.

(** X22. When [create_order_from_checkout], deleting the checkout, returns
    an order, the checkout row is gone and a look-up by the checkout token
    finds that very order; when it returns no order, the checkout row was
    already gone and there was no order for the token.  The checkout rows
    are keyed by their token. *)
Theorem create_order_from_checkout_order_stored ci user ml pml w r w' :
  let d := concurrent_activity (db (voucher_usage_transaction ci w).2) in
  (∀ row, checkouts d !! token (checkout ci) = Some row →
          token row = token (checkout ci)) →
  create_order_from_checkout ci user true ml pml w = (Ok r, w') →
  checkouts (db w') !! token (checkout ci) = None
  ∧ order_by_token (db w') (token (checkout ci)) = r
  ∧ (r = None → checkouts d !! token (checkout ci) = None ∧ db w' = d).
Proof.
  intros d Hkeyed. unfold create_order_from_checkout. rewrite bind_run.
  subst d. destruct (voucher_usage_transaction ci w) as [[[]|e] w1];
    [|discriminate]. cbn [snd] in Hkeyed.
  unfold order_transaction, others_commit, select_for_update_checkout. mrun.
  destruct (checkouts (concurrent_activity (db w1)) !! token (checkout ci))
    as [row|] eqn:Hrow; mrun; [|by intros [= <- <-]].
  specialize (Hkeyed row eq_refl).
  match goal with
  | |- context [_create_order_from_checkout ?a1 ?a2 ?a3 ?a4 ?a5 ?w0] =>
      destruct (_create_order_from_checkout a1 a2 a3 a4 a5 w0)
        as [[o|e] w2] eqn:Hrun;
      apply _create_order_from_checkout_spec in Hrun
        as (_ & _ & Hcheckouts & _ & Hr)
  end; mrun.
  - destruct Hr as (Horders & _ & Htoken & _). cbn [db] in Horders.
    rewrite assign_checkout_user_token, Hkeyed in Htoken.
    unfold delete_checkout_row. mrun. intros [= <- <-]. fsimpl.
    rewrite assign_checkout_user_token, Hkeyed.
    split; [apply lookup_delete_eq|]. split; [|done].
    rewrite <- Htoken. unfold order_by_token. fsimpl.
    rewrite Horders, filter_app, filter_cons_True, filter_nil by done.
    by rewrite last_snoc.
  - destruct e; mrun;
      try match goal with
          | |- context [release_voucher_usage ?v ?m ?w0] =>
              destruct (release_voucher_usage_run v m w0) as (w3 & -> & _); mrun
          end; discriminate.
Qed.

End TransactionFlowResult.

(** ** The further properties on the scenario *)

Section ScenarioRuns.

#[local] Existing Instances scenario_calculations scenario_discounts
  scenario_gift_cards scenario_validators scenario_plugins scenario_gateway.

#[local] Abbreviation shop := (scenario_environment channel_payment_flow id).
#[local] Abbreviation info := (checkout_info_of channel_payment_flow checkout1).

(** Out of stock, [_create_order] raises and leaves the world as it was. *)
Lemma _create_order_all_or_nothing_witness :
  ∃ e w',
    _create_order (warehouse:=scenario_warehouse false) (environment:=shop)
      info [line_info1] order_data1 None None None None world0
    = (Raise e, w')
    ∧ w' = world0.
Proof.
  assert (∃ e w',
            _create_order (warehouse:=scenario_warehouse false) (environment:=shop)
              info [line_info1] order_data1 None None None None world0
            = (Raise e, w')) as (e & w' & Hrun)
    by (eexists _, _; vm_compute; reflexivity).
  exists e, w'. split; [exact Hrun|].
  exact (proj1 (_create_order_all_or_nothing _ _ _ _ _ _ _ _ _ _ Hrun)).
Defined.

(** In stock, the post-payment part returns order 0 and the checkout is
    gone. *)
Lemma post_payment_order_stored_witness :
  ∃ o w',
    complete_checkout_post_payment_part (warehouse:=scenario_warehouse true)
      (environment:=shop) info [line_info1] (Some payment1) (Some txn_ok)
      order_data1 None None None None world0
    = (Ok (Some o, false, ∅), w')
    ∧ checkouts (db w') !! "tok-1" = None
    ∧ order_by_token (db w') "tok-1" = Some o.
Proof.
  assert (∃ o w',
            complete_checkout_post_payment_part (warehouse:=scenario_warehouse true)
              (environment:=shop) info [line_info1] (Some payment1) (Some txn_ok)
              order_data1 None None None None world0
            = (Ok (Some o, false, ∅), w')) as (o & w' & Hrun)
    by (eexists _, _; vm_compute; reflexivity).
  exists o, w'. split; [exact Hrun|].
  exact (proj2 (proj2 (post_payment_order_stored _ _ _ _ _ _ _ _ _ _ _ _ _ _ Hrun))).
Defined.

(** A transaction that requires an action: no order, the usage goes back
    from two to one. *)
Lemma action_required_keeps_checkout_witness :
  ∃ w',
    complete_checkout_post_payment_part (warehouse:=scenario_warehouse true)
      (environment:=shop) info [line_info1] (Some payment1) (Some txn_action)
      order_data1 None None None None world0
    = (Ok (None, true, {[ "redirect" := "https://psp.example/3ds" ]}), w')
    ∧ orders (db w') = []
    ∧ checkouts (db w') = checkouts db0
    ∧ used (db w') voucher10 = 1.
Proof.
  destruct (action_required_keeps_checkout (warehouse:=scenario_warehouse true)
              (environment:=shop) info [line_info1] payment1 txn_action
              order_data1 None None None None world0 eq_refl)
    as (w' & Hrun & Horders & Hcheckouts & Hused).
  exists w'. split; [exact Hrun|]. split; [exact Horders|].
  split; [exact Hcheckouts|]. exact (Hused voucher10 eq_refl eq_refl).
Defined.

(** A refund under way: no order, and the database is untouched. *)
Lemma refund_ongoing_creates_no_order_witness :
  ∃ w',
    complete_checkout_post_payment_part (warehouse:=scenario_warehouse true)
      (environment:=shop) info [line_info1] (Some payment1) (Some txn_ok)
      order_data1 None None None None world_refund_ongoing
    = (Ok (None, false, ∅), w')
    ∧ db w' = db world_refund_ongoing.
Proof.
  apply (refund_ongoing_creates_no_order (warehouse:=scenario_warehouse true)
           (environment:=shop) info [line_info1] payment1 (Some txn_ok)
           order_data1 None None None None world_refund_ongoing).
  - by intros t [= <-].
  - by apply Exists_cons_hd.
Defined.

(** The scenario gateway captures the payment: one gateway event, no
    release. *)
Lemma _process_payment_outcomes_witness :
  ∃ txn w',
    _process_payment (psp:=scenario_gateway) (environment:=shop) payment1 None
      false None order_data1 "default-channel" world0
    = (Ok txn, w')
    ∧ log w' = [EvGatewayProcessPayment 5 None false]
    ∧ is_success txn = true.
Proof.
  assert (∃ txn w',
            _process_payment (psp:=scenario_gateway) (environment:=shop) payment1
              None false None order_data1 "default-channel" world0
            = (Ok txn, w')) as (txn & w' & Hrun)
    by (eexists _, _; vm_compute; reflexivity).
  exists txn, w'. split; [exact Hrun|].
  destruct (_process_payment_outcomes _ _ _ _ _ _ _ _ _ Hrun) as (Hlog & Hsuccess & _).
  split; [exact Hlog|exact Hsuccess].
Defined.

(** The payment is deactivated during the gateway call: the capture is
    followed by a refund-or-void. *)
Lemma inactive_payment_refunded_witness :
  ∃ msg w',
    unlocked_payment (psp:=scenario_gateway)
      (environment:=scenario_environment channel_payment_flow deactivate_payment)
      info (Some payment1) None false None order_data1 world_reserved
    = (Raise (ValidationError None msg INACTIVE_PAYMENT), w')
    ∧ log w' = [EvGatewayProcessPayment 5 None false; EvRefundOrVoid 5].
Proof.
  assert (∃ msg w',
            unlocked_payment (psp:=scenario_gateway)
              (environment:=scenario_environment channel_payment_flow
                              deactivate_payment)
              info (Some payment1) None false None order_data1 world_reserved
            = (Raise (ValidationError None msg INACTIVE_PAYMENT), w'))
    as (msg & w' & Hrun) by (eexists _, _; vm_compute; reflexivity).
  exists msg, w'. split; [exact Hrun|].
  destruct (inactive_payment_refunded _ _ _ _ _ _ _ _ _ Hrun) as (txn & _ & Hlog & _).
  exact Hlog.
Defined.

(** The plugins cannot compute the taxes: [_get_order_data] surfaces the
    tax error as a validation error. *)
Lemma _get_order_data_errors_witness :
  ∃ w',
    _get_order_data (warehouse:=scenario_warehouse true) (manager:=failing_plugins)
      (environment:=shop) info [line_info1] world0
    = (Raise (ValidationError None "Unable to calculate taxes - no tax rates"
                TAX_ERROR), w')
    ∧ ∃ e0,
        _prepare_order_data (warehouse:=scenario_warehouse true)
          (manager:=failing_plugins) (environment:=shop) info [line_info1]
          true world0
        = (Raise e0, w').
Proof.
  assert (∃ w',
            _get_order_data (warehouse:=scenario_warehouse true)
              (manager:=failing_plugins) (environment:=shop) info [line_info1]
              world0
            = (Raise (ValidationError None
                        "Unable to calculate taxes - no tax rates" TAX_ERROR), w'))
    as (w' & Hrun) by (eexists; vm_compute; reflexivity).
  exists w'. split; [exact Hrun|].
  destruct (_get_order_data_errors _ _ _ _ _ Hrun) as (_ & e0 & Hprepare & _).
  by exists e0.
Defined.

(** Out of stock, the transaction-flow completion surfaces a validation
    error on the lines. *)
Lemma complete_checkout_with_transaction_errors_witness :
  ∃ w',
    complete_checkout_with_transaction (warehouse:=scenario_warehouse false)
      (environment:=scenario_environment channel_transaction_flow id)
      (checkout_info_of channel_transaction_flow checkout1) [line_info1]
      None None None None world_transaction_flow
    = (Raise (ValidationError (Some "lines") "Insufficient product stock."
                INSUFFICIENT_STOCK), w')
    ∧ ∀ items,
        ValidationError (Some "lines") "Insufficient product stock."
          INSUFFICIENT_STOCK
        ≠ InsufficientStock items.
Proof.
  assert (∃ w',
            complete_checkout_with_transaction (warehouse:=scenario_warehouse false)
              (environment:=scenario_environment channel_transaction_flow id)
              (checkout_info_of channel_transaction_flow checkout1) [line_info1]
              None None None None world_transaction_flow
            = (Raise (ValidationError (Some "lines") "Insufficient product stock."
                        INSUFFICIENT_STOCK), w'))
    as (w' & Hrun) by (eexists; vm_compute; reflexivity).
  exists w'. split; [exact Hrun|].
  exact (proj1 (proj2
    (complete_checkout_with_transaction_errors _ _ _ _ _ _ _ _ _ Hrun))).
Defined.

(** A new redirect URL is stored on the checkout. *)
Lemma _prepare_checkout_redirect_url_witness :
  ∃ ci' w',
    _prepare_checkout (cleaner:=scenario_validators) info [line_info1]
      (Some "https://shop.example/thanks") world0
    = (Ok ci', w')
    ∧ ci' = with_checkout
              (with_redirect_url (Some "https://shop.example/thanks") checkout1)
              info.
Proof.
  assert (∃ ci' w',
            _prepare_checkout (cleaner:=scenario_validators) info [line_info1]
              (Some "https://shop.example/thanks") world0
            = (Ok ci', w')) as (ci' & w' & Hrun)
    by (eexists _, _; vm_compute; reflexivity).
  exists ci', w'. split; [exact Hrun|].
  exact (proj1 (proj2 (proj2 (proj2
    (_prepare_checkout_redirect_url _ _ _ _ _ _ Hrun))))).
Defined.

(** The fully authorized scenario checkout is let through. *)
Lemma _prepare_checkout_with_transactions_admits_witness :
  ∃ ci' w',
    _prepare_checkout_with_transactions (cards:=scenario_gift_cards)
      (cleaner:=scenario_validators) (manager:=scenario_plugins)
      (checkout_info_of channel_transaction_flow checkout1) [line_info1] None
      world_transaction_flow
    = (Ok ci', w')
    ∧ (authorize_status checkout1 = AUTH_FULL
       ∨ allow_unpaid_orders channel_transaction_flow = true).
Proof.
  assert (∃ ci' w',
            _prepare_checkout_with_transactions (cards:=scenario_gift_cards)
              (cleaner:=scenario_validators) (manager:=scenario_plugins)
              (checkout_info_of channel_transaction_flow checkout1) [line_info1]
              None world_transaction_flow
            = (Ok ci', w')) as (ci' & w' & Hrun)
    by (eexists _, _; vm_compute; reflexivity).
  exists ci', w'. split; [exact Hrun|].
  exact (proj1 (proj2
    (_prepare_checkout_with_transactions_admits _ _ _ _ _ _ Hrun))).
Defined.

(** A line with a voucher and a promotion: both reasons, joined. *)
Lemma unit_discount_reason_composed_witness :
  ∃ li w',
    _create_line_for_order (pricing:=scenario_calculations)
      (ledger:=scenario_discounts) info [line_info_promo] line_info_promo ∅ ∅
      true world0
    = (Ok li, w')
    ∧ unit_discount_reason (oli_line li)
      = Some "Voucher code: SAVE10 & Promotion: Summer sale"
    ∧ sale_id (oli_line li) = Some "U2FsZTox"
    ∧ length (line_discounts li) = 1%nat.
Proof.
  assert (∃ li w',
            _create_line_for_order (pricing:=scenario_calculations)
              (ledger:=scenario_discounts) info [line_info_promo]
              line_info_promo ∅ ∅ true world0
            = (Ok li, w')) as (li & w' & Hrun)
    by (eexists _, _; vm_compute; reflexivity).
  exists li, w'. split; [exact Hrun|].
  destruct (unit_discount_reason_composed _ _ _ _ _ _ _ _ _ Hrun)
    as (_ & _ & _ & _ & Hlength & rule & [= <-] & Hsale & Hreason).
  split; [exact Hreason|]. split; [exact Hsale|exact Hlength].
Defined.

(** The promotion discount without its rule: an index error. *)
Lemma promotion_without_rule_fails_witness :
  _create_line_for_order (pricing:=scenario_calculations)
    (ledger:=scenario_discounts) info [line_info_no_rule] line_info_no_rule ∅ ∅
    true world0
  = (Raise IndexError, world0).
Proof.
  apply (promotion_without_rule_fails (pricing:=scenario_calculations)
           (ledger:=scenario_discounts) info [line_info_no_rule]
           line_info_no_rule ∅ ∅ true world0); [done|done|].
  vm_compute. by eexists.
Defined.

(** Rejected gift cards: the error comes before the usage is increased. *)
Lemma _prepare_order_data_early_failures_witness :
  ∃ e w',
    _prepare_order_data (warehouse:=scenario_warehouse true)
      (cards:=rejected_gift_cards) (environment:=shop) info [line_info1] true
      world0
    = (Raise e, w')
    ∧ voucher_used (db w') = voucher_used db0.
Proof.
  assert (∃ w',
            _prepare_order_data (warehouse:=scenario_warehouse true)
              (cards:=rejected_gift_cards) (environment:=shop) info [line_info1]
              true world0
            = (Raise (GiftCardNotApplicable "Gift card has expired."
                        (CODE "invalid")), w'))
    as (w' & Hrun) by (eexists; vm_compute; reflexivity).
  eexists _, w'. split; [exact Hrun|].
  exact (proj1 (_prepare_order_data_early_failures _ _ _ _ _ _ Hrun
                  (or_intror (ex_intro _ _ (ex_intro _ _ eq_refl))))).
Defined.


(** The taxes cannot be computed before the payment: the payment is
    refunded or voided, and nothing else is emitted. *)
Lemma pre_payment_failure_refunds_witness :
  ∃ w',
    complete_checkout_pre_payment_part (warehouse:=scenario_warehouse true)
      (manager:=failing_plugins) (environment:=shop) info [line_info1] None
      None None world0
    = (Raise (ValidationError None "Unable to calculate taxes - no tax rates"
                TAX_ERROR), w')
    ∧ log w' = [EvRefundOrVoid 5].
Proof.
  assert (∃ w',
            complete_checkout_pre_payment_part (warehouse:=scenario_warehouse true)
              (manager:=failing_plugins) (environment:=shop) info [line_info1]
              None None None world0
            = (Raise (ValidationError None
                        "Unable to calculate taxes - no tax rates" TAX_ERROR), w'))
    as (w' & Hrun) by (eexists; vm_compute; reflexivity).
  exists w'. split; [exact Hrun|].
  exact (pre_payment_failure_refunds _ _ _ _ _ _ _ _ Hrun).
Defined.

(** In stock, the new order is row 0, the payment is assigned to it, and
    the two hooks are queued. *)
Lemma _create_order_effects_witness :
  ∃ o w',
    _create_order (warehouse:=scenario_warehouse true) (environment:=shop)
      info [line_info1] order_data1 None None None None world0
    = (Ok o, w')
    ∧ orders (db w') = [o]
    ∧ on_commit (db w')
      = [HookOrderCreated (order_pk o);
         HookSendOrderConfirmation (order_pk o) None].
Proof.
  assert (∃ o w',
            _create_order (warehouse:=scenario_warehouse true) (environment:=shop)
              info [line_info1] order_data1 None None None None world0
            = (Ok o, w')) as (o & w' & Hrun)
    by (eexists _, _; vm_compute; reflexivity).
  exists o, w'. split; [exact Hrun|].
  destruct (_create_order_effects (warehouse:=scenario_warehouse true)
              (environment:=shop) info [line_info1] order_data1 None None None
              None world0 o w' eq_refl Hrun)
    as (Horders & _ & _ & _ & Hhooks & _).
  split; [exact Horders|exact Hhooks].
Defined.

(** The transaction-flow order takes the transaction item of the checkout. *)
Lemma _create_order_from_checkout_moves_payments_witness :
  ∃ o w',
    _create_order_from_checkout (warehouse:=scenario_warehouse true)
      (environment:=scenario_environment channel_transaction_flow id)
      (checkout_info_of channel_transaction_flow checkout1) [line_info1] None
      None None world_transaction_flow
    = (Ok o, w')
    ∧ payment_transactions_exist (db w') checkout1 = false.
Proof.
  assert (∃ o w',
            _create_order_from_checkout (warehouse:=scenario_warehouse true)
              (environment:=scenario_environment channel_transaction_flow id)
              (checkout_info_of channel_transaction_flow checkout1) [line_info1]
              None None None world_transaction_flow
            = (Ok o, w')) as (o & w' & Hrun)
    by (eexists _, _; vm_compute; reflexivity).
  exists o, w'. split; [exact Hrun|].
  exact (proj1 (proj2 (proj2 (proj2
    (_create_order_from_checkout_moves_payments _ _ _ _ _ _ _ _ Hrun))))).
Defined.

(** The transaction-flow completion deletes the checkout and the order is
    found by the token. *)
Lemma create_order_from_checkout_order_stored_witness :
  ∃ r w',
    create_order_from_checkout (warehouse:=scenario_warehouse true)
      (environment:=scenario_environment channel_transaction_flow id)
      (checkout_info_of channel_transaction_flow checkout1) None true None None
      world_transaction_flow
    = (Ok r, w')
    ∧ checkouts (db w') !! "tok-1" = None
    ∧ order_by_token (db w') "tok-1" = r.
Proof.
  assert (∃ r w',
            create_order_from_checkout (warehouse:=scenario_warehouse true)
              (environment:=scenario_environment channel_transaction_flow id)
              (checkout_info_of channel_transaction_flow checkout1) None true
              None None world_transaction_flow
            = (Ok r, w')) as (r & w' & Hrun)
    by (eexists _, _; vm_compute; reflexivity).
  exists r, w'. split; [exact Hrun|].
  pose proof (create_order_from_checkout_order_stored
                (warehouse:=scenario_warehouse true)
                (environment:=scenario_environment channel_transaction_flow id)
                (checkout_info_of channel_transaction_flow checkout1) None None
                None world_transaction_flow r w') as Hstored.
  destruct Hstored as (Hgone & Hfound & _);
    [intros row; vm_compute; by intros [= <-]|exact Hrun|].
  split; [exact Hgone|exact Hfound].
Defined.

End ScenarioRuns.

Section Retry.

Context {pricing : Calculations} {ledger : Discounts} {warehouse : Warehouse}
  {cards : GiftCards} {cleaner : Validators} {manager : PluginsManager}
  {psp : Gateway} {environment : Environment}.

(** X23. [assign_checkout_user] changes nothing but the user of the
    checkout info, and only when the request has no user, the checkout
    info has none and the checkout has an email: the user is then the
    active account found by that email, or none. *)
Theorem assign_checkout_user_cases request_user ci :
  let ci' := assign_checkout_user request_user ci in
  ci' = with_user (user ci') ci
  ∧ (is_none request_user = false ∨ is_none (user ci) = false
     ∨ truthy_opt_string (checkout_email (checkout ci)) = false → ci' = ci)
  ∧ (∀ u, user ci' = Some u →
          user ci = Some u
          ∨ (user_is_active u = true
             ∧ retrieve_user_by_email
                 (default EmptyString (checkout_email (checkout ci))) = Some u)).
Proof.
  unfold assign_checkout_user.
  destruct (is_none request_user), (is_none (user ci)) eqn:Hnone,
    (truthy_opt_string (checkout_email (checkout ci))); cbn [andb];
    try (split; [by destruct ci|]; split; [done|]; by left).
  split; [done|]. split; [by intros [|[|]]|].
  intros u. cbn.
  destruct (retrieve_user_by_email _) as [u'|]; [|done].
  destruct (user_is_active u') eqn:Hactive; [|done].
  intros [= <-]. by right.
Qed.

(** X24. The first transaction of [create_order_from_checkout]: nothing
    is written for a checkout info without a voucher; when it raises, the
    database is as before; when it returns, the usage counter of a
    usage-limited voucher has gone up by one and every other counter is as
    before. *)
Theorem voucher_usage_transaction_usage ci w r w' :
  voucher_usage_transaction ci w = (r, w') →
  (voucher ci = None → r = Ok tt ∧ w' = w)
  ∧ match r with
    | Ok _ =>
        ∀ v, used (db w') v
             = used (db w) v
               + (if is_none (voucher ci) then 0
                  else usage_step (get_voucher_for_checkout_info ci) v)
    | Raise e => db w' = db w ∧ ∃ message, e = NotApplicable message
    end.
Proof.
  unfold voucher_usage_transaction, _increase_voucher_usage,
    add_voucher_usage_by_customer, increase_voucher_usage, usage_step.
  destruct (voucher ci) as [applied|]; cbn [is_none];
    [|intros [= <- <-]; split; [done|]; intros v; lia].
  mrun. split; [done|]. revert H.
  destruct (get_voucher_for_checkout_info ci) as [v'|]; mrun;
    [|intros [= <- <-]; intros v; lia].
  destruct (apply_once_per_customer v'); mrun;
    [destruct (customer_usage_allowed _ v' _); mrun;
     [|intros [= <- <-]; split; [done|by eexists]]|];
    (destruct (truthy_opt_Z (usage_limit v')); mrun;
     intros [= <- <-]; intros v; fsimpl; cbn [andb];
     rewrite ?used_increase, ?used_set_voucher_customers;
     repeat case_bool_decide; unfold used; fsimpl; lia).
Qed.

(** X25. When the locked block after the payment returns an order, no
    action is required, the checkout row is gone, and a look-up by the
    checkout token finds that very order, whether this attempt created the
    order or found the checkout already completed.  The checkout rows are
    keyed by their token. *)
Theorem locked_post_payment_order_stored ci payment txn od user ss ml pml
    w o a data w' :
  (∀ row, checkouts (concurrent_activity (db w)) !! token (checkout ci) = Some row →
          token row = token (checkout ci)) →
  locked_post_payment ci payment txn od user ss ml pml w
  = (Ok (Some o, a, data), w') →
  a = false ∧ data = ∅
  ∧ checkouts (db w') !! token (checkout ci) = None
  ∧ order_by_token (db w') (token (checkout ci)) = Some o.
Proof.
  intros Hkeyed.
  unfold locked_post_payment, others_commit, select_for_update_checkout. mrun.
  destruct (checkouts (concurrent_activity (db w)) !! token (checkout ci))
    as [row|] eqn:Hrow; mrun; [|by intros [= <- <- <- <-]].
  intros Hrun. apply post_payment_order_found in Hrun.
  cbn in Hrun. by rewrite (Hkeyed row eq_refl) in Hrun.
Qed.

(** The gateway transactions are as they were. *)
Definition same_gateway_transactions (w w' : World) : Prop :=
  gateway_transactions (db w') = gateway_transactions (db w).

#[local] Instance same_gateway_transactions_footprint :
  Footprint same_gateway_transactions.
Proof.
  split; unfold same_gateway_transactions; [done| |done].
  intros w1 w2 w3. congruence.
Qed.




End Retry.

Section ScenarioRetries.

#[local] Existing Instances scenario_calculations scenario_discounts
  scenario_gift_cards scenario_validators scenario_plugins scenario_gateway.

#[local] Abbreviation shop := (scenario_environment channel_payment_flow id).
#[local] Abbreviation info := (checkout_info_of channel_payment_flow checkout1).

(** The first transaction of the transaction flow takes the usage of the
    scenario voucher from two to three. *)
Lemma voucher_usage_transaction_usage_witness :
  ∃ w',
    voucher_usage_transaction (ledger:=scenario_discounts)
      (checkout_info_of channel_transaction_flow checkout1)
      world_transaction_flow
    = (Ok tt, w')
    ∧ used (db w') voucher10 = 3.
Proof.
  assert (∃ w',
            voucher_usage_transaction (ledger:=scenario_discounts)
              (checkout_info_of channel_transaction_flow checkout1)
              world_transaction_flow
            = (Ok tt, w')) as (w' & Hrun)
    by (eexists; vm_compute; reflexivity).
  exists w'. split; [exact Hrun|].
  exact (proj2 (voucher_usage_transaction_usage _ _ _ _ Hrun) voucher10).
Defined.

(** The locked block after the payment creates order 0 and deletes the
    checkout. *)
Lemma locked_post_payment_order_stored_witness :
  ∃ o w',
    locked_post_payment (warehouse:=scenario_warehouse true) (environment:=shop)
      info (Some payment1) (Some txn_ok) order_data1 None None None None world0
    = (Ok (Some o, false, ∅), w')
    ∧ checkouts (db w') !! "tok-1" = None
    ∧ order_by_token (db w') "tok-1" = Some o.
Proof.
  assert (∃ o w',
            locked_post_payment (warehouse:=scenario_warehouse true)
              (environment:=shop) info (Some payment1) (Some txn_ok) order_data1
              None None None None world0
            = (Ok (Some o, false, ∅), w')) as (o & w' & Hrun)
    by (eexists _, _; vm_compute; reflexivity).
  exists o, w'. split; [exact Hrun|].
  pose proof (locked_post_payment_order_stored
                (warehouse:=scenario_warehouse true) (environment:=shop) info
                (Some payment1) (Some txn_ok) order_data1 None None None None
                world0 o false ∅ w') as Hstored.
  destruct Hstored as (_ & _ & Hgone & Hfound);
    [intros row; vm_compute; by intros [= <-]|exact Hrun|].
  split; [exact Hgone|exact Hfound].
Defined.


End ScenarioRetries.

(** ** Completed checkouts are deleted *)

(** Every checkout row is stored under its token and has no order: a
    checkout that was turned into an order has been deleted. *)
Definition open_checkouts (d : Db) : Prop :=
  ∀ k row, checkouts d !! k = Some row →
           token row = k ∧ order_by_token d k = None.

(** No two orders share a checkout token, and no checkout with a row has
    an order. *)
Definition completed_once (d : Db) : Prop := unique_tokens d ∧ open_checkouts d.

Lemma completed_once_ext d d' :
  orders d' = orders d → checkouts d' = checkouts d →
  completed_once d → completed_once d'.
Proof.
  intros Horders Hcheckouts [Huniq Hopen]. split.
  - unfold unique_tokens. by rewrite Horders.
  - intros k row. unfold order_by_token. rewrite Hcheckouts, Horders.
    apply Hopen.
Qed.

Lemma completed_once_delete d tok :
  completed_once d → completed_once (set_checkouts (delete tok) d).
Proof.
  intros [Huniq Hopen]. split; [done|].
  intros k row Hrow. fsimpl. apply lookup_delete_Some in Hrow as [_ Hrow].
  by apply Hopen.
Qed.

(** A new order for a token without order, once the checkout of that token
    is deleted. *)
Lemma completed_once_completed d d' o :
  orders d' = orders d ++ [o] →
  checkouts d' = delete (checkout_token o) (checkouts d) →
  order_by_token d (checkout_token o) = None →
  completed_once d → completed_once d'.
Proof.
  intros Horders Hcheckouts Hnone [Huniq Hopen]. split.
  - unfold unique_tokens. rewrite Horders, fmap_app. cbn.
    apply NoDup_app. split; [done|]. split; [|apply NoDup_singleton].
    intros tok Hin Hin'. apply list_elem_of_singleton in Hin'. subst tok.
    by apply order_by_token_None in Hnone.
  - intros k row. rewrite Hcheckouts. intros Hrow.
    apply lookup_delete_Some in Hrow as [Hk Hrow].
    destruct (Hopen k row Hrow) as [Htoken Hk_none]. split; [done|].
    unfold order_by_token in *.
    rewrite Horders, filter_app, filter_cons_False, filter_nil, app_nil_r by done.
    exact Hk_none.
Qed.

(** A function keeps [completed_once]. *)
Definition keeps_completed_once (w w' : World) : Prop :=
  completed_once (db w) → completed_once (db w').

#[global] Instance keeps_completed_once_footprint : Footprint keeps_completed_once.
Proof. split; unfold keeps_completed_once; auto. Qed.

(** A write to a table other than the orders and the checkouts, or an
    event, keeps it. *)
Ltac once_leaf :=
  match goal with
  | |- within _ (modify_db _) =>
      let HI := fresh "HI" in
      intros ? HI; eapply completed_once_ext; cycle 2;
      [exact HI|reflexivity|reflexivity]
  | |- within _ (emit _) => let HI := fresh "HI" in intros ? HI; exact HI
  end.

Ltac once_tac :=
  repeat first [ solve [eauto with within typeclass_instances]
               | within_step | once_leaf ].

Section CompletedOnce.

Context {pricing : Calculations} {ledger : Discounts} {warehouse : Warehouse}
  {cards : GiftCards} {cleaner : Validators} {manager : PluginsManager}
  {psp : Gateway} {environment : Environment}.

Abbreviation kept := (within keeps_completed_once).

Lemma once_save_checkout c : kept (save_checkout c).
Proof.
  intros w [Huniq Hopen]. split; [done|].
  intros k row. unfold order_by_token. cbn. fsimpl.
  change (last (filter (λ o, checkout_token o = k) (orders (db w))))
    with (order_by_token (db w) k).
  destruct (checkouts (db w) !! token c) as [old|] eqn:Hold; [|by apply Hopen].
  destruct (decide (k = token c)) as [->|Hk].
  - rewrite lookup_insert_eq. intros [= <-]. split; [done|].
    by destruct (Hopen _ _ Hold).
  - rewrite lookup_insert_ne by done. apply Hopen.
Qed.

Lemma once_delete_checkout_row c : kept (delete_checkout_row c).
Proof. intros w HI. by apply completed_once_delete. Qed.

Lemma once_release_voucher_usage v m : kept (release_voucher_usage v m).
Proof. unfold release_voucher_usage. once_tac. Qed.

Lemma once_payment_refund_or_void p : kept (payment_refund_or_void p).
Proof. unfold payment_refund_or_void. once_tac. Qed.

Lemma once_select_for_update_checkout pk : kept (select_for_update_checkout pk).
Proof. unfold select_for_update_checkout. once_tac. Qed.

#[local] Hint Resolve once_save_checkout once_delete_checkout_row
  once_release_voucher_usage once_payment_refund_or_void
  once_select_for_update_checkout : within.

Lemma once_fetch_checkout_data ci lines : kept (fetch_checkout_data ci lines).
Proof. unfold fetch_checkout_data. once_tac. Qed.

Lemma once__prepare_checkout ci lines url : kept (_prepare_checkout ci lines url).
Proof. unfold _prepare_checkout. once_tac. Qed.

#[local] Hint Resolve once_fetch_checkout_data once__prepare_checkout : within.

Lemma once__prepare_checkout_with_payment ci lines url p :
  kept (_prepare_checkout_with_payment ci lines url p).
Proof. unfold _prepare_checkout_with_payment. once_tac. Qed.

Lemma once__process_shipping_data_for_order ci b s lines :
  kept (_process_shipping_data_for_order ci b s lines).
Proof.
  intros w HI.
  destruct (_process_shipping_data_for_order_run ci b s lines w)
    as (sd & book & seq & ->).
  by eapply completed_once_ext; cycle 2.
Qed.

Lemma once__process_user_data_for_order ci :
  kept (_process_user_data_for_order ci).
Proof.
  intros w HI.
  destruct (_process_user_data_for_order_run ci w) as (ud & book & seq & ->).
  by eapply completed_once_ext; cycle 2.
Qed.

Lemma once__create_lines_for_order ci lines t :
  kept (_create_lines_for_order ci lines t).
Proof.
  apply within_unchanged; [exact _|]. intros w.
  apply _create_lines_for_order_world.
Qed.

Lemma once__process_voucher_data_for_order ci :
  kept (_process_voucher_data_for_order ci).
Proof.
  unfold _process_voucher_data_for_order, increase_voucher_usage,
    add_voucher_usage_by_customer.
  once_tac.
Qed.

#[local] Hint Resolve once__prepare_checkout_with_payment
  once__process_shipping_data_for_order once__process_user_data_for_order
  once__create_lines_for_order once__process_voucher_data_for_order : within.

Lemma once__prepare_order_data ci lines t : kept (_prepare_order_data ci lines t).
Proof. unfold _prepare_order_data. once_tac. Qed.

#[local] Hint Resolve once__prepare_order_data : within.

Lemma once__get_order_data ci lines : kept (_get_order_data ci lines).
Proof. unfold _get_order_data. once_tac. Qed.

#[local] Hint Resolve once__get_order_data : within.

Lemma once_complete_checkout_pre_payment_part ci lines user ss url :
  kept (complete_checkout_pre_payment_part ci lines user ss url).
Proof. unfold complete_checkout_pre_payment_part. once_tac. Qed.

Lemma once__reserve_stocks_without_availability_check ci lines :
  kept (_reserve_stocks_without_availability_check ci lines).
Proof.
  intros w HI.
  destruct (_reserve_stocks_without_availability_check_run ci lines w) as (rs & ->).
  by eapply completed_once_ext; cycle 2.
Qed.

Lemma once_voucher_usage_transaction ci : kept (voucher_usage_transaction ci).
Proof.
  unfold voucher_usage_transaction, _increase_voucher_usage,
    add_voucher_usage_by_customer, increase_voucher_usage.
  once_tac.
Qed.

(** What other workers do keeps it. *)
Hypothesis others_keep :
  ∀ d, completed_once d → completed_once (concurrent_activity d).

Lemma once_others_commit : kept others_commit.
Proof. intros w HI. by apply others_keep. Qed.

#[local] Hint Resolve once_complete_checkout_pre_payment_part
  once__reserve_stocks_without_availability_check once_others_commit : within.

Lemma once_locked_pre_payment pk user ss url :
  kept (locked_pre_payment pk user ss url).
Proof. unfold locked_pre_payment. once_tac. Qed.

Lemma once__process_payment p cid store data od slug :
  kept (_process_payment p cid store data od slug).
Proof. unfold _process_payment, gateway_call. once_tac. Qed.

#[local] Hint Resolve once__process_payment : within.

Lemma once_unlocked_payment ci p cid store data od :
  kept (unlocked_payment ci p cid store data od).
Proof. unfold unlocked_payment, refresh_from_db. once_tac. Qed.

(** The post-payment part: an order found by the look-up is returned and
    the checkout deleted; a new order comes with the deletion of its
    checkout; a failure leaves both tables as they were. *)
Lemma once_complete_checkout_post_payment_part ci lines payment txn od user ss
    ml pml :
  kept (complete_checkout_post_payment_part ci lines payment txn od user ss
          ml pml).
Proof.
  intros w HI. unfold complete_checkout_post_payment_part.
  destruct (payment_action_run payment txn od user w)
    as (a0 & data0 & w1 & Hact & _ & Horders1 & Hcheckouts1 & _).
  run_with Hact.
  assert (completed_once (db w1)) as HI1 by by eapply completed_once_ext.
  destruct (_is_refund_ongoing_run payment w1) as (refund & Href).
  run_with Href.
  destruct a0, refund; cbn [negb andb]; mrun; try exact HI1.
  destruct (_create_order ci lines od user ss ml pml w1) as [[order|e] w2]
    eqn:Hcreate; mrun.
  - assert (completed_once (set_checkouts (delete (token (checkout ci))) (db w2)))
      as HI2.
    { destruct (order_by_token (db w1) (token (checkout ci))) as [old|] eqn:Hfind.
      - rewrite (_create_order_existing _ _ _ _ _ _ _ _ _ Hfind) in Hcreate.
        injection Hcreate as <- <-. by apply completed_once_delete.
      - apply _create_order_new in Hcreate
          as (_ & _ & Horders & Hcheckouts & _ & _ & Htoken & _); [|done].
        apply (completed_once_completed (db w1) _ order); fsimpl;
          [done|by rewrite Htoken, Hcheckouts|by rewrite Htoken|done]. }
    unfold delete_checkout_row, mark_order_as_paid_with_payment. mrun.
    destruct (amount (net (order_total order)) =? 0); mrun;
      [destruct (bool_decide _); mrun|]; exact HI2.
  - assert (db w2 = db w1) as Hdb.
    { destruct (order_by_token (db w1) (token (checkout ci))) as [old|] eqn:Hfind.
      - by rewrite (_create_order_existing _ _ _ _ _ _ _ _ _ Hfind) in Hcreate.
      - by apply _create_order_new in Hcreate as (_ & _ & Hdb & _). }
    unfold payment_refund_or_void.
    destruct e; mrun; try (by rewrite Hdb);
      match goal with
      | |- context [release_voucher_usage ?v ?m ?w0] =>
          destruct (release_voucher_usage_run v m w0)
            as (w3 & -> & _ & _ & Horders3 & Hcheckouts3 & _)
      end; mrun;
      (assert (completed_once (db w3)) as HI3
         by (eapply completed_once_ext; [exact Horders3|exact Hcheckouts3|];
             by rewrite Hdb));
      destruct payment; mrun; exact HI3.
Qed.

#[local] Hint Resolve once_complete_checkout_post_payment_part : within.

Lemma once_locked_post_payment ci payment txn od user ss ml pml :
  kept (locked_post_payment ci payment txn od user ss ml pml).
Proof.
  unfold locked_post_payment, transaction_with_commit_on_errors. once_tac.
Qed.

#[local] Hint Resolve once_locked_pre_payment once_unlocked_payment
  once_locked_post_payment : within.

Lemma once_complete_checkout_with_payment pk data store user ss url ml pml :
  kept (complete_checkout_with_payment pk data store user ss url ml pml).
Proof. unfold complete_checkout_with_payment. once_tac. Qed.

(** The transaction flow has no look-up: that the locked row has no order
    is what [completed_once] says, and with [delete_checkout=True] the row
    goes as its order comes. *)
Lemma once_order_transaction ci user ml pml :
  kept (order_transaction ci user true ml pml).
Proof.
  intros w HI.
  unfold order_transaction, others_commit, select_for_update_checkout.
  mrun. apply others_keep in HI.
  set (d := concurrent_activity (db w)) in *.
  destruct (checkouts d !! token (checkout ci)) as [row|] eqn:Hrow; mrun;
    [|done].
  destruct (proj2 HI _ _ Hrow) as [Hkey Hnone].
  match goal with
  | |- context [_create_order_from_checkout ?a1 ?a2 ?a3 ?a4 ?a5 ?w0] =>
      destruct (_create_order_from_checkout a1 a2 a3 a4 a5 w0) as [r w1] eqn:Hrun;
      apply _create_order_from_checkout_spec in Hrun
        as (_ & _ & Hcheckouts & _ & Hr)
  end.
  destruct r as [o|e]; mrun.
  - destruct Hr as (Horders & _ & Htok & _). cbn [db] in Horders, Hcheckouts.
    rewrite assign_checkout_user_token in Htok.
    unfold delete_checkout_row. mrun. rewrite assign_checkout_user_token.
    apply (completed_once_completed d _ o); fsimpl;
      [done|by rewrite Htok, Hcheckouts|by rewrite Htok, Hkey|done].
  - destruct e; mrun;
      try match goal with
          | |- context [release_voucher_usage ?v ?m ?w0] =>
              destruct (release_voucher_usage_run v m w0) as (w2 & -> & _); mrun
          end; done.
Qed.

Lemma once_create_order_from_checkout ci user ml pml :
  kept (create_order_from_checkout ci user true ml pml).
Proof.
  unfold create_order_from_checkout.
  within_rule within_bind; [apply once_voucher_usage_transaction|intros []].
  apply once_order_transaction.
Qed.

End CompletedOnce.

Section TransactionFlowAppends.

Context {pricing : Calculations} {ledger : Discounts} {warehouse : Warehouse}
  {cards : GiftCards} {cleaner : Validators} {environment : Environment}.

(** [create_order_from_checkout] has no look-up by the token: when it finds
    the checkout row and returns, it has appended a new order with the
    row's token, and deleted the row exactly when asked to. *)
Lemma create_order_from_checkout_appends ci user del ml pml w r w' row :
  let d := concurrent_activity (db (voucher_usage_transaction ci w).2) in
  checkouts d !! token (checkout ci) = Some row →
  create_order_from_checkout ci user del ml pml w = (Ok r, w') →
  ∃ o, r = Some o
       ∧ orders (db w') = orders d ++ [o]
       ∧ checkout_token o = token row
       ∧ checkouts (db w')
         = (if del then delete (token row) (checkouts d) else checkouts d)
       ∧ order_by_token (db w') (token row) = Some o
       ∧ (order_by_token d (token row) ≠ None → ¬ unique_tokens (db w'))
       ∧ (del = false → token row = token (checkout ci) →
          ¬ open_checkouts (db w')).
Proof.
  intros d Hrow. unfold create_order_from_checkout. rewrite bind_run.
  subst d. destruct (voucher_usage_transaction ci w) as [[[]|e] w1];
    [|discriminate]. cbn [snd] in Hrow.
  unfold order_transaction, others_commit, select_for_update_checkout. mrun.
  rewrite Hrow. mrun.
  match goal with
  | |- context [_create_order_from_checkout ?a1 ?a2 ?a3 ?a4 ?a5 ?w0] =>
      destruct (_create_order_from_checkout a1 a2 a3 a4 a5 w0)
        as [[o|e] w2] eqn:Hrun;
      apply _create_order_from_checkout_spec in Hrun
        as (_ & _ & Hcheckouts & _ & Hr)
  end; mrun.
  - destruct Hr as (Horders & _ & Htoken & _). cbn [db] in Horders, Hcheckouts.
    rewrite assign_checkout_user_token in Htoken.
    assert (∀ d', orders d' = orders w2.(db) →
                  order_by_token d' (token row) = Some o) as Hfound.
    { intros d' Hd'. rewrite <- Htoken.
      apply (order_by_token_snoc (concurrent_activity (db w1))).
      by rewrite Hd'. }
    assert (∀ d', orders d' = orders w2.(db) →
                  order_by_token (concurrent_activity (db w1)) (token row) ≠ None →
                  ¬ unique_tokens d') as Hdouble.
    { intros d' Hd' Hsome Huniq. apply Hsome, order_by_token_None.
      unfold unique_tokens in Huniq.
      rewrite Hd', Horders, fmap_app in Huniq. cbn in Huniq.
      apply NoDup_app in Huniq as (_ & Hnotin & _).
      intros Hin. apply (Hnotin _ Hin). rewrite Htoken. apply list_elem_of_here. }
    destruct del; unfold delete_checkout_row; mrun; intros [= <- <-]; fsimpl;
      exists o; (split; [done|]); (split; [done|]); (split; [done|]).
    + rewrite assign_checkout_user_token, Hcheckouts.
      split; [done|]. split; [by apply Hfound|]. split; [by apply Hdouble|done].
    + split; [done|]. split; [by apply Hfound|]. split; [by apply Hdouble|].
      intros _ Hkey Hopen.
      destruct (Hopen (token (checkout ci)) row) as [_ Hnone];
        [by rewrite Hcheckouts|].
      by rewrite <- Hkey, Hfound in Hnone.
  - destruct e; mrun;
      try match goal with
          | |- context [release_voucher_usage ?v ?m ?w0] =>
              destruct (release_voucher_usage_run v m w0) as (w3 & -> & _); mrun
          end; discriminate.
Qed.

End TransactionFlowAppends.

Section OneOrderPerTokenClaim.

Context {pricing : Calculations} {ledger : Discounts} {warehouse : Warehouse}
  {cards : GiftCards} {cleaner : Validators} {manager : PluginsManager}
  {psp : Gateway} {environment : Environment}.

(** C1. One order per checkout token, as far as the code goes.
    [_create_order] returns the order that the look-up by the checkout
    token finds, and writes nothing; the look-up finds an order whenever
    one with the token exists; when the checkout row is gone at a lock, the
    payment flow (at both locks) and [create_order_from_checkout] return
    what the look-up finds and write nothing themselves; the payment flow
    keeps the tokens of the orders distinct, if what other workers commit
    does; [create_order_from_checkout] keeps them distinct when the locked
    row has no order yet.  [create_order_from_checkout] itself has no
    look-up: a call that finds the checkout row and returns has appended a
    new order with the row's token and deleted the row exactly when
    [delete_checkout] is true; if the token had an order already, two
    orders now share it, and with [delete_checkout=False] the row stays in
    place with an order.  When every checkout row is stored under its
    token and has no order, the tokens of the orders are distinct, and what
    other workers commit keeps this, then the payment flow keeps it, and so
    does [create_order_from_checkout] with [delete_checkout=True]. *)
Theorem one_order_per_token :
  (∀ ci lines od user ss ml pml w order,
     order_by_token (db w) (token (checkout ci)) = Some order →
     _create_order ci lines od user ss ml pml w = (Ok order, w))
  ∧ (∀ d tok, (∃ o, o ∈ orders d ∧ checkout_token o = tok) →
       ∃ o, order_by_token d tok = Some o ∧ o ∈ orders d ∧ checkout_token o = tok)
  ∧ (∀ pk data store user ss url ml pml w,
       checkouts (concurrent_activity (db w)) !! pk = None →
       complete_checkout_with_payment pk data store user ss url ml pml w
       = (Ok (order_by_token (concurrent_activity (db w)) pk, false, ∅),
          mkWorld (concurrent_activity (db w)) (log w) (clock w)))
  ∧ (∀ ci p t od user ss ml pml w,
       checkouts (concurrent_activity (db w)) !! token (checkout ci) = None →
       locked_post_payment ci p t od user ss ml pml w
       = (Ok (order_by_token (concurrent_activity (db w)) (token (checkout ci)),
              false, ∅),
          mkWorld (concurrent_activity (db w)) (log w) (clock w)))
  ∧ (∀ ci user del ml pml w w1,
       voucher_usage_transaction ci w = (Ok tt, w1) →
       checkouts (concurrent_activity (db w1)) !! token (checkout ci) = None →
       create_order_from_checkout ci user del ml pml w
       = (Ok (order_by_token (concurrent_activity (db w1)) (token (checkout ci))),
          mkWorld (concurrent_activity (db w1)) (log w1) (clock w1)))
  ∧ ((∀ d, unique_tokens d → unique_tokens (concurrent_activity d)) →
     (∀ pk data store user ss url ml pml w, unique_tokens (db w) →
        unique_tokens
          (db (complete_checkout_with_payment pk data store user ss url ml pml
                 w).2))
     ∧ (∀ ci user del ml pml w, unique_tokens (db w) →
          (∀ row,
             checkouts (concurrent_activity (db (voucher_usage_transaction ci w).2))
               !! token (checkout ci) = Some row →
             order_by_token
               (concurrent_activity (db (voucher_usage_transaction ci w).2))
               (token row) = None) →
          unique_tokens (db (create_order_from_checkout ci user del ml pml w).2)))
  ∧ (∀ ci user del ml pml w r w' row,
       checkouts (concurrent_activity (db (voucher_usage_transaction ci w).2))
         !! token (checkout ci) = Some row →
       create_order_from_checkout ci user del ml pml w = (Ok r, w') →
       ∃ o, r = Some o
            ∧ orders (db w')
              = orders (concurrent_activity (db (voucher_usage_transaction ci w).2))
                ++ [o]
            ∧ checkout_token o = token row
            ∧ checkouts (db w')
              = (if del
                 then delete (token row)
                        (checkouts (concurrent_activity
                                      (db (voucher_usage_transaction ci w).2)))
                 else checkouts (concurrent_activity
                                   (db (voucher_usage_transaction ci w).2)))
            ∧ order_by_token (db w') (token row) = Some o
            ∧ (order_by_token
                 (concurrent_activity (db (voucher_usage_transaction ci w).2))
                 (token row) ≠ None →
               ¬ unique_tokens (db w'))
            ∧ (del = false → token row = token (checkout ci) →
               ¬ open_checkouts (db w')))
  ∧ ((∀ d, completed_once d → completed_once (concurrent_activity d)) →
     (∀ pk data store user ss url ml pml w, completed_once (db w) →
        completed_once
          (db (complete_checkout_with_payment pk data store user ss url ml pml
                 w).2))
     ∧ (∀ ci user ml pml w, completed_once (db w) →
          completed_once (db (create_order_from_checkout ci user true ml pml w).2))).
Proof.
  split; [intros; by apply _create_order_existing|].
  split; [exact order_by_token_found|].
  split; [intros; by apply complete_checkout_with_payment_lost_race|].
  split; [intros; by apply locked_post_payment_lost_race|].
  split.
  { intros ci user del ml pml w w1 Hvoucher Hgone.
    unfold create_order_from_checkout. rewrite bind_run, Hvoucher.
    by apply order_transaction_lost_race. }
  split.
  { intros Hothers. split.
    - intros pk data store user ss url ml pml w Huniq.
      by apply (keeps_complete_checkout_with_payment Hothers).
    - intros ci user del ml pml w Huniq Hfresh.
      pose proof (keeps_voucher_usage_transaction
                    (λ l, NoDup (checkout_token <$> l)) ci w Huniq) as Huniq1.
      unfold create_order_from_checkout. rewrite bind_run.
      destruct (voucher_usage_transaction ci w) as [[[]|e] w1]; [|done].
      apply order_transaction_unique; [by apply Hothers|done]. }
  split.
  { intros ci user del ml pml w r w' row Hrow Hrun.
    exact (create_order_from_checkout_appends ci user del ml pml w r w' row
             Hrow Hrun). }
  intros Hothers. split.
  - intros pk data store user ss url ml pml w.
    by apply once_complete_checkout_with_payment.
  - intros ci user ml pml w. by apply once_create_order_from_checkout.
Qed.

End OneOrderPerTokenClaim.

(** ** The claim on the scenario *)

Section OneOrderPerTokenRuns.

#[local] Existing Instances scenario_calculations scenario_discounts
  scenario_gift_cards scenario_validators scenario_plugins scenario_gateway.

#[local] Abbreviation shop := (scenario_environment channel_payment_flow id).
#[local] Abbreviation info := (checkout_info_of channel_payment_flow checkout1).
#[local] Abbreviation pay :=
  (complete_checkout_with_payment (warehouse:=scenario_warehouse true)
     (environment:=shop) "tok-1" None false None None None None None).

Lemma run_pair {A} (m : M A) w r : (m w).1 = r → m w = (r, (m w).2).
Proof. intros <-. by destruct (m w). Qed.

(** The scenario checkout is paid and completed; its row is gone and its
    order found by the token.  From there the materializer returns that
    order and writes nothing, and so does a second completion, which finds
    the row gone.  In the transaction flow, keeping the checkout row, the
    second call finds the row again and leaves two orders with its token. *)
Lemma one_order_per_token_witness :
  ∃ o,
    completed_once (db world0)
    ∧ (pay world0).1 = Ok (Some o, false, ∅)
    ∧ completed_once (db (pay world0).2)
    ∧ order_by_token (db (pay world0).2) "tok-1" = Some o
    ∧ _create_order (warehouse:=scenario_warehouse true) (environment:=shop)
        info [line_info1] order_data1 None None None None (pay world0).2
      = (Ok o, (pay world0).2)
    ∧ pay (pay world0).2 = (Ok (Some o, false, ∅), (pay world0).2)
    ∧ unique_tokens (db (pay (pay world0).2).2)
    ∧ ¬ unique_tokens
          (db (complete_keeping_checkout
                 (complete_keeping_checkout world_transaction_flow).2).2).
Proof.
  destruct (one_order_per_token (warehouse:=scenario_warehouse true)
              (environment:=shop))
    as (Hguard & _ & Hrace & _ & _ & Huniq & _ & Honce).
  destruct (one_order_per_token (warehouse:=scenario_warehouse true)
              (environment:=scenario_environment channel_transaction_flow id))
    as (_ & _ & _ & _ & _ & _ & Happends & _).
  assert (completed_once (db world0)) as Hstart.
  { split; [apply NoDup_nil_2|]. intros k row Hrow.
    change (checkouts (db world0)) with ({[ "tok-1" := checkout1 ]} : gmap string Checkout)
      in Hrow.
    apply lookup_singleton_Some in Hrow as [<- <-]. by split. }
  assert (∃ o, (pay world0).1 = Ok (Some o, false, ∅)
               ∧ order_by_token (db (pay world0).2) "tok-1" = Some o
               ∧ checkouts (db (pay world0).2) !! "tok-1" = None)
    as (o & Hrun & Hfind & Hgone)
    by (eexists; vm_compute; split; [reflexivity|split; reflexivity]).
  assert (∃ r, (complete_keeping_checkout
                  (complete_keeping_checkout world_transaction_flow).2).1 = Ok r)
    as (r & Hagain) by (eexists; vm_compute; reflexivity).
  apply run_pair in Hagain.
  pose proof (Happends (checkout_info_of channel_transaction_flow checkout1)
                None false None None
                (complete_keeping_checkout world_transaction_flow).2
                r _ checkout1 ltac:(vm_compute; reflexivity) Hagain)
    as (_ & _ & _ & _ & _ & _ & Hshared & _).
  pose proof (proj1 (Honce (λ d H, H))
                "tok-1" None false None None None None None world0 Hstart)
    as Hkept.
  exists o. split; [exact Hstart|]. split; [exact Hrun|].
  split; [exact Hkept|]. split; [exact Hfind|].
  clear Hrun. destruct (pay world0) as [res w1]. cbn [snd] in *.
  split; [exact (Hguard info [line_info1] order_data1 None None None None w1 o
                   Hfind)|].
  assert (pay w1 = (Ok (Some o, false, ∅), w1)) as Hsecond.
  { rewrite (Hrace "tok-1" None false None None None None None w1 Hgone).
    change (concurrent_activity (db w1)) with (db w1).
    rewrite Hfind. by destruct w1. }
  split; [exact Hsecond|].
  split.
  - apply (proj1 (Huniq (λ d H, H))). apply Hkept.
  - apply Hshared. vm_compute. discriminate.
Defined.

End OneOrderPerTokenRuns.
